(** * PicoData: the hex-text TLV codec, the sensor registry and the decoders

    A shallow embedding of [pico-json.py] and [pico-raw.py].  Python values
    are modelled as follows.

    - A [str] is a list of 8-bit characters ([pystr]).  Every string the
      scripts handle is produced by [BinToHex] (lower-case hex digits and
      spaces) or by [chr] of a two-character hex group, so all of them fit.
    - An [int] is a [Z]; a [float] is a primitive IEEE-754 binary64 [float].
    - A [dict] with integer or string keys is a [gmap].
    - An exception is the [Raise] outcome; a loop that never ends is the
      [Diverge] outcome. *)

From Stdlib Require Import ZArith List Ascii String Floats Uint63 Lia Bool.
From Stdlib Require Import Strings.Byte.
From stdpp Require Import gmap strings list.
Import ListNotations.
Local Open Scope Z_scope.

(** ** Outcomes of running Python code *)

Inductive exn : Type :=
| ValueError
| TypeError
| KeyError
| IndexError
| ZeroDivisionError
| OverflowError.

Inductive outcome (A : Type) : Type :=
| Ok (a : A)
| Raise (e : exn)
| Diverge.

Arguments Ok {A} a.
Arguments Raise {A} e.
Arguments Diverge {A}.

Definition bind {A B : Type} (m : outcome A) (k : A -> outcome B) : outcome B :=
  match m with
  | Ok a => k a
  | Raise e => Raise e
  | Diverge => Diverge
  end.

Notation "'let*' x ':=' m 'in' k" := (bind m (fun x => k))
  (at level 10, x name, m at level 100, k at level 200).

Definition returns {A : Type} (m : outcome A) : Prop := exists a, m = Ok a.

(** ** Python strings *)

Abbreviation pystr := (list ascii).

Definition py (s : string) : pystr := list_ascii_of_string s.

(** [s[a:b]] and [s[a:]] for non-negative constant bounds: slices never raise,
    they are clipped to the string. *)
Definition slice (a b : nat) (s : pystr) : pystr := take (b - a) (drop a s).
Definition slice_from (a : nat) (s : pystr) : pystr := drop a s.

Definition pystr_eqb (s t : pystr) : bool := bool_decide (s = t).

Definition code (c : ascii) : N := N_of_ascii c.

(** The characters [int()] skips around a literal: the C [isspace] set, and
    the two Latin-1 spaces that CPython turns into a blank beforehand. *)
Definition int_space (c : ascii) : bool :=
  let n := code c in
  ((9 <=? n) && (n <=? 13) || (n =? 32) || (n =? 133) || (n =? 160))%N.

(** The characters [str.split()] splits on ([str.isspace]). *)
Definition str_space (c : ascii) : bool :=
  let n := code c in
  ((9 <=? n) && (n <=? 13) || (28 <=? n) && (n <=? 32) || (n =? 133) || (n =? 160))%N.

(** Value of a digit in base 16, as [_PyLong_DigitValue] gives it. *)
Definition hex_digit (c : ascii) : option Z :=
  let n := code c in
  if ((48 <=? n) && (n <=? 57))%N then Some (Z.of_N n - 48)
  else if ((97 <=? n) && (n <=? 102))%N then Some (Z.of_N n - 87)
  else if ((65 <=? n) && (n <=? 70))%N then Some (Z.of_N n - 55)
  else None.

Definition is_underscore (c : ascii) : bool := (code c =? 95)%N.

(** The digit loop of [PyLong_FromString]: digits with single underscores
    between them.  [prev_us] says that the last character was an underscore;
    the result is the value, the number of digits and the unread rest. *)
Fixpoint scan_digits (prev_us : bool) (acc : Z) (n : nat) (s : pystr)
  : option (Z * nat * pystr) :=
  match s with
  | [] => if prev_us then None else Some (acc, n, [])
  | c :: s' =>
      if is_underscore c then
        if prev_us then None else scan_digits true acc n s'
      else
        match hex_digit c with
        | Some d => scan_digits false (16 * acc + d) (S n) s'
        | None => if prev_us then None else Some (acc, n, s)
        end
  end.

Fixpoint drop_while {A : Type} (p : A -> bool) (l : list A) : list A :=
  match l with
  | [] => []
  | x :: l' => if p x then drop_while p l' else l
  end.

Definition strip_sign (s : pystr) : bool * pystr :=
  match s with
  | c :: t =>
      if (code c =? 43)%N then (false, t)
      else if (code c =? 45)%N then (true, t)
      else (false, s)
  | [] => (false, s)
  end.

(** An optional [0x] or [0X], and one underscore after it. *)
Definition strip_0x (s : pystr) : pystr :=
  match s with
  | z :: x :: t =>
      if ((code z =? 48) && ((code x =? 120) || (code x =? 88)))%N then
        match t with
        | u :: t' => if is_underscore u then t' else t
        | [] => t
        end
      else s
  | _ => s
  end.

(** [int(s, 16)]; [None] is [ValueError]. *)
Definition int16 (s : pystr) : option Z :=
  let '(neg, s2) := strip_sign (drop_while int_space s) in
  let s3 := strip_0x s2 in
  match s3 with
  | u :: _ =>
      if is_underscore u then None
      else
        match scan_digits false 0 0 s3 with
        | Some (v, S _, rest) =>
            if forallb int_space rest then Some (if neg then - v else v) else None
        | _ => None
        end
  | [] => None
  end.

Definition py_int16 (s : pystr) : outcome Z :=
  match int16 s with
  | Some z => Ok z
  | None => Raise ValueError
  end.

(** [s.replace(' ', '')], which is also [''.join(s.split(" "))]. *)
Definition remove_spaces (s : pystr) : pystr :=
  List.filter (fun c => negb (code c =? 32)%N) s.

(** [chr(z)] for the code points of the model; a negative argument raises. *)
Definition py_chr (z : Z) : outcome ascii :=
  if (0 <=? z) && (z <? 256) then Ok (ascii_of_N (Z.to_N z)) else Raise ValueError.

(** The loop of [HexToByte] over the string with its blanks removed: two
    characters at a time, a last single one included. *)
Fixpoint hex_chunks (s : pystr) : outcome pystr :=
  match s with
  | [] => Ok []
  | [c] => let* z := py_int16 [c] in let* x := py_chr z in Ok [x]
  | c1 :: c2 :: t =>
      let* z := py_int16 [c1; c2] in
      let* x := py_chr z in
      let* r := hex_chunks t in
      Ok (x :: r)
  end.

Definition HexToByte (hexStr : pystr) : outcome pystr :=
  hex_chunks (remove_spaces hexStr).

(** ** The field codec: [getNextField] *)

(** What a field decodes to: the list [[a, b]] or a string.  The "no data"
    answer of a type-3 field is the empty string. *)
Inductive field_data : Type :=
| FList (a b : Z)
| FStr (s : pystr).

Definition Absent : field_data := FStr [].

Definition sentinel : pystr := py "7f ff ff ff".

(** [a = int(data[0:5].replace(' ', ''), 16)] and the same for [data[6:11]]. *)
Definition two_ints (data : pystr) : outcome field_data :=
  let* a := py_int16 (remove_spaces (slice 0 5 data)) in
  let* b := py_int16 (remove_spaces (slice 6 11 data)) in
  Ok (FList a b).

(** The [while (nextHex != '00')] loop of a text field, on [(response, word)].
    Once fewer than three characters are left and no terminator was seen,
    [response] becomes empty and the loop repeats the same state for ever. *)
Fixpoint scan_text (response word : pystr) : outcome (pystr * pystr) :=
  match response with
  | c1 :: c2 :: t =>
      if pystr_eqb [c1; c2] (py "00") then Ok (word, response)
      else
        match t with
        | _ :: t' => scan_text t' (word ++ [c1; c2])
        | [] => Diverge
        end
  | _ => Diverge
  end.

(** [Ok None] is the [None] the function returns after logging an unknown
    field type. *)
Definition getNextField (response : pystr)
  : outcome (option (Z * field_data * pystr)) :=
  let* field_nr := py_int16 (slice 0 2 response) in
  let* field_type := py_int16 (slice 3 5 response) in
  if field_type =? 1 then
    let data := slice 6 17 response in
    let response := slice_from 21 response in
    let* d := two_ints data in
    Ok (Some (field_nr, d, response))
  else if field_type =? 3 then
    let data := slice 21 32 response in
    let response := slice_from 36 response in
    if pystr_eqb (slice 0 11 data) sentinel then
      Ok (Some (field_nr, Absent, response))
    else
      let* d := two_ints data in
      Ok (Some (field_nr, d, response))
  else if field_type =? 4 then
    let response := slice_from 21 response in
    let* p := scan_text response [] in
    let '(word, response) := p in
    let* word := HexToByte word in
    let response := slice_from 6 response in
    Ok (Some (field_nr, FStr word, response))
  else Ok None.

(** ** The frame decoder: [parseResponse] *)

(** The [while (len(response) > 6)] loop.  Unpacking the [None] of an unknown
    field type into three names raises [TypeError].  The loop is run with as
    much fuel as the frame has characters, which it never uses up
    ([parse_loop_fuel]). *)
Fixpoint parse_loop (fuel : nat) (response : pystr) (dict : gmap Z field_data)
  : outcome (gmap Z field_data) :=
  if (6 <? length response)%nat then
    match fuel with
    | O => Diverge
    | S fuel' =>
        let* r := getNextField response in
        match r with
        | None => Raise TypeError
        | Some (field_nr, data, response') =>
            parse_loop fuel' response' (<[field_nr := data]> dict)
        end
    end
  else Ok dict.

Definition parseResponse (response : pystr) : outcome (gmap Z field_data) :=
  parse_loop (length response) (slice_from 42 response) ∅.


(** ** Formatting integers in hexadecimal *)

Definition hex_char (d : N) : ascii :=
  ascii_of_N (if (d <? 10)%N then 48 + d else 87 + d)%N.

Fixpoint to_hex_aux (fuel : nat) (n : N) (acc : pystr) : pystr :=
  match fuel with
  | O => acc
  | S fuel' =>
      let acc' := hex_char (n mod 16) :: acc in
      if (n / 16 =? 0)%N then acc' else to_hex_aux fuel' (n / 16) acc'
  end.

(** The lower-case hexadecimal digits of [n], at least one. *)
Definition to_hex (n : N) : pystr := to_hex_aux (S (N.size_nat n)) n [].

(** ["%02x" % z] and [format(z, '02x')]: zero-padded to two characters, the
    sign of a negative number counted in the width. *)
Definition fmt_02x (z : Z) : pystr :=
  if z <? 0 then py "-" ++ to_hex (Z.to_N (- z))
  else
    let ds := to_hex (Z.to_N z) in
    if (length ds <? 2)%nat then py "0" ++ ds else ds.

Definition hexdump (b : Z) : pystr :=
  let hex := fmt_02x b in
  let hex := if (length hex =? 3)%nat then py "0" ++ hex else hex in
  let hex := if (length hex =? 2)%nat then py "00" ++ hex else hex in
  slice 0 2 hex ++ py " " ++ slice 2 4 hex.

(** A byte of a [bytes] object as the [int] that iterating over it gives. *)
Definition byte_val (x : byte) : Z := Z.of_N (Byte.to_N x).

(** [format(x, '02x')] for a byte. *)
Definition hex_byte (x : byte) : pystr := fmt_02x (byte_val x).

(** [BinToHex]: every byte as two hex digits and a blank. *)
Definition BinToHex (message : list byte) : pystr :=
  concat (map (fun x => hex_byte x ++ py " ") message).

(** ** The checksum of a command: [add_crc] *)

(** [s.split()]: the maximal runs of non-blank characters.  [cur] is the run
    being read, in reverse. *)
Fixpoint split_ws_aux (cur : pystr) (s : pystr) : list pystr :=
  match s with
  | [] => match cur with [] => [] | _ => [rev cur] end
  | c :: t =>
      if str_space c then
        match cur with
        | [] => split_ws_aux [] t
        | _ => rev cur :: split_ws_aux [] t
        end
      else split_ws_aux (c :: cur) t
  end.

Definition split_ws (s : pystr) : list pystr := split_ws_aux [] s.

Fixpoint map_outcome {A B : Type} (f : A -> outcome B) (l : list A)
  : outcome (list B) :=
  match l with
  | [] => Ok []
  | x :: l' =>
      let* y := f x in
      let* ys := map_outcome f l' in
      Ok (y :: ys)
  end.

Section Checksum.

(** [brainsmoke.calc_rev_crc16] is an imported module that is not part of
    the two scripts: it is a parameter here. *)
Variable calc_rev_crc16 : list Z -> Z.

(** The list handed to [calc_rev_crc16]: [message_int[0:-1]], where
    [message_int] is [fields[1:]] read as hexadecimal numbers. *)
Definition crc_input (message : pystr) : outcome (list Z) :=
  let fields := split_ws message in
  let* message_int := map_outcome py_int16 (tail fields) in
  Ok (removelast message_int).

Definition add_crc (message : pystr) : outcome pystr :=
  let* input := crc_input message in
  let crc_int := calc_rev_crc16 input in
  Ok (message ++ py " " ++ hexdump crc_int).

End Checksum.

(** ** The gate of the receive loop of [pico-json.py] *)

(** One turn of the [while True] loop for a received datagram, as far as the
    frame mapping [element] that the sensor decoders read: [Ok None] when the
    datagram is skipped, [Ok (Some element)] when it is decoded.  [Raise] is
    an exception that nothing catches, which ends the process. *)
Definition loop_iteration (message : list byte)
  : outcome (option (gmap Z field_data)) :=
  if ((100 <? length message) && (length message <? 1000))%nat then
    let response := BinToHex message in
    match response !! 18%nat with
    | None => Raise IndexError
    | Some c =>
        if (code c =? 98)%N then
          let* element := parseResponse response in
          Ok (Some element)
        else Ok None
    end
  else Ok None.


(** ** Python numbers *)

(** An element of a decoded field, a sensor id or a type code: an [int], or
    the one-character string that indexing a string gives. *)
Inductive scalar : Type :=
| SInt (z : Z)
| SStr (s : pystr).

#[global] Instance scalar_eq_dec : EqDecision scalar.
Proof. solve_decision. Defined.

#[global] Instance scalar_countable : Countable scalar.
Proof.
  refine (inj_countable'
            (fun x => match x with SInt z => inl z | SStr s => inr s end)
            (fun y => match y with inl z => SInt z | inr s => SStr s end) _).
  intros []; reflexivity.
Defined.

(** The values a sensor descriptor holds. *)
Inductive pyval : Type :=
| VInt (z : Z)
| VFloat (x : float)
| VStr (s : pystr)
| VList (a b : Z).

Definition of_scalar (x : scalar) : pyval :=
  match x with SInt z => VInt z | SStr s => VStr s end.

Definition of_field (d : field_data) : pyval :=
  match d with FList a b => VList a b | FStr s => VStr s end.

(** [float(z)]: exact below [2^53] in absolute value, which covers every
    integer the decoders convert (at most five hex digits, times 432). *)
Definition float_of_Z (z : Z) : float :=
  if z <? 0 then PrimFloat.opp (PrimFloat.of_uint63 (Uint63.of_Z (- z)))
  else PrimFloat.of_uint63 (Uint63.of_Z z).

(** A number as a [float] operand; a string or a list is no operand. *)
Definition as_float (v : pyval) : outcome float :=
  match v with
  | VInt z => Ok (float_of_Z z)
  | VFloat x => Ok x
  | _ => Raise TypeError
  end.

(** [x / y] on floats: Python raises where IEEE gives an infinity or a NaN. *)
Definition fdiv (x y : float) : outcome float :=
  if PrimFloat.eqb y 0 then Raise ZeroDivisionError else Ok (PrimFloat.div x y).

(** [x / y] on numbers: the true division of Python 3. *)
Definition truediv (x y : pyval) : outcome float :=
  let* a := as_float x in
  let* b := as_float y in
  fdiv a b.

(** [if v]: zero, the empty string are false. *)
Definition truthy (v : pyval) : bool :=
  match v with
  | VInt z => negb (z =? 0)
  | VFloat x => negb (PrimFloat.eqb x 0)
  | VStr s => negb (pystr_eqb s [])
  | VList _ _ => true
  end.

(** [num / 2^s] rounded to the nearest integer, ties to even, for
    [0 <= num] and [0 < s].  Quotient and remainder are taken by shifting
    and masking ([round_half_even_spec] relates them to [/] and [mod]). *)
Definition round_half_even (num s : Z) : Z :=
  let q := Z.shiftr num s in
  let r := Z.land num (Z.ones s) in
  let half := Z.shiftl 1 (s - 1) in
  if r <? half then q
  else if half <? r then q + 1
  else if Z.even q then q else q + 1.

(** The sign of [x] and [k * |x|] rounded to an integer, from the exact
    value [m * 2^e] of a finite float. *)
Definition scaled_round (k : Z) (x : float) : option (bool * Z) :=
  match Prim2SF x with
  | S754_zero s => Some (s, 0)
  | S754_finite s m e =>
      Some (s, if 0 <=? e then Z.shiftl (k * Z.pos m) e
               else round_half_even (k * Z.pos m) (- e))
  | _ => None
  end.

(** [float("%.2f" % x)], and [round(x, 2)]: both print [x] correctly rounded
    to two decimals and read the nearest float back, which the correctly
    rounded division by 100 gives. *)
Definition round2 (x : float) : float :=
  match scaled_round 100 x with
  | Some (s, n) =>
      let y := PrimFloat.div (float_of_Z n) 100 in
      if s then PrimFloat.opp y else y
  | None => x
  end.

(** [round(x)]: the nearest [int]. *)
Definition py_round (x : float) : outcome Z :=
  match scaled_round 1 x with
  | Some (s, n) => Ok (if s then - n else n)
  | None => Raise (if PrimFloat.eqb x x then OverflowError else ValueError)
  end.

Definition kelvin_offset : float := 0x1.1126666666666p+8%float.
Definition one_thousandth : float := 0x1.0624dd2f1a9fcp-10%float.


(** ** The sensor registry: [createSensorList] *)

(** The two scripts. *)
Inductive variant : Type :=
| Json
| Raw.

Abbreviation record := (gmap Z field_data).
Abbreviation descriptor := (gmap string pyval).
Abbreviation registry := (gmap scalar (gmap string pyval)).

(** [d[k]] on a dict. *)
Definition item {K V : Type} `{Countable K} (d : gmap K V) (k : K) : outcome V :=
  match d !! k with
  | Some v => Ok v
  | None => Raise KeyError
  end.

(** [x[i]] on a decoded field, for [i] 0 or 1. *)
Definition index (d : field_data) (i : nat) : outcome scalar :=
  match d with
  | FList a b =>
      match i with
      | O => Ok (SInt a)
      | S O => Ok (SInt b)
      | _ => Raise IndexError
      end
  | FStr s =>
      match s !! i with
      | Some c => Ok (SStr [c])
      | None => Raise IndexError
      end
  end.

(** [type == n] for a number [n]: a string equals no number. *)
Definition is_code (ty : scalar) (n : Z) : bool :=
  match ty with
  | SInt z => z =? n
  | SStr _ => false
  end.

Definition fluid : list pystr :=
  [py "Unknown"; py "freshWater"; py "fuel"; py "wasteWater"].
Definition fluid_type : list pystr :=
  [py "Unknown"; py "fresh water"; py "diesel"; py "blackwater"].

(** [table[i]] on a list: a negative index counts from the end. *)
Definition list_item (table : list pystr) (i : scalar) : outcome pystr :=
  match i with
  | SStr _ => Raise TypeError
  | SInt z =>
      let n := Z.of_nat (length table) in
      let j := if z <? 0 then z + n else z in
      if (0 <=? j) && (j <? n) then
        match table !! Z.to_nat j with
        | Some x => Ok x
        | None => Raise IndexError
        end
      else Raise IndexError
  end.

(** [x * 36 * 12]: a product of integers, or a string repeated. *)
Definition times_432 (x : scalar) : pyval :=
  match x with
  | SInt z => VInt (z * 36 * 12)
  | SStr s => VStr (concat (replicate 432%nat s))
  end.

(** The local variables of one turn of the loop over the records, and the
    descriptor [sensorList[id]] under construction. *)
Record entry_state : Type := mk_entry {
  ty : scalar;
  elementSize : Z;
  desc : gmap string pyval
}.

Definition set_type (t : string) (st : entry_state) : entry_state :=
  mk_entry (SStr (py t)) (elementSize st) (desc st).
Definition set_size (n : Z) (st : entry_state) : entry_state :=
  mk_entry (ty st) n (desc st).
Definition update (k : string) (v : pyval) (st : entry_state) : entry_state :=
  mk_entry (ty st) (elementSize st) (<[k := v]> (desc st)).

(** [sensorList[id].update({'name': config[entry][3]})]. *)
Definition update_name (rec : gmap Z field_data) (st : entry_state)
  : outcome entry_state :=
  let* n := item rec 3 in
  Ok (update "name" (of_field n) st).

(** Each [if (type == n)] of the loop body, in the order of the source.  A
    branch that is taken sets [type] to a string, so no later test holds. *)
Definition case_null (st : entry_state) : outcome entry_state :=
  if is_code (ty st) 0 then Ok (set_size 0 (set_type "null" st)) else Ok st.

Definition case_volt (rec : gmap Z field_data) (st : entry_state)
  : outcome entry_state :=
  if is_code (ty st) 1 then
    let* st := update_name rec (set_type "volt" st) in
    let* n := item rec 3 in
    match n with
    | FStr s => if pystr_eqb s (py "PICO INTERNAL") then Ok (set_size 6 st) else Ok st
    | FList _ _ => Ok st
    end
  else Ok st.

Definition case_current (rec : gmap Z field_data) (st : entry_state)
  : outcome entry_state :=
  if is_code (ty st) 2 then
    let* st := update_name rec (set_type "current" st) in
    Ok (set_size 2 st)
  else Ok st.

Definition case_thermometer (rec : gmap Z field_data) (st : entry_state)
  : outcome entry_state :=
  if is_code (ty st) 3 then update_name rec (set_type "thermometer" st) else Ok st.

Definition case_barometer (rec : gmap Z field_data) (st : entry_state)
  : outcome entry_state :=
  if is_code (ty st) 5 then
    let* st := update_name rec (set_type "barometer" st) in
    Ok (set_size 2 st)
  else Ok st.

Definition case_ohm (rec : gmap Z field_data) (st : entry_state)
  : outcome entry_state :=
  if is_code (ty st) 6 then update_name rec (set_type "ohm" st) else Ok st.

Definition case_tank (rec : gmap Z field_data) (st : entry_state)
  : outcome entry_state :=
  if is_code (ty st) 8 then
    let* st := update_name rec (set_type "tank" st) in
    let* f7 := item rec 7 in
    let* c := index f7 1 in
    let* capacity := truediv (of_scalar c) (VInt 10) in
    let st := update "capacity" (VFloat capacity) st in
    let* f6 := item rec 6 in
    let* i := index f6 1 in
    let* ft := list_item fluid_type i in
    let st := update "fluid_type" (VStr ft) st in
    let* f6 := item rec 6 in
    let* i := index f6 1 in
    let* fl := list_item fluid i in
    Ok (update "fluid" (VStr fl) st)
  else Ok st.

Definition case_battery (rec : gmap Z field_data) (st : entry_state)
  : outcome entry_state :=
  if is_code (ty st) 9 then
    let* st := update_name rec (set_type "battery" st) in
    let* f5 := item rec 5 in
    let* c := index f5 1 in
    Ok (set_size 5 (update "capacity.nominal" (times_432 c) st))
  else Ok st.

Definition case_inclinometer (v : variant) (rec : gmap Z field_data)
  (st : entry_state) : outcome entry_state :=
  if is_code (ty st) 13 then
    let st := set_type "inclinometer" st in
    match v with
    | Json => Ok (set_size 1 st)
    | Raw =>
        let* f3 := item rec 3 in
        let* inclinometer_type := index f3 1 in
        let st := update "inclinometer_type" (of_scalar inclinometer_type) st in
        let st :=
          if is_code inclinometer_type 1 then update "name" (VStr (py "pitch")) st
          else if is_code inclinometer_type 2 then update "name" (VStr (py "roll")) st
          else st in
        Ok (set_size 1 st)
    end
  else Ok st.

(** The body of the loop for one record, up to the last [update]: the sensor
    id, the final local variables and the descriptor without its position. *)
Definition entry (v : variant) (rec : gmap Z field_data)
  : outcome (scalar * entry_state) :=
  let* f0 := item rec 0 in
  let* id := index f0 1 in
  let* f1 := item rec 1 in
  let* type := index f1 1 in
  let st := mk_entry type 1 ∅ in
  let* st := case_null st in
  let* st := case_volt rec st in
  let* st := case_current rec st in
  let* st := case_thermometer rec st in
  let* st := case_barometer rec st in
  let* st := case_ohm rec st in
  let* st := case_tank rec st in
  let* st := case_battery rec st in
  let* st := case_inclinometer v rec st in
  Ok (id, st).

(** [sensorList[id].update({'type': type, 'pos': elementPos})]. *)
Definition finish (st : entry_state) (elementPos : Z) : gmap string pyval :=
  <["pos" := VInt elementPos]> (<["type" := of_scalar (ty st)]> (desc st)).

(** The loop over [config.keys()].  [config] is filled for the positions
    [0, 1, ...] in this order, so it is the list of its records. *)
Fixpoint build (v : variant) (config : list (gmap Z field_data))
  (sensorList : gmap scalar (gmap string pyval)) (elementPos : Z)
  : outcome (gmap scalar (gmap string pyval)) :=
  match config with
  | [] => Ok sensorList
  | rec :: config' =>
      let* e := entry v rec in
      let '(id, st) := e in
      build v config' (<[id := finish st elementPos]> sensorList)
        (elementPos + elementSize st)
  end.

Definition createSensorList (v : variant) (config : list (gmap Z field_data))
  : outcome (gmap scalar (gmap string pyval)) :=
  build v config ∅ 0.

(** ** The telemetry decoders *)

(** [sensorListTmp[sensorId].update({k: v})]. *)
Definition tmp_update (sensorListTmp : gmap scalar (gmap string pyval))
  (sensorId : scalar) (k : string) (v : pyval)
  : outcome (gmap scalar (gmap string pyval)) :=
  let* d := item sensorListTmp sensorId in
  Ok (<[sensorId := <[k := v]> d]> sensorListTmp).

(** [sensorListTmp[sensorId].update({k: x})] where evaluating [x] may raise:
    the descriptor is looked up before [x] is evaluated. *)
Definition tmp_update_with (sensorListTmp : gmap scalar (gmap string pyval))
  (sensorId : scalar) (k : string) (x : outcome pyval)
  : outcome (gmap scalar (gmap string pyval)) :=
  let* d := item sensorListTmp sensorId in
  let* y := x in
  Ok (<[sensorId := <[k := y]> d]> sensorListTmp).

(** [x > n] for a number [n]; a string does not compare with a number. *)
Definition greater (x : scalar) (n : Z) : outcome bool :=
  match x with
  | SInt z => Ok (n <? z)
  | SStr _ => Raise TypeError
  end.

Definition toTemperature (v : variant) (temp : scalar) : outcome float :=
  let* big := greater temp 32768 in
  let temp := if big then match temp with SInt z => SInt (z - 65536) | _ => temp end
              else temp in
  let* tenth := truediv (of_scalar temp) (VFloat 10) in
  match v with
  | Json => Ok (round2 tenth)
  | Raw => Ok (round2 (round2 (PrimFloat.add tenth kelvin_offset)))
  end.

Section Decoders.

(** The globals the decoders read: the registry and the frame mapping. *)
Variable v : variant.
Variable sensorList : gmap scalar (gmap string pyval).
Variable element : gmap Z field_data.

Definition readTemp (sensorListTmp : gmap scalar (gmap string pyval))
  (sensorId : scalar) (elementId : Z)
  : outcome (gmap scalar (gmap string pyval)) :=
  tmp_update_with sensorListTmp sensorId "temperature"
    (let* e := item element elementId in
     let* b := index e 1 in
     let* t := toTemperature v b in
     Ok (VFloat t)).

(** The percentage of [readTank]: [0] when the capacity is false. *)
Definition tank_percentage (remainingCapacity : float) (capacity : pyval)
  : outcome pyval :=
  if truthy capacity then
    let* q := truediv (VFloat remainingCapacity) capacity in
    Ok (VFloat (PrimFloat.mul q 100))
  else Ok (VInt 0).

Definition readTank (sensorListTmp : gmap scalar (gmap string pyval))
  (sensorId : scalar) (elementId : Z)
  : outcome (gmap scalar (gmap string pyval)) :=
  let* e := item element elementId in
  let* a := index e 0 in
  let* currentLevel := truediv (of_scalar a) (VFloat 1000) in
  let* d := item sensorList sensorId in
  let capacity := default (VInt 0) (d !! "capacity") in
  let* e := item element elementId in
  let* b := index e 1 in
  let* remainingCapacity := truediv (of_scalar b) (VFloat 10) in
  let* percentage := tank_percentage remainingCapacity capacity in
  let* tmp := tmp_update sensorListTmp sensorId "currentLevel" (VFloat currentLevel) in
  let* tmp := tmp_update tmp sensorId "remainingCapacity" (VFloat remainingCapacity) in
  tmp_update tmp sensorId "percentage" percentage.

Definition soc_divisor : float :=
  match v with Json => 16000%float | Raw => 160%float end.

(** [stateOfCharge = element[elementId][0] / 16000.0] (160.0 in the raw script). *)
Definition stateOfCharge (a : scalar) : outcome float :=
  truediv (of_scalar a) (VFloat soc_divisor).

(** The sign fold of a current reading. *)
Definition fold_current (current : scalar) : outcome float :=
  let* big := greater current 25000 in
  match current with
  | SStr _ => Raise TypeError
  | SInt c =>
      if big then truediv (VInt (65535 - c)) (VFloat 100)
      else
        let* q := truediv (VInt c) (VFloat 100) in
        Ok (PrimFloat.mul q (-1))
  end.

Definition readBatt (sensorListTmp : gmap scalar (gmap string pyval))
  (sensorId : scalar) (elementId : Z)
  : outcome (gmap scalar (gmap string pyval)) :=
  let* e := item element elementId in
  let* a := index e 0 in
  let* soc := stateOfCharge a in
  let* tmp := tmp_update sensorListTmp sensorId "stateOfCharge" (VFloat soc) in
  let* d := item sensorList sensorId in
  let capacity := default (VInt 0) (d !! "capacity.nominal") in
  let* c := as_float capacity in
  let* capacity_remaining :=
    fdiv (PrimFloat.mul c soc)
      (match v with Json => 43200%float | Raw => 4320000%float end) in
  let* tmp := tmp_update tmp sensorId "capacity.remaining" (VFloat capacity_remaining) in
  let* e2 := item element (elementId + 2) in
  let* b2 := index e2 1 in
  let* voltage := truediv (of_scalar b2) (VFloat 1000) in
  let* tmp := tmp_update tmp sensorId "voltage" (VFloat voltage) in
  let* dt := item tmp sensorId in
  let* nominal := item dt "capacity.nominal" in
  let* scaled := truediv nominal (VInt 43200) in
  let tmp := <[sensorId := <["capacity.nominal" := VFloat scaled]> dt]> tmp in
  let* e1 := item element (elementId + 1) in
  let* b1 := index e1 1 in
  let* current := fold_current b1 in
  let* tmp :=
    tmp_update tmp sensorId "current" (VFloat (PrimFloat.opp (PrimFloat.abs current))) in
  let* e := item element elementId in
  let* a := index e 0 in
  if bool_decide (a = SInt 65535) then Ok tmp
  else
    let* d := item sensorList sensorId in
    let* nominal := item d "capacity.nominal" in
    let* per12 := truediv nominal (VInt 12) in
    let load := match v with
                | Json => PrimFloat.mul current soc
                | Raw => PrimFloat.div (PrimFloat.mul current soc) 100
                end in
    let* t := fdiv per12 (PrimFloat.add load one_thousandth) in
    let* timeRemaining := py_round t in
    let timeRemaining := if timeRemaining <? 0 then 60 * 60 * 24 * 7 else timeRemaining in
    tmp_update tmp sensorId "capacity.timeRemaining" (VInt timeRemaining).

End Decoders.

(** ** Runs of the frame decoder *)

(** [decodes r fs r']: starting from the buffer [r], the loop of
    [parseResponse] decodes the fields [fs] one after the other, each with
    more than six characters ahead, and reaches the buffer [r']. *)
Inductive decodes : pystr -> list (Z * field_data) -> pystr -> Prop :=
| decodes_nil r : decodes r [] r
| decodes_cons r nr d r' fs r'' :
    (6 < length r)%nat ->
    getNextField r = Ok (Some (nr, d, r')) ->
    decodes r' fs r'' ->
    decodes r ((nr, d) :: fs) r''.

(** The frame decoder as the specification words it: fields are decoded
    "until fewer than 6 characters remain". *)
Fixpoint parse_loop_until_fewer_than_6 (fuel : nat) (response : pystr)
  (dict : gmap Z field_data) : outcome (gmap Z field_data) :=
  if (length response <? 6)%nat then Ok dict
  else
    match fuel with
    | O => Diverge
    | S fuel' =>
        let* r := getNextField response in
        match r with
        | None => Raise TypeError
        | Some (field_nr, data, response') =>
            parse_loop_until_fewer_than_6 fuel' response' (<[field_nr := data]> dict)
        end
    end.

Definition parseResponse_until_fewer_than_6 (response : pystr)
  : outcome (gmap Z field_data) :=
  parse_loop_until_fewer_than_6 (length response) (slice_from 42 response) ∅.

(** A command or a frame on the wire: two hex digits per byte, single
    blanks between the bytes. *)
Fixpoint hex_message (bs : list byte) : pystr :=
  match bs with
  | [] => []
  | [b] => hex_byte b
  | b :: bs' => hex_byte b ++ py " " ++ hex_message bs'
  end.

(** The character [chr] gives for a byte value. *)
Definition chr_byte (b : byte) : ascii := ascii_of_N (Byte.to_N b).

(** [f] holds on the [2^k] integers from [base] on. *)
Fixpoint all_range (k : nat) (base : Z) (f : Z -> bool) : bool :=
  match k with
  | O => f base
  | S k' => all_range k' base f && all_range k' (base + 2 ^ Z.of_nat k') f
  end.

(** The sum of the element sizes of the first [i] entries: the running
    position of the registry builder. *)
Definition offset (es : list (scalar * entry_state)) (i : nat) : Z :=
  foldr (fun e acc => elementSize e.2 + acc) 0 (take i es).

(** The loop of [createSensorList] on entries that decoded without error. *)
Fixpoint lay (es : list (scalar * entry_state))
  (sensorList : gmap scalar (gmap string pyval)) (elementPos : Z)
  : gmap scalar (gmap string pyval) :=
  match es with
  | [] => sensorList
  | (id, st) :: es' =>
      lay es' (<[id := finish st elementPos]> sensorList) (elementPos + elementSize st)
  end.

(** ** Definitions used in the statements *)

Definition is_hex (c : ascii) : bool :=
  match hex_digit c with Some _ => true | None => false end.

Definition digit (c : ascii) : Z := default 0 (hex_digit c).

Definition hex_value (acc : Z) (cs : pystr) : Z :=
  fold_left (fun a c => 16 * a + digit c) cs acc.

Definition hex_byte_ok (b : byte) : bool :=
  match hex_byte b with
  | [h; l] =>
      is_hex h && is_hex l && (hex_value 0 [h; l] =? byte_val b) &&
      Bool.eqb (code h =? 98)%N (Byte.to_N b / 16 =? 11)%N
  | _ => false
  end.

Definition collect (dict : gmap Z field_data) (fs : list (Z * field_data))
  : gmap Z field_data :=
  fold_left (fun m f => <[f.1 := f.2]> m) fs dict.

Definition header_b0 : pystr := py "00 00 00 00 00 ff b0 04 8c 55 4b 00 16 ff ".

Definition datagram_type_2 : list byte :=
  [x00; x00; x00; x00; x00; xff; xb0; x04; x8c; x55; x4b; x00; x16; xff;
   x00; x01; x00; x00; x00; x05; xff;
   x01; x02; x00; x00; x00; x05; xff] ++ repeat x00 80.

Definition type3_sample : pystr := py "05 03 00 00 00 00 ff 00 00 12 34 ff 06 ".




Definition type1_field : list byte := [x00; x01; x00; x00; x00; x05; xff].

Definition datagram_with (marker : byte) : list byte :=
  [x00; x00; x00; x00; x00; xff; marker; x04; x8c; x55; x4b; x00; x16; xff]
    ++ concat (repeat type1_field 13).

(** The sum of the element sizes of a list of entries. *)
Definition total (es : list (scalar * entry_state)) : Z :=
  foldr (fun e acc => elementSize e.2 + acc) 0 es.

(** The element size is never negative, and it is zero exactly for the
    records of the null kind. *)
Definition size_ok (st : entry_state) : Prop :=
  0 <= elementSize st /\ (elementSize st = 0 <-> ty st = SStr (py "null")).

Definition null_record : gmap Z field_data :=
  {[ 0 := FList 0 1; 1 := FList 0 0 ]}.

Definition volt_record : gmap Z field_data :=
  {[ 0 := FList 0 2; 1 := FList 0 1; 3 := FStr (py "BATT1") ]}.

Definition null_volt_registry : gmap scalar (gmap string pyval) :=
  lay [(SInt 1, mk_entry (SStr (py "null")) 0 ∅);
       (SInt 2, mk_entry (SStr (py "volt")) 1 {[ "name" := VStr (py "BATT1") ]})]
    ∅ 0.

Definition volt5_record : gmap Z field_data :=
  {[ 0 := FList 0 5; 1 := FList 0 1; 3 := FStr (py "A") ]}.

Definition current5_record : gmap Z field_data :=
  {[ 0 := FList 0 5; 1 := FList 0 2; 3 := FStr (py "B") ]}.

Definition thermo7_record : gmap Z field_data :=
  {[ 0 := FList 0 7; 1 := FList 0 3; 3 := FStr (py "C") ]}.

Definition volt5 : entry_state :=
  mk_entry (SStr (py "volt")) 1 {[ "name" := VStr (py "A") ]}.

Definition current5 : entry_state :=
  mk_entry (SStr (py "current")) 2 {[ "name" := VStr (py "B") ]}.

Definition thermo7 : entry_state :=
  mk_entry (SStr (py "thermometer")) 1 {[ "name" := VStr (py "C") ]}.

(** The registry of the records [volt5_record], [current5_record] and
    [thermo7_record]: sensor 5 is a current sensor at position 1 (behind
    the one element of the volt record that named it first), sensor 7 a
    thermometer at position 3. *)
Definition duplicate_registry : gmap scalar (gmap string pyval) :=
  <[SInt 7 := <["pos" := VInt 3]>
                (<["type" := VStr (py "thermometer")]> {[ "name" := VStr (py "C") ]})]>
    (<[SInt 5 := <["pos" := VInt 1]>
                   (<["type" := VStr (py "current")]> {[ "name" := VStr (py "B") ]})]>
       ∅).

(** What C5 says of one raw value, as a test: the two states of charge
    agree within one rounding error, and the raw temperature is the json
    temperature plus the Kelvin offset, rounded to two decimals. *)
Definition scripts_agree (z : Z) : bool :=
  match stateOfCharge Raw (SInt z), stateOfCharge Json (SInt z),
        toTemperature Raw (SInt z), toTemperature Json (SInt z) with
  | Ok x, Ok y, Ok tr, Ok tj =>
      PrimFloat.leb (PrimFloat.abs (PrimFloat.sub x (PrimFloat.mul 100 y)))
        (PrimFloat.mul x 0x1p-52%float)
      && PrimFloat.eqb tr (round2 (PrimFloat.add tj kelvin_offset))
  | _, _, _, _ => false
  end.

(** ** Helpers of the scripts that nothing calls *)

(** The upper-case form of a hexadecimal digit. *)
Definition to_upper (c : ascii) : ascii :=
  let n := code c in
  if ((97 <=? n) && (n <=? 102))%N then ascii_of_N (n - 32) else c.

(** ["%02X" % z]: as ["%02x"], with the digits in upper case. *)
Definition fmt_02X (z : Z) : pystr := map to_upper (fmt_02x z).

(** [ord(x)] of a character. *)
Definition ord (x : ascii) : Z := Z.of_N (code x).

(** [s.strip()]: the blanks at both ends removed. *)
Definition py_strip (s : pystr) : pystr :=
  rev (drop_while str_space (rev (drop_while str_space s))).

Definition ByteToHex (byteStr : pystr) : pystr :=
  py_strip (concat (map (fun x => fmt_02X (ord x) ++ py " ") byteStr)).

(** [s[-n:]]: the last [n] characters for a positive [n], clipped to the
    string; all of [s] for [n = 0]; [s] without its first [-n] characters
    for a negative [n]. *)
Definition last_chars (n : Z) (s : pystr) : pystr :=
  if 0 <? n then drop (length s - Z.to_nat n) s else drop (Z.to_nat (- n)) s.

Definition HexToInt (hex : pystr) (lastBytes : Z) : outcome Z :=
  py_int16 (last_chars lastBytes (remove_spaces hex)).

Definition IntToDecimal (integer : pyval) : outcome float :=
  truediv integer (VFloat 10).

(** ** Definitions used in the statements (codec) *)

(** The value of a sequence of bytes read as one big-endian number. *)
Definition be_value (bs : list byte) : Z :=
  fold_left (fun a b => 256 * a + byte_val b) bs 0.

(** What [hexdump] gives for a 16-bit number, as a test. *)
Definition hexdump_ok (b : Z) : bool :=
  pystr_eqb (hexdump b) (fmt_02x (b / 256) ++ py " " ++ fmt_02x (b mod 256)).

(** A character is encoded by [ByteToHex] as two hex digits that
    [int(_, 16)] and [chr] read back. *)
Definition upper_ok (c : ascii) : bool :=
  match fmt_02X (ord c) with
  | [h; l] =>
      is_hex h && is_hex l && (hex_value 0 [h; l] =? ord c)
  | _ => false
  end.

(** Characters that are blanks only when they are the space character. *)
Definition plain (c : ascii) : Prop := str_space c = true -> (code c =? 32)%N = true.

(** ** [parse] *)

(** [message.split(' ff')]: the pieces between the occurrences of the
    separator, read from the left.  [cur] is the piece being read, in
    reverse. *)
Fixpoint split_ff (cur : pystr) (s : pystr) : list pystr :=
  match s with
  | [] => [rev cur]
  | c :: t =>
      match s with
      | c1 :: c2 :: c3 :: t' =>
          if pystr_eqb [c1; c2; c3] (py " ff") then rev cur :: split_ff [] t'
          else split_ff (c :: cur) t
      | _ => split_ff (c :: cur) t
      end
  end.

Definition striplist (l : list pystr) : list pystr := map py_strip l.

Definition parse (message : pystr) : list pystr :=
  striplist (split_ff [] message).


(** ** Definitions used in the statements ([parse]) *)

(** Groups of bytes joined by the separator byte ff. *)
Fixpoint join_ff (g : list byte) (gs : list (list byte)) : list byte :=
  match gs with
  | [] => g
  | g' :: gs' => g ++ xff :: join_ff g' gs'
  end.

(** The bytes of a group, each with a blank in front. *)
Definition spaced (bs : list byte) : pystr :=
  concat (map (fun b => py " " ++ hex_byte b) bs).

(** ** Fields as they lie in a frame *)

(** The three field layouts that [getNextField] reads, byte by byte.  A
    field starts with its number and its type code; [pad] stands for the
    bytes the decoder skips, [sep] for the separator byte it never looks
    at. *)
Inductive wire_field : Type :=
| W1 (nr w x y z sep : byte)
| W3 (nr : byte) (pad : list byte) (w x y z sep : byte)
| W4 (nr : byte) (pad : list byte) (text : list byte) (sep : byte).

Definition encode (f : wire_field) : list byte :=
  match f with
  | W1 nr w x y z sep => [nr; x01; w; x; y; z; sep]
  | W3 nr pad w x y z sep => [nr; x03] ++ pad ++ [w; x; y; z; sep]
  | W4 nr pad text sep => [nr; x04] ++ pad ++ text ++ [x00; sep]
  end.

(** Five bytes are skipped in the layouts of type 3 and 4, and the text of
    a field of type 4 holds no zero byte. *)
Definition well_formed (f : wire_field) : Prop :=
  match f with
  | W1 _ _ _ _ _ _ => True
  | W3 _ pad _ _ _ _ _ => length pad = 5%nat
  | W4 _ pad text _ => length pad = 5%nat /\ Forall (fun b => b <> x00) text
  end.

Definition pair_value (w x y z : byte) : field_data :=
  FList (256 * byte_val w + byte_val x) (256 * byte_val y + byte_val z).

(** The field number and the value a field stands for. *)
Definition value (f : wire_field) : Z * field_data :=
  match f with
  | W1 nr w x y z _ => (byte_val nr, pair_value w x y z)
  | W3 nr _ w x y z _ =>
      (byte_val nr,
       if pystr_eqb (hex_message [w; x; y; z]) sentinel then Absent
       else pair_value w x y z)
  | W4 nr _ text _ => (byte_val nr, FStr (map chr_byte text))
  end.

(** The 14 bytes in front of the fields of a telemetry datagram. *)
Definition header_bytes : list byte :=
  [x00; x00; x00; x00; x00; xff; xb0; x04; x8c; x55; x4b; x00; x16; xff].

(** A datagram of 114 bytes that is cut inside its text field. *)
Definition cut_datagram : list byte :=
  header_bytes ++ flat_map encode (repeat (W1 x05 x01 x02 x03 x04 xff) 13)
    ++ [x03; x04] ++ repeat x00 5 ++ [x41; x42].

(** ** Definitions used in the statements (registry) *)

(** The type codes [createSensorList] knows. *)
Definition known_codes : list Z := [0; 1; 2; 3; 5; 6; 8; 9; 13].

(** The kind and the element size of the records that carry a name only.
    A record of type 1 takes six elements when its name is PICO INTERNAL. *)
Definition named_kind (t : Z) (name : field_data) : option (string * Z) :=
  if t =? 1 then
    Some ("volt"%string,
          match name with
          | FStr s => if pystr_eqb s (py "PICO INTERNAL") then 6 else 1
          | FList _ _ => 1
          end)
  else if t =? 2 then Some ("current"%string, 2)
  else if t =? 3 then Some ("thermometer"%string, 1)
  else if t =? 5 then Some ("barometer"%string, 2)
  else if t =? 6 then Some ("ohm"%string, 1)
  else None.

(** ** The other telemetry decoders *)

Section Readings.

Variable v : variant.
Variable element : gmap Z field_data.

(** [(element[elementId][1] + 65536) / 100]: a string plus a number raises. *)
Definition readBaro (sensorListTmp : gmap scalar (gmap string pyval))
  (sensorId : scalar) (elementId : Z)
  : outcome (gmap scalar (gmap string pyval)) :=
  tmp_update_with sensorListTmp sensorId "pressure"
    (let* e := item element elementId in
     let* b := index e 1 in
     match b with
     | SInt z =>
         let* p := truediv (VInt (z + 65536)) (VInt 100) in
         Ok (VFloat p)
     | SStr _ => Raise TypeError
     end).

Definition readVolt (sensorListTmp : gmap scalar (gmap string pyval))
  (sensorId : scalar) (elementId : Z)
  : outcome (gmap scalar (gmap string pyval)) :=
  tmp_update_with sensorListTmp sensorId "voltage"
    (let* e := item element elementId in
     let* b := index e 1 in
     let* x := truediv (of_scalar b) (VFloat 1000) in
     Ok (VFloat x)).

Definition readOhm (sensorListTmp : gmap scalar (gmap string pyval))
  (sensorId : scalar) (elementId : Z)
  : outcome (gmap scalar (gmap string pyval)) :=
  tmp_update_with sensorListTmp sensorId "ohm"
    (let* e := item element elementId in
     let* b := index e 1 in
     Ok (of_scalar b)).

Definition readCurrent (sensorListTmp : gmap scalar (gmap string pyval))
  (sensorId : scalar) (elementId : Z)
  : outcome (gmap scalar (gmap string pyval)) :=
  let* e := item element elementId in
  let* b := index e 1 in
  let* current := fold_current b in
  tmp_update sensorListTmp sensorId "current"
    (VFloat (PrimFloat.opp (PrimFloat.abs current))).

(** [pico-json.py] stores the reading divided by 10 as pitch or roll, by
    the parity of the element index; [pico-raw.py] folds the sign as for a
    current and stores the result as degree. *)
Definition readIncline (sensorListTmp : gmap scalar (gmap string pyval))
  (sensorId : scalar) (elementId : Z)
  : outcome (gmap scalar (gmap string pyval)) :=
  match v with
  | Json =>
      let inclinometer_type :=
        if elementId mod 2 =? 0 then "pitch"%string else "roll"%string in
      tmp_update_with sensorListTmp sensorId inclinometer_type
        (let* e := item element elementId in
         let* b := index e 1 in
         let* x := truediv (of_scalar b) (VFloat 10) in
         Ok (VFloat x))
  | Raw =>
      let* e := item element elementId in
      let* degree := index e 1 in
      let* big := greater degree 600 in
      match degree with
      | SStr _ => Raise TypeError
      | SInt d =>
          let* x := if big then truediv (VInt (65535 - d)) (VInt 10)
                    else truediv (VInt d) (VInt (-10)) in
          tmp_update sensorListTmp sensorId "degree" (VFloat x)
      end
  end.

End Readings.

(** ** Definitions used in the statements (decoders) *)

(** The magnitude, in hundredths, that the sign fold of a current reading
    keeps. *)
Definition folded (c : Z) : Z := if 25000 <? c then 65535 - c else c.

(** What [fold_current] gives for a 16-bit reading, as a test. *)
Definition fold_ok (c : Z) : bool :=
  match fold_current (SInt c) with
  | Ok x =>
      let r := PrimFloat.opp (PrimFloat.div (float_of_Z (folded c)) 100) in
      PrimFloat.Leibniz.eqb (PrimFloat.opp (PrimFloat.abs x)) r
      && PrimFloat.leb r 0
  | _ => false
  end.

(** The signed value of a 16-bit temperature reading; 32768 stays
    positive. *)
Definition signed (t : Z) : Z := if 32768 <? t then t - 65536 else t.

Definition temperature_ok (t : Z) : bool :=
  match toTemperature Json (SInt t), IntToDecimal (VInt (signed t)) with
  | Ok x, Ok y => PrimFloat.Leibniz.eqb x y
  | _, _ => false
  end.

(** [tmp'] differs from [tmp] in the descriptor of [sensorId] only, which
    has kept all its keys. *)
Definition own_update (tmp tmp' : gmap scalar (gmap string pyval))
  (sensorId : scalar) : Prop :=
  dom tmp' = dom tmp /\
  (forall id, id <> sensorId -> tmp' !! id = tmp !! id) /\
  exists d d', tmp !! sensorId = Some d /\ tmp' !! sensorId = Some d' /\
               dom d ⊆ dom d'.

(** The divisor of the remaining capacity in [readBatt]. *)
Definition remaining_divisor (v : variant) : float :=
  match v with Json => 43200%float | Raw => 4320000%float end.

(** The load term of the time-remaining formula of [readBatt]. *)
Definition load_term (v : variant) (current soc : float) : float :=
  match v with
  | Json => PrimFloat.mul current soc
  | Raw => PrimFloat.div (PrimFloat.mul current soc) 100
  end.

(** The descriptor of a battery after the unconditional part of
    [readBatt]. *)
Definition batt_descriptor (v : variant) (dt : gmap string pyval)
  (n n' b2 : Z) (soc current : float) : gmap string pyval :=
  <["current" := VFloat (PrimFloat.opp (PrimFloat.abs current))]>
    (<["capacity.nominal" :=
         VFloat (PrimFloat.div (float_of_Z n') (float_of_Z 43200))]>
       (<["voltage" := VFloat (PrimFloat.div (float_of_Z b2) 1000)]>
          (<["capacity.remaining" :=
               VFloat (PrimFloat.div (PrimFloat.mul (float_of_Z n) soc)
                         (remaining_divisor v))]>
             (<["stateOfCharge" := VFloat soc]> dt)))).

(** The load term of the time-remaining formula of [readBatt] vanishes for
    the state of charge [a] and the current reading [1600 / a]. *)
Definition zero_load (v : variant) (a : Z) : bool :=
  if (0 <? a) && (1600 mod a =? 0) then
    match stateOfCharge v (SInt a), fold_current (SInt (1600 / a)) with
    | Ok soc, Ok current =>
        PrimFloat.eqb (PrimFloat.add (load_term v current soc) one_thousandth) 0
    | _, _ => false
    end
  else true.

(** * Theorems *)

(** ** Slices *)

Lemma slice_from_app (h s : pystr) (n : nat) :
  length h = n -> slice_from n (h ++ s) = s.
Proof. intros <-. unfold slice_from. apply drop_app_length. Qed.


(** ** Hexadecimal digits *)

Lemma is_hex_facts (c : ascii) :
  is_hex c = true ->
  is_underscore c = false /\ int_space c = false /\ str_space c = false /\
  (code c =? 43)%N = false /\ (code c =? 45)%N = false /\
  (code c =? 120)%N = false /\ (code c =? 88)%N = false /\
  (code c =? 32)%N = false /\ hex_digit c = Some (digit c).
Proof.
  destruct c as [[] [] [] [] [] [] [] []]; vm_compute; intros H;
    first [discriminate H | repeat split].
Qed.

Lemma scan_digits_hex (cs : pystr) (acc : Z) (n : nat) :
  forallb is_hex cs = true ->
  scan_digits false acc n cs = Some (hex_value acc cs, (n + length cs)%nat, []).
Proof.
  revert acc n. induction cs as [|c cs IH]; intros acc n H; simpl in *.
  - by rewrite Nat.add_0_r.
  - apply andb_true_iff in H as [Hc Hcs].
    destruct (is_hex_facts c Hc) as (-> & _ & _ & _ & _ & _ & _ & _ & ->).
    rewrite IH by done. do 3 f_equal. lia.
Qed.

Lemma int16_hex (c : ascii) (cs : pystr) :
  forallb is_hex (c :: cs) = true -> int16 (c :: cs) = Some (hex_value 0 (c :: cs)).
Proof.
  intros H. pose proof H as H'. simpl in H'.
  apply andb_true_iff in H' as [Hc Hcs].
  destruct (is_hex_facts c Hc) as (Hu & Hs & _ & Hp & Hm & _ & _ & _ & _).
  unfold int16. cbn [drop_while]. rewrite Hs.
  unfold strip_sign. rewrite Hp, Hm.
  assert (strip_0x (c :: cs) = c :: cs) as ->.
  { destruct cs as [|x t]; [done|]. simpl in Hcs.
    apply andb_true_iff in Hcs as [Hx _].
    destruct (is_hex_facts x Hx) as (_ & _ & _ & _ & _ & Hx1 & Hx2 & _).
    unfold strip_0x. rewrite Hx1, Hx2. simpl. by rewrite andb_false_r. }
  rewrite Hu, (scan_digits_hex _ _ _ H). simpl. done.
Qed.

Lemma hex_byte_digits (b : byte) :
  exists h l, hex_byte b = [h; l] /\ is_hex h = true /\ is_hex l = true /\
              hex_value 0 [h; l] = byte_val b /\
              (code h =? 98)%N = (Byte.to_N b / 16 =? 11)%N.
Proof.
  assert (hex_byte_ok b = true) as H by (destruct b; reflexivity).
  unfold hex_byte_ok in H.
  destruct (hex_byte b) as [|h [|l [|? ?]]]; try discriminate H.
  exists h, l.
  destruct (is_hex h), (is_hex l); try discriminate H.
  cbn [andb] in H. apply andb_true_iff in H as [H1 H2].
  apply Z.eqb_eq in H1. apply eqb_prop in H2. repeat split; assumption.
Qed.

Lemma int16_hex_byte (b : byte) : int16 (hex_byte b) = Some (byte_val b).
Proof.
  destruct (hex_byte_digits b) as (h & l & -> & Hh & Hl & <- & _).
  apply int16_hex. simpl. by rewrite Hh, Hl.
Qed.

Lemma length_hex_byte (b : byte) : length (hex_byte b) = 2%nat.
Proof. by destruct (hex_byte_digits b) as (h & l & -> & _). Qed.

(** ** The frame decoder never runs out of fuel *)

Lemma getNextField_rest (r : pystr) (nr : Z) (d : field_data) (r' : pystr) :
  getNextField r = Ok (Some (nr, d, r')) -> exists n, (21 <= n)%nat /\ r' = drop n r.
Proof.
  unfold getNextField, bind.
  destruct (py_int16 (slice 0 2 r)) as [z| |]; try done.
  destruct (py_int16 (slice 3 5 r)) as [t| |]; try done.
  destruct (t =? 1).
  { destruct (two_ints _); try done. intros [= _ _ <-]. exists 21%nat. done. }
  destruct (t =? 3).
  { destruct (pystr_eqb _ _).
    - intros [= _ _ <-]. exists 36%nat. split; [lia|done].
    - destruct (two_ints _); try done. intros [= _ _ <-].
      exists 36%nat. split; [lia|done]. }
  destruct (t =? 4); [|done].
  assert (forall s w w' s', scan_text s w = Ok (w', s') -> exists k, s' = drop k s) as Hscan.
  { intros s. induction s as [s IH] using (induction_ltof1 _ (@length ascii)).
    unfold ltof in IH. intros w w' s'.
    destruct s as [|c1 [|c2 t']]; simpl; try done.
    destruct (pystr_eqb _ _).
    - intros [= _ <-]. by exists 0%nat.
    - destruct t' as [|c3 t'']; [done|]. intros H.
      apply IH in H as [k ->]; [|simpl; lia]. by exists (3 + k)%nat. }
  destruct (scan_text _ _) as [[w s']| |] eqn:Hs; try done.
  destruct (HexToByte w); try done. intros [= _ _ <-].
  apply Hscan in Hs as [k ->]. unfold slice_from. rewrite !drop_drop.
  exists (21 + (k + 6))%nat. split; [lia|].
  transitivity (drop 6 (drop (21 + k) r)); [reflexivity|].
  rewrite drop_drop. f_equal; lia.
Qed.

Lemma getNextField_shorter (r : pystr) (nr : Z) (d : field_data) (r' : pystr) :
  getNextField r = Ok (Some (nr, d, r')) -> (0 < length r)%nat ->
  (length r' < length r)%nat.
Proof.
  intros H Hr. apply getNextField_rest in H as (n & Hn & ->).
  rewrite length_drop. lia.
Qed.

Lemma parse_loop_fuel (fuel : nat) (r : pystr) (dict : gmap Z field_data) :
  (length r <= fuel)%nat -> parse_loop fuel r dict = parse_loop (length r) r dict.
Proof.
  revert r dict.
  induction fuel as [fuel IH] using (induction_ltof1 _ (fun n : nat => n)).
  unfold ltof in IH. intros r dict Hle.
  destruct fuel as [|fuel]; [by replace (length r) with 0%nat by lia|].
  destruct (length r) as [|n] eqn:Hn; [destruct r; done|].
  cbn [parse_loop]. rewrite Hn.
  destruct (6 <? S n)%nat; [|done].
  destruct (getNextField r) as [[[[nr d] r']|]| |] eqn:Hg; simpl; try done.
  apply getNextField_shorter in Hg; [|lia].
  rewrite (IH fuel) by lia. rewrite (IH n) by lia. done.
Qed.

Lemma parse_loop_done (fuel : nat) (r : pystr) (dict : gmap Z field_data) :
  (length r <= 6)%nat -> parse_loop fuel r dict = Ok dict.
Proof.
  intros H. destruct fuel; simpl;
    by replace (6 <? length r)%nat with false by (symmetry; apply Nat.ltb_ge; lia).
Qed.

Lemma parse_loop_step (fuel : nat) (r : pystr) (dict : gmap Z field_data)
  (x : option (Z * field_data * pystr)) :
  (6 < length r)%nat -> (length r <= fuel)%nat -> getNextField r = Ok x ->
  parse_loop fuel r dict =
  match x with
  | None => Raise TypeError
  | Some (nr, d, r') => parse_loop fuel r' (<[nr := d]> dict)
  end.
Proof.
  intros H6 Hf Hg. destruct fuel as [|fuel]; [lia|].
  destruct x as [[[nr d] r']|].
  - pose proof (getNextField_shorter _ _ _ _ Hg ltac:(lia)) as Hlt.
    rewrite (parse_loop_fuel (S fuel) r') by lia.
    rewrite <- (parse_loop_fuel fuel r') by lia.
    cbn [parse_loop]. rewrite (proj2 (Nat.ltb_lt _ _) H6), Hg. reflexivity.
  - cbn [parse_loop]. rewrite (proj2 (Nat.ltb_lt _ _) H6), Hg. reflexivity.
Qed.

Lemma decodes_length (r : pystr) (fs : list (Z * field_data)) (r' : pystr) :
  decodes r fs r' -> (length r' <= length r)%nat.
Proof.
  induction 1 as [|r nr d r' fs r'' H6 Hg _ IH]; [done|].
  apply getNextField_shorter in Hg; lia.
Qed.

Lemma parse_loop_decodes (fuel : nat) (r : pystr) (fs : list (Z * field_data))
  (r' : pystr) (dict : gmap Z field_data) :
  decodes r fs r' -> (length r <= fuel)%nat ->
  parse_loop fuel r dict = parse_loop fuel r' (collect dict fs).
Proof.
  intros H. revert dict. induction H as [|r nr d r' fs r'' H6 Hg _ IH]; intros dict Hf.
  - done.
  - rewrite (parse_loop_step _ _ _ _ H6 Hf Hg).
    apply getNextField_shorter in Hg; [|lia].
    rewrite IH by lia. done.
Qed.

Lemma collect_app (m : gmap Z field_data) (fs1 fs2 : list (Z * field_data)) :
  collect m (fs1 ++ fs2) = collect (collect m fs1) fs2.
Proof. unfold collect. apply fold_left_app. Qed.

Lemma collect_keeps (m : gmap Z field_data) (fs : list (Z * field_data))
  (nr : Z) (d : field_data) :
  m !! nr = Some d -> Forall (fun f => f.1 <> nr) fs -> collect m fs !! nr = Some d.
Proof.
  intros Hm Hfs. revert m Hm.
  induction Hfs as [|[k x] fs Hk _ IH]; intros m Hm; simpl; [done|].
  apply IH. simpl in Hk. by rewrite lookup_insert_ne.
Qed.

Lemma parseResponse_decodes (h body : pystr) (fs : list (Z * field_data)) (r : pystr) :
  length h = 42%nat -> decodes body fs r ->
  parseResponse (h ++ body) = parse_loop (length (h ++ body)) r (collect ∅ fs).
Proof.
  intros Hh Hd. unfold parseResponse. rewrite (slice_from_app h body 42 Hh).
  apply parse_loop_decodes; [done|]. rewrite length_app. lia.
Qed.

(** ** The frame decoder *)

(** C7, as amended: [parseResponse] drops the first 42 characters, then
    decodes field after field while MORE THAN six characters are ahead (it
    stops as soon as six or fewer remain), and returns the mapping from
    field numbers to values in which a later field with the same number
    replaces the earlier one. *)
Theorem parseResponse_collects (h body : pystr) (fs : list (Z * field_data))
  (r : pystr) :
  length h = 42%nat -> decodes body fs r -> (length r <= 6)%nat ->
  parseResponse (h ++ body) = Ok (collect ∅ fs) /\
  (forall fs1 nr d fs2,
      fs = fs1 ++ (nr, d) :: fs2 -> Forall (fun f => f.1 <> nr) fs2 ->
      collect ∅ fs !! nr = Some d).
Proof.
  intros Hh Hd Hr. split.
  - rewrite (parseResponse_decodes h body fs r Hh Hd). by apply parse_loop_done.
  - intros fs1 nr d fs2 -> Hfs2.
    rewrite collect_app. cbn [collect fold_left fst snd].
    apply (collect_keeps _ fs2 nr d); [apply lookup_insert_eq|done].
Qed.

Lemma parseResponse_collects_witness :
  parseResponse (header_b0 ++ py "00 01 00 00 00 05 ff 00 01 00 00 00 07 ff ")
  = Ok (collect ∅ [(0, FList 0 5); (0, FList 0 7)]) /\
  (forall fs1 nr d fs2,
      [(0, FList 0 5); (0, FList 0 7)] = fs1 ++ (nr, d) :: fs2 ->
      Forall (fun f => f.1 <> nr) fs2 ->
      collect ∅ [(0, FList 0 5); (0, FList 0 7)] !! nr = Some d).
Proof.
  apply (parseResponse_collects header_b0 _ _ []).
  - reflexivity.
  - eapply decodes_cons; [simpl; lia|reflexivity|].
    eapply decodes_cons; [simpl; lia|reflexivity|]. apply decodes_nil.
  - simpl. lia.
Defined.

(** C7, the claim as worded fails: with exactly six characters left after
    the header the loop has already stopped and the mapping is empty, while
    decoding "until fewer than 6 characters remain" would read one more
    field there (and fail on it). *)
Lemma six_characters_left_are_not_decoded :
  length (slice_from 42 (header_b0 ++ py "05 01 ")) = 6%nat /\
  parseResponse (header_b0 ++ py "05 01 ") = Ok ∅ /\
  parseResponse_until_fewer_than_6 (header_b0 ++ py "05 01 ") = Raise ValueError.
Proof. repeat split. Qed.

(** ** Unknown field types *)

Lemma getNextField_unknown (r : pystr) (nr t : Z) :
  int16 (slice 0 2 r) = Some nr -> int16 (slice 3 5 r) = Some t ->
  t <> 1 -> t <> 3 -> t <> 4 -> getNextField r = Ok None.
Proof.
  intros Hnr Ht H1 H3 H4. unfold getNextField, py_int16. rewrite Hnr, Ht.
  cbn [bind].
  rewrite (proj2 (Z.eqb_neq t 1) H1), (proj2 (Z.eqb_neq t 3) H3),
    (proj2 (Z.eqb_neq t 4) H4). reflexivity.
Qed.

Lemma parseResponse_unknown (h body : pystr) (fs : list (Z * field_data))
  (r : pystr) :
  length h = 42%nat -> decodes body fs r -> (6 < length r)%nat ->
  getNextField r = Ok None -> parseResponse (h ++ body) = Raise TypeError.
Proof.
  intros Hh Hd H6 Hg. rewrite (parseResponse_decodes h body fs r Hh Hd).
  rewrite (parse_loop_step _ _ _ None H6); [done| |done].
  apply decodes_length in Hd. rewrite length_app. lia.
Qed.

(** C1, what the code does instead: when the loop of [parseResponse]
    reaches a field whose type code is not 1, 3 or 4, [getNextField]
    returns [None], unpacking it raises [TypeError], the mapping built so
    far is lost, and nothing in the receive loop catches the exception. *)
Theorem unknown_field_type_raises (message : list byte)
  (fs : list (Z * field_data)) (r : pystr) (nr t : Z) :
  (100 < length message < 1000)%nat ->
  BinToHex message !! 18%nat = Some "b"%char ->
  decodes (slice_from 42 (BinToHex message)) fs r ->
  (6 < length r)%nat ->
  int16 (slice 0 2 r) = Some nr -> int16 (slice 3 5 r) = Some t ->
  t <> 1 -> t <> 3 -> t <> 4 ->
  getNextField r = Ok None /\
  parseResponse (BinToHex message) = Raise TypeError /\
  loop_iteration message = Raise TypeError.
Proof.
  intros Hlen Hb Hd H6 Hnr Ht H1 H3 H4.
  pose proof (getNextField_unknown r nr t Hnr Ht H1 H3 H4) as Hg.
  assert (parseResponse (BinToHex message) = Raise TypeError) as Hp.
  { assert (42 <= length (BinToHex message))%nat as H42.
    { apply decodes_length in Hd. unfold slice_from in Hd.
      rewrite length_drop in Hd. lia. }
    rewrite <- (take_drop 42 (BinToHex message)).
    apply (parseResponse_unknown _ _ fs r); [|done..].
    rewrite length_take. lia. }
  repeat split; [done..|].
  unfold loop_iteration.
  replace (100 <? length message)%nat with true by (symmetry; apply Nat.ltb_lt; lia).
  replace (length message <? 1000)%nat with true by (symmetry; apply Nat.ltb_lt; lia).
  cbn [andb]. rewrite Hb, Hp. reflexivity.
Qed.

Lemma unknown_field_type_raises_witness :
  getNextField (slice_from 63 (BinToHex datagram_type_2)) = Ok None /\
  parseResponse (BinToHex datagram_type_2) = Raise TypeError /\
  loop_iteration datagram_type_2 = Raise TypeError.
Proof.
  apply (unknown_field_type_raises datagram_type_2 [(0, FList 0 5)] _ 1 2).
  - simpl. lia.
  - reflexivity.
  - eapply decodes_cons; [vm_compute; lia|vm_compute; reflexivity|].
    apply decodes_nil.
  - vm_compute. lia.
  - reflexivity.
  - reflexivity.
  - lia.
  - lia.
  - lia.
Defined.

(** ** Type-3 fields *)

Lemma hex_value_4 (a b c d : ascii) :
  hex_value 0 [a; b; c; d] = 256 * hex_value 0 [a; b] + hex_value 0 [c; d].
Proof. unfold hex_value. simpl. lia. Qed.

Lemma int16_two_bytes (w x : byte) :
  int16 (remove_spaces (hex_byte w ++ py " " ++ hex_byte x))
  = Some (256 * byte_val w + byte_val x).
Proof.
  destruct (hex_byte_digits w) as (h1 & l1 & -> & Hh1 & Hl1 & Vw & _).
  destruct (hex_byte_digits x) as (h2 & l2 & -> & Hh2 & Hl2 & Vx & _).
  destruct (is_hex_facts h1 Hh1) as (_ & _ & _ & _ & _ & _ & _ & E1 & _).
  destruct (is_hex_facts l1 Hl1) as (_ & _ & _ & _ & _ & _ & _ & E2 & _).
  destruct (is_hex_facts h2 Hh2) as (_ & _ & _ & _ & _ & _ & _ & E3 & _).
  destruct (is_hex_facts l2 Hl2) as (_ & _ & _ & _ & _ & _ & _ & E4 & _).
  unfold remove_spaces. cbn [app py list_ascii_of_string List.filter].
  rewrite E1, E2, E3, E4. cbn [negb].
  replace (negb (code " " =? 32)%N) with false by reflexivity.
  rewrite int16_hex by (cbn [forallb]; by rewrite Hh1, Hl1, Hh2, Hl2).
  by rewrite hex_value_4, Vw, Vx.
Qed.

Lemma two_ints_bytes (w x y z : byte) :
  two_ints (hex_message [w; x; y; z])
  = Ok (FList (256 * byte_val w + byte_val x) (256 * byte_val y + byte_val z)).
Proof.
  pose proof (int16_two_bytes w x) as Ha. pose proof (int16_two_bytes y z) as Hb.
  destruct (hex_byte_digits w) as (h1 & l1 & Ew & _).
  destruct (hex_byte_digits x) as (h2 & l2 & Ex & _).
  destruct (hex_byte_digits y) as (h3 & l3 & Ey & _).
  destruct (hex_byte_digits z) as (h4 & l4 & Ez & _).
  unfold two_ints, py_int16. cbn [hex_message].
  rewrite Ew, Ex, Ey, Ez in *. cbn [app py list_ascii_of_string] in *.
  unfold slice. cbn [drop take Nat.sub]. rewrite Ha, Hb. reflexivity.
Qed.

Lemma two_ints_not_absent (data : pystr) (d : field_data) :
  two_ints data = Ok d -> d <> Absent.
Proof.
  unfold two_ints, bind.
  destruct (py_int16 _); try done. destruct (py_int16 _); try done.
  by intros [= <-].
Qed.

(** C3, as amended: for a field of type 3, [getNextField] answers the empty
    value exactly when the 11 characters at offset 21 are [7f ff ff ff]
    (all bits set except the top one); any other payload of four hex bytes
    is read as the two 16-bit integers it spells; the buffer advances by 36
    characters in both cases. *)
Theorem type3_field (r : pystr) (nr : Z) :
  int16 (slice 0 2 r) = Some nr -> int16 (slice 3 5 r) = Some 3 ->
  (slice 21 32 r = sentinel ->
   getNextField r = Ok (Some (nr, Absent, slice_from 36 r))) /\
  (forall w x y z : byte,
      slice 21 32 r = hex_message [w; x; y; z] -> slice 21 32 r <> sentinel ->
      getNextField r
      = Ok (Some (nr, FList (256 * byte_val w + byte_val x)
                            (256 * byte_val y + byte_val z), slice_from 36 r))) /\
  (forall nr' d r',
      getNextField r = Ok (Some (nr', d, r')) ->
      r' = slice_from 36 r /\ (d = Absent <-> slice 21 32 r = sentinel)).
Proof.
  intros Hnr Ht.
  assert (slice 0 11 (slice 21 32 r) = slice 21 32 r) as Hdata.
  { change (slice 0 11 (slice 21 32 r)) with (take 11 (take 11 (drop 21 r))).
    by rewrite take_take. }
  assert (getNextField r =
          if pystr_eqb (slice 21 32 r) sentinel
          then Ok (Some (nr, Absent, slice_from 36 r))
          else let* d := two_ints (slice 21 32 r) in
               Ok (Some (nr, d, slice_from 36 r))) as Hg.
  { unfold getNextField, py_int16. rewrite Hnr, Ht. cbn [bind Z.eqb Pos.eqb].
    rewrite Hdata. reflexivity. }
  rewrite Hg. unfold pystr_eqb. split; [|split].
  - intros Hs. by rewrite bool_decide_eq_true_2.
  - intros w x y z Hw Hs. rewrite bool_decide_eq_false_2 by done.
    rewrite Hw, two_ints_bytes. reflexivity.
  - intros nr' d r'. case_bool_decide as Hs.
    + intros [= _ <- <-]. done.
    + destruct (two_ints _) as [d'| |] eqn:Hd; try done. cbn [bind].
      intros [= _ <- <-]. split; [done|].
      split; [|done]. intros ->. by apply two_ints_not_absent in Hd.
Qed.

Lemma type3_field_witness :
  (slice 21 32 type3_sample = sentinel ->
   getNextField type3_sample = Ok (Some (5, Absent, slice_from 36 type3_sample))) /\
  (forall w x y z : byte,
      slice 21 32 type3_sample = hex_message [w; x; y; z] ->
      slice 21 32 type3_sample <> sentinel ->
      getNextField type3_sample
      = Ok (Some (5, FList (256 * byte_val w + byte_val x)
                           (256 * byte_val y + byte_val z),
                  slice_from 36 type3_sample))) /\
  (forall nr' d r',
      getNextField type3_sample = Ok (Some (nr', d, r')) ->
      r' = slice_from 36 type3_sample /\
      (d = Absent <-> slice 21 32 type3_sample = sentinel)).
Proof. apply (type3_field type3_sample 5); reflexivity. Defined.

(** C3, the claim as worded fails: the payload in which every bit is set,
    [ff ff ff ff], is decoded as the pair (65535, 65535); the payload that
    gives the empty value is [7f ff ff ff], whose top bit is clear. *)
Lemma all_bits_set_is_not_absent :
  getNextField (py "05 03 00 00 00 00 ff ff ff ff ff ff ")
  = Ok (Some (5, FList 65535 65535, [])) /\
  getNextField (py "05 03 00 00 00 00 ff 7f ff ff ff ff ")
  = Ok (Some (5, Absent, [])).
Proof. split; reflexivity. Qed.

(** ** Text fields *)





(** The text of a field that spells the bytes [bs], none of them zero, is
    the string of these bytes. *)
Lemma HexToByte_bytes (bs : list byte) :
  HexToByte (concat (map hex_byte bs)) = Ok (map chr_byte bs).
Proof.
  unfold HexToByte.
  assert (remove_spaces (concat (map hex_byte bs)) = concat (map hex_byte bs)) as ->.
  { induction bs as [|b bs IH]; [done|]. cbn [map concat].
    destruct (hex_byte_digits b) as (h & l & -> & Hh & Hl & _).
    destruct (is_hex_facts h Hh) as (_ & _ & _ & _ & _ & _ & _ & E1 & _).
    destruct (is_hex_facts l Hl) as (_ & _ & _ & _ & _ & _ & _ & E2 & _).
    unfold remove_spaces in *. cbn [app List.filter]. rewrite E1, E2. cbn [negb].
    by rewrite IH. }
  induction bs as [|b bs IH]; [done|]. cbn [map concat].
  pose proof (int16_hex_byte b) as Hb.
  destruct (hex_byte_digits b) as (h & l & E & _). rewrite E in *.
  cbn [app hex_chunks]. unfold py_int16. rewrite Hb. cbn [bind].
  assert (py_chr (byte_val b) = Ok (chr_byte b)) as ->.
  { unfold py_chr, chr_byte, byte_val. pose proof (Byte.to_N_bounded b).
    replace (0 <=? Z.of_N (to_N b)) with true by (symmetry; apply Z.leb_le; lia).
    replace (Z.of_N (to_N b) <? 256) with true by (symmetry; apply Z.ltb_lt; lia).
    cbn [andb]. by rewrite N2Z.id. }
  cbn [bind]. rewrite IH. reflexivity.
Qed.

(** ** The checksum input *)

Lemma split_ws_hex_message (bs : list byte) :
  split_ws (hex_message bs) = map hex_byte bs.
Proof.
  unfold split_ws. induction bs as [|b bs IH]; [done|].
  destruct (hex_byte_digits b) as (h & l & E & Hh & Hl & _).
  destruct (is_hex_facts h Hh) as (_ & _ & Sh & _).
  destruct (is_hex_facts l Hl) as (_ & _ & Sl & _).
  destruct bs as [|b' bs].
  - cbn [hex_message map]. rewrite E. cbn [split_ws_aux]. by rewrite Sh, Sl.
  - change (hex_message (b :: b' :: bs))
      with (hex_byte b ++ py " " ++ hex_message (b' :: bs)).
    change (map hex_byte (b :: b' :: bs))
      with (hex_byte b :: map hex_byte (b' :: bs)).
    rewrite E. cbn [app py list_ascii_of_string split_ws_aux]. rewrite Sh, Sl.
    replace (str_space " ") with true by reflexivity.
    by rewrite IH.
Qed.

Lemma map_outcome_hex_bytes (bs : list byte) :
  map_outcome py_int16 (map hex_byte bs) = Ok (map byte_val bs).
Proof.
  induction bs as [|b bs IH]; [done|]. cbn [map map_outcome].
  unfold py_int16 at 1. rewrite int16_hex_byte. cbn [bind]. by rewrite IH.
Qed.

(** C2, as amended: the checksum that [add_crc] appends is computed over the
    bytes of the command without its FIRST byte and without its last byte. *)
Theorem crc_input_skips_first_and_last (bs : list byte) :
  crc_input (hex_message bs) = Ok (removelast (tail (map byte_val bs))) /\
  (forall calc_rev_crc16 : list Z -> Z,
      add_crc calc_rev_crc16 (hex_message bs)
      = Ok (hex_message bs ++ py " "
              ++ hexdump (calc_rev_crc16 (removelast (tail (map byte_val bs)))))).
Proof.
  assert (crc_input (hex_message bs) = Ok (removelast (tail (map byte_val bs)))) as H.
  { unfold crc_input. rewrite split_ws_hex_message.
    replace (tail (map hex_byte bs)) with (map hex_byte (tail bs)) by (by destruct bs).
    rewrite map_outcome_hex_bytes. cbn [bind]. by destruct bs. }
  split; [done|]. intros crc. unfold add_crc. rewrite H. reflexivity.
Qed.

(** C2, the claim as worded fails: the first byte of a command is not part
    of the checksum input either, so two commands that differ only there
    get the same input; of the 14 bytes of the "how many sensors" command,
    12 are checked. *)
Lemma first_byte_is_not_in_crc_input :
  crc_input (py "01 02 03 04") = Ok [2; 3] /\
  crc_input (py "ff 02 03 04") = Ok [2; 3] /\
  crc_input (py "00 00 00 00 00 ff 02 04 8c 55 4b 00 03 ff")
  = Ok [0; 0; 0; 0; 255; 2; 4; 140; 85; 75; 0; 3].
Proof. repeat split. Qed.

(** ** The gate of the receive loop *)

Lemma BinToHex_18 (b0 b1 b2 b3 b4 b5 b6 : byte) (rest : list byte) :
  exists c, BinToHex (b0 :: b1 :: b2 :: b3 :: b4 :: b5 :: b6 :: rest) !! 18%nat = Some c /\
            (code c =? 98)%N = (Byte.to_N b6 / 16 =? 11)%N.
Proof.
  unfold BinToHex. cbn [map concat].
  destruct (hex_byte_digits b0) as (h0 & l0 & -> & _).
  destruct (hex_byte_digits b1) as (h1 & l1 & -> & _).
  destruct (hex_byte_digits b2) as (h2 & l2 & -> & _).
  destruct (hex_byte_digits b3) as (h3 & l3 & -> & _).
  destruct (hex_byte_digits b4) as (h4 & l4 & -> & _).
  destruct (hex_byte_digits b5) as (h5 & l5 & -> & _).
  destruct (hex_byte_digits b6) as (h6 & l6 & -> & _ & _ & _ & E).
  exists h6. split; [reflexivity|done].
Qed.

(** C6, as amended: a datagram is decoded only if its length is strictly
    between 100 and 1000 and the FIRST HEX DIGIT of its byte 6 is [b] (the
    byte is one of 0xb0 .. 0xbf); any other datagram is skipped without a
    frame mapping and without an exception. *)
Theorem datagram_gate (message : list byte) :
  (forall b,
      (100 < length message < 1000)%nat -> message !! 6%nat = Some b ->
      (Byte.to_N b / 16 = 11)%N ->
      loop_iteration message
      = (let* element := parseResponse (BinToHex message) in Ok (Some element))) /\
  ((length message <= 100)%nat \/ (1000 <= length message)%nat \/
   (exists b, message !! 6%nat = Some b /\ (Byte.to_N b / 16 <> 11)%N) ->
   loop_iteration message = Ok None).
Proof.
  assert (forall b, (100 < length message)%nat -> message !! 6%nat = Some b ->
            exists c, BinToHex message !! 18%nat = Some c /\
                      (code c =? 98)%N = (Byte.to_N b / 16 =? 11)%N) as H18.
  { intros b Hlen Hb.
    destruct message as [|b0 [|b1 [|b2 [|b3 [|b4 [|b5 [|b6 rest]]]]]]];
      try (simpl in Hlen; lia).
    injection Hb as <-. apply BinToHex_18. }
  split.
  - intros b Hlen Hb Hn. unfold loop_iteration.
    replace (100 <? length message)%nat with true by (symmetry; apply Nat.ltb_lt; lia).
    replace (length message <? 1000)%nat with true by (symmetry; apply Nat.ltb_lt; lia).
    cbn [andb]. destruct (H18 b ltac:(lia) Hb) as (c & -> & ->).
    by rewrite (proj2 (N.eqb_eq _ _) Hn).
  - intros H. unfold loop_iteration.
    destruct (100 <? length message)%nat eqn:H1; [|done].
    destruct (length message <? 1000)%nat eqn:H2; [|done].
    apply Nat.ltb_lt in H1, H2. cbn [andb].
    destruct H as [H|[H|(b & Hb & Hn)]]; [lia..|].
    destruct (H18 b H1 Hb) as (c & -> & ->).
    by rewrite (proj2 (N.eqb_neq _ _) Hn).
Qed.

(** C6, the claim as worded fails: no single marker byte value is required.
    Two datagrams of 105 bytes that differ only in byte 6, 0xb0 in one and
    0xb7 in the other, are both decoded. *)
Lemma marker_is_only_a_high_nibble :
  (exists element, loop_iteration (datagram_with xb0) = Ok (Some element)) /\
  (exists element, loop_iteration (datagram_with xb7) = Ok (Some element)) /\
  datagram_with xb0 !! 6%nat = Some xb0 /\
  datagram_with xb7 !! 6%nat = Some xb7.
Proof.
  split; [|split; [|split; reflexivity]].
  - eexists. vm_compute. reflexivity.
  - eexists. vm_compute. reflexivity.
Qed.

(** The two datagrams the specification names are skipped: one of 50
    bytes, and one of exactly 100 bytes even with the marker in place. *)
Lemma short_datagrams_are_skipped :
  loop_iteration (repeat xb0 50) = Ok None /\
  loop_iteration (repeat xb0 100) = Ok None.
Proof. split; reflexivity. Qed.

(** ** The layout of the sensor registry *)

Lemma total_app (es1 es2 : list (scalar * entry_state)) :
  total (es1 ++ es2) = total es1 + total es2.
Proof. unfold total. induction es1 as [|e es1 IH]; simpl; lia. Qed.

Lemma offset_total (es : list (scalar * entry_state)) (i : nat) :
  offset es i = total (take i es).
Proof. reflexivity. Qed.

Lemma offset_S (es : list (scalar * entry_state)) (i : nat)
  (e : scalar * entry_state) :
  es !! i = Some e -> offset es (S i) = offset es i + elementSize e.2.
Proof.
  intros H. rewrite !offset_total, (take_S_r _ _ _ H), total_app.
  unfold total. simpl. lia.
Qed.

Lemma offset_app_r (es1 es2 : list (scalar * entry_state)) (k : nat) :
  offset (es1 ++ es2) (length es1 + k) = total es1 + offset es2 k.
Proof. by rewrite !offset_total, take_app_add, total_app. Qed.

Lemma build_lay (v : variant) (config : list (gmap Z field_data))
  (sl : gmap scalar (gmap string pyval)) (pos : Z) :
  build v config sl pos
  = (let* es := map_outcome (entry v) config in Ok (lay es sl pos)).
Proof.
  revert sl pos. induction config as [|rec config IH]; intros sl pos; [done|].
  cbn [build map_outcome]. destruct (entry v rec) as [[id st]| |]; cbn [bind]; try done.
  rewrite IH. by destruct (map_outcome (entry v) config).
Qed.

Lemma lay_keeps (es : list (scalar * entry_state))
  (sl : gmap scalar (gmap string pyval)) (pos : Z) (id : scalar) :
  Forall (fun e => e.1 <> id) es -> lay es sl pos !! id = sl !! id.
Proof.
  intros H. revert sl pos. induction H as [|[id' st] es Hne _ IH]; intros sl pos; [done|].
  cbn [lay]. rewrite IH. simpl in Hne. by rewrite lookup_insert_ne.
Qed.

Lemma lay_lookup (es1 es2 : list (scalar * entry_state)) (id : scalar)
  (st : entry_state) (sl : gmap scalar (gmap string pyval)) (pos : Z) :
  Forall (fun e => e.1 <> id) es2 ->
  lay (es1 ++ (id, st) :: es2) sl pos !! id = Some (finish st (pos + total es1)).
Proof.
  intros H. revert sl pos. induction es1 as [|[id' st'] es1 IH]; intros sl pos.
  - cbn [app lay]. rewrite (lay_keeps _ _ _ _ H), lookup_insert_eq.
    unfold total. simpl. do 2 f_equal. lia.
  - cbn [app lay]. rewrite IH. unfold total. simpl. do 2 f_equal. lia.
Qed.

Lemma finish_pos (st : entry_state) (pos : Z) :
  finish st pos !! "pos" = Some (VInt pos) /\
  finish st pos !! "type" = Some (of_scalar (ty st)).
Proof.
  unfold finish. split; [apply lookup_insert_eq|].
  rewrite lookup_insert_ne by done. apply lookup_insert_eq.
Qed.

Lemma finish_other (st : entry_state) (pos : Z) (k : string) :
  k <> "pos"%string -> k <> "type"%string -> finish st pos !! k = desc st !! k.
Proof. intros Hp Ht. unfold finish. by rewrite !lookup_insert_ne. Qed.

Lemma is_code_true (t : scalar) (n : Z) : is_code t n = true -> t = SInt n.
Proof. destruct t; simpl; [|done]. by intros ->%Z.eqb_eq. Qed.

Lemma size_ok_taken (st : entry_state) (n : Z) (t : string) (k : Z) :
  size_ok st -> is_code (ty st) n = true -> py t <> py "null" ->
  (k = elementSize st \/ 0 < k) ->
  forall st', ty st' = SStr (py t) -> elementSize st' = k -> size_ok st'.
Proof.
  intros [H0 Hiff] Hc%is_code_true Ht Hk st' Hty Hsz. unfold size_ok.
  rewrite Hty, Hsz.
  assert (elementSize st <> 0) by (intros ?%Hiff; congruence).
  split; [lia|]. split; [lia|]. intros [=]. done.
Qed.

Ltac case_size_ok :=
  match goal with
  | |- context [is_code ?t ?n] =>
      destruct (is_code t n) eqn:Hcode; [|by intros [= <-]]
  end.

Ltac taken s n t k :=
  apply (size_ok_taken s n t k);
  [ assumption
  | assumption
  | let Heq := fresh in intros Heq; vm_compute in Heq; discriminate Heq
  | first [left; reflexivity | right; lia]
  | reflexivity
  | reflexivity ].

Lemma entry_size_ok (v : variant) (rec : gmap Z field_data) (id : scalar)
  (st : entry_state) : entry v rec = Ok (id, st) -> size_ok st.
Proof.
  unfold entry.
  destruct (item rec 0) as [f0| |]; cbn [bind]; try done.
  destruct (index f0 1) as [id0| |]; cbn [bind]; try done.
  destruct (item rec 1) as [f1| |]; cbn [bind]; try done.
  destruct (index f1 1) as [type| |] eqn:Htype; cbn [bind]; try done.
  assert (size_ok (mk_entry type 1 ∅)) as H0.
  { split; [simpl; lia|]. simpl. split; [lia|]. intros ->.
    destruct f1 as [a b|s]; simpl in Htype; [done|].
    destruct (s !! 1%nat); by inversion Htype. }
  revert H0. generalize (mk_entry type 1 ∅). intros s0 H0.
  destruct (case_null s0) as [s1| |] eqn:E1; cbn [bind]; try done.
  assert (size_ok s1) as H1.
  { revert E1. unfold case_null. destruct (is_code (ty s0) 0) eqn:Hc.
    - intros [= <-]. split; simpl; [lia|done].
    - by intros [= <-]. }
  clear H0 E1.
  destruct (case_volt rec s1) as [s2| |] eqn:E2; cbn [bind]; try done.
  assert (size_ok s2) as H2.
  { revert E2. unfold case_volt, update_name. case_size_ok.
    destruct (item rec 3) as [n| |]; cbn [bind]; try done.
    destruct n as [a b|s]; [|destruct (pystr_eqb _ _)]; intros [= <-].
    - taken s1 1 "volt" (elementSize s1).
    - taken s1 1 "volt" 6.
    - taken s1 1 "volt" (elementSize s1). }
  clear H1 E2.
  destruct (case_current rec s2) as [s3| |] eqn:E3; cbn [bind]; try done.
  assert (size_ok s3) as H3.
  { revert E3. unfold case_current, update_name. case_size_ok.
    destruct (item rec 3) as [n| |]; cbn [bind]; try done. intros [= <-].
    taken s2 2 "current" 2. }
  clear H2 E3.
  destruct (case_thermometer rec s3) as [s4| |] eqn:E4; cbn [bind]; try done.
  assert (size_ok s4) as H4.
  { revert E4. unfold case_thermometer, update_name. case_size_ok.
    destruct (item rec 3) as [n| |]; cbn [bind]; try done. intros [= <-].
    taken s3 3 "thermometer" (elementSize s3). }
  clear H3 E4.
  destruct (case_barometer rec s4) as [s5| |] eqn:E5; cbn [bind]; try done.
  assert (size_ok s5) as H5.
  { revert E5. unfold case_barometer, update_name. case_size_ok.
    destruct (item rec 3) as [n| |]; cbn [bind]; try done. intros [= <-].
    taken s4 5 "barometer" 2. }
  clear H4 E5.
  destruct (case_ohm rec s5) as [s6| |] eqn:E6; cbn [bind]; try done.
  assert (size_ok s6) as H6.
  { revert E6. unfold case_ohm, update_name. case_size_ok.
    destruct (item rec 3) as [n| |]; cbn [bind]; try done. intros [= <-].
    taken s5 6 "ohm" (elementSize s5). }
  clear H5 E6.
  destruct (case_tank rec s6) as [s7| |] eqn:E7; cbn [bind]; try done.
  assert (size_ok s7) as H7.
  { revert E7. unfold case_tank, update_name. case_size_ok.
    destruct (item rec 3) as [n| |]; cbn [bind]; try done.
    destruct (item rec 7) as [f7| |]; cbn [bind]; try done.
    destruct (index f7 1) as [c| |]; cbn [bind]; try done.
    destruct (truediv _ _) as [cap| |]; cbn [bind]; try done.
    destruct (item rec 6) as [f6| |]; cbn [bind]; try done.
    destruct (index f6 1) as [i| |]; cbn [bind]; try done.
    destruct (list_item fluid_type i) as [ft| |]; cbn [bind]; try done.
    destruct (list_item fluid i) as [fl| |]; cbn [bind]; try done.
    intros [= <-].
    taken s6 8 "tank" (elementSize s6). }
  clear H6 E7.
  destruct (case_battery rec s7) as [s8| |] eqn:E8; cbn [bind]; try done.
  assert (size_ok s8) as H8.
  { revert E8. unfold case_battery, update_name. case_size_ok.
    destruct (item rec 3) as [n| |]; cbn [bind]; try done.
    destruct (item rec 5) as [f5| |]; cbn [bind]; try done.
    destruct (index f5 1) as [c| |]; cbn [bind]; try done. intros [= <-].
    taken s7 9 "battery" 5. }
  clear H7 E8.
  destruct (case_inclinometer v rec s8) as [s9| |] eqn:E9; cbn [bind]; try done.
  intros [= _ <-].
  revert E9. unfold case_inclinometer. case_size_ok.
  destruct v.
  - intros [= <-]. taken s8 13 "inclinometer" 1.
  - destruct (item rec 3) as [f3| |]; cbn [bind]; try done.
    destruct (index f3 1) as [it| |]; cbn [bind]; try done. intros [= <-].
    destruct (is_code it 1); [|destruct (is_code it 2)];
      taken s8 13 "inclinometer" 1.
Qed.

Lemma map_outcome_lookup {A B : Type} (f : A -> outcome B) (l : list A)
  (ys : list B) (i : nat) (y : B) :
  map_outcome f l = Ok ys -> ys !! i = Some y ->
  exists x, l !! i = Some x /\ f x = Ok y.
Proof.
  revert ys i. induction l as [|x l IH]; intros ys i; cbn [map_outcome].
  - intros [= <-]. done.
  - destruct (f x) as [y0| |] eqn:Hx; cbn [bind]; try done.
    destruct (map_outcome f l) as [ys0| |]; cbn [bind]; try done.
    intros [= <-]. destruct i as [|i]; simpl.
    + intros [= <-]. eauto.
    + intros H. by apply (IH ys0 i).
Qed.

Lemma offset_mono (es : list (scalar * entry_state)) (i j : nat) :
  Forall (fun e => 0 <= elementSize e.2) es -> (i <= j)%nat ->
  offset es i <= offset es j.
Proof.
  intros Hes Hij. induction Hij as [|j Hij IH]; [lia|].
  destruct (es !! j) as [e|] eqn:Hj.
  - rewrite (offset_S _ _ _ Hj).
    pose proof (proj1 (Forall_lookup _ _) Hes j e Hj). simpl in *. lia.
  - apply lookup_ge_None in Hj.
    rewrite (offset_total es (S j)), (take_ge es (S j)) by lia.
    rewrite (offset_total es j), (take_ge es j) in IH by lia. done.
Qed.

Lemma createSensorList_lay (v : variant) (config : list (gmap Z field_data))
  (sl : gmap scalar (gmap string pyval)) :
  createSensorList v config = Ok sl ->
  exists es, map_outcome (entry v) config = Ok es /\ sl = lay es ∅ 0.
Proof.
  unfold createSensorList. rewrite build_lay.
  destruct (map_outcome (entry v) config) as [es| |]; cbn [bind]; try done.
  intros [= <-]. eauto.
Qed.

(** C8, as amended: when [createSensorList] returns, the position of each
    sensor (of the last record that names it) is the sum of the element
    sizes of all earlier records, and the positions never decrease from one
    record to the next: a record advances the position by its element size,
    which is zero for a sensor of the null kind and positive for every
    other one, so the sequence is not strictly increasing past a null
    sensor. *)
Theorem registry_layout (v : variant) (config : list (gmap Z field_data))
  (sl : gmap scalar (gmap string pyval)) :
  createSensorList v config = Ok sl ->
  exists es,
    map_outcome (entry v) config = Ok es /\
    (forall i id st,
        es !! i = Some (id, st) ->
        (forall j e, (i < j)%nat -> es !! j = Some e -> e.1 <> id) ->
        exists d, sl !! id = Some d /\ d !! "pos" = Some (VInt (offset es i))) /\
    (forall i id st,
        es !! i = Some (id, st) ->
        offset es (S i) = offset es i + elementSize st /\
        0 <= elementSize st /\
        (elementSize st = 0 <-> ty st = SStr (py "null"))) /\
    (forall i j, (i <= j)%nat -> offset es i <= offset es j).
Proof.
  intros H. destruct (createSensorList_lay v config sl H) as (es & Hes & ->).
  assert (forall i id st, es !! i = Some (id, st) -> size_ok st) as Hsize.
  { intros i id st Hi.
    destruct (map_outcome_lookup _ _ _ _ _ Hes Hi) as (rec & _ & Hrec).
    by apply (entry_size_ok v rec id). }
  exists es. split; [done|]. split; [|split].
  - intros i id st Hi Hlast. exists (finish st (offset es i)).
    split; [|apply finish_pos].
    rewrite <- (take_drop_middle es i (id, st) Hi) at 1.
    rewrite lay_lookup.
    + by rewrite Z.add_0_l, offset_total.
    + apply Forall_lookup. intros k e Hk. rewrite lookup_drop in Hk.
      apply (Hlast (S i + k)%nat e); [lia|done].
  - intros i id st Hi. split; [apply (offset_S es i (id, st) Hi)|].
    apply (Hsize i id st Hi).
  - intros i j Hij. apply offset_mono; [|done].
    apply Forall_lookup. intros k [id st] Hk. apply (Hsize k id st Hk).
Qed.

Lemma createSensorList_null_volt :
  createSensorList Json [null_record; volt_record] = Ok null_volt_registry.
Proof. reflexivity. Qed.

Lemma registry_layout_witness :
  exists es,
    map_outcome (entry Json) [null_record; volt_record] = Ok es /\
    (forall i id st,
        es !! i = Some (id, st) ->
        (forall j e, (i < j)%nat -> es !! j = Some e -> e.1 <> id) ->
        exists d, null_volt_registry !! id = Some d /\
                  d !! "pos" = Some (VInt (offset es i))) /\
    (forall i id st,
        es !! i = Some (id, st) ->
        offset es (S i) = offset es i + elementSize st /\
        0 <= elementSize st /\
        (elementSize st = 0 <-> ty st = SStr (py "null"))) /\
    (forall i j, (i <= j)%nat -> offset es i <= offset es j).
Proof.
  apply (registry_layout Json [null_record; volt_record] null_volt_registry).
  reflexivity.
Defined.

(** C8, the claim as worded fails: a null sensor has element size 0, so the
    sensor enumerated after it gets the same position; the positions of the
    two sensors below are both 0. *)
Lemma null_sensor_repeats_position :
  exists sl d1 d2,
    createSensorList Json [null_record; volt_record] = Ok sl /\
    sl !! SInt 1 = Some d1 /\ d1 !! "pos" = Some (VInt 0) /\
    d1 !! "type" = Some (VStr (py "null")) /\
    sl !! SInt 2 = Some d2 /\ d2 !! "pos" = Some (VInt 0) /\
    d2 !! "type" = Some (VStr (py "volt")).
Proof.
  exists null_volt_registry,
    (finish (mk_entry (SStr (py "null")) 0 ∅) 0),
    (finish (mk_entry (SStr (py "volt")) 1 {[ "name" := VStr (py "BATT1") ]}) 0).
  split; [reflexivity|].
  split.
  { refine (lay_lookup [] [(SInt 2, _)] (SInt 1) _ ∅ 0 _).
    repeat constructor. done. }
  split; [apply finish_pos|]. split; [apply finish_pos|].
  split.
  { exact (lay_lookup [(SInt 1, mk_entry (SStr (py "null")) 0 ∅)] [] (SInt 2)
             _ ∅ 0 (List.Forall_nil _)). }
  split; apply finish_pos.
Qed.

(** C10: when two records report the same sensor id, the registry holds
    for that id one descriptor, built from the later record only: its type
    is the kind of the later record, every other key (the name, the
    capacity, ...) is what the later record gave, and nothing of the earlier
    record is left.  Its position counts the element size of the earlier
    record too, and every sensor enumerated after the two is placed behind
    the element sizes of both: the earlier record still takes its place in
    the frame although no sensor is left to read it. *)
Theorem duplicate_id_keeps_later (v : variant) (config : list (gmap Z field_data))
  (sl : gmap scalar (gmap string pyval))
  (es1 es2 es3 : list (scalar * entry_state)) (id : scalar)
  (sta stb : entry_state) :
  createSensorList v config = Ok sl ->
  map_outcome (entry v) config = Ok (es1 ++ (id, sta) :: es2 ++ (id, stb) :: es3) ->
  Forall (fun e => e.1 <> id) es3 ->
  (exists d,
      sl !! id = Some d /\
      d !! "pos" = Some (VInt (total es1 + elementSize sta + total es2)) /\
      d !! "type" = Some (of_scalar (ty stb)) /\
      (forall k, k <> "pos"%string -> k <> "type"%string -> d !! k = desc stb !! k)) /\
  (forall es3a id' st' es3b,
      es3 = es3a ++ (id', st') :: es3b -> Forall (fun e => e.1 <> id') es3b ->
      exists d',
        sl !! id' = Some d' /\
        d' !! "pos" = Some (VInt (total es1 + elementSize sta + total es2
                                  + elementSize stb + total es3a)) /\
        d' !! "type" = Some (of_scalar (ty st')) /\
        (forall k, k <> "pos"%string -> k <> "type"%string ->
                   d' !! k = desc st' !! k)).
Proof.
  intros H Hes Hid.
  destruct (createSensorList_lay v config sl H) as (es & Hes' & ->).
  rewrite Hes in Hes'. injection Hes' as <-. split.
  - exists (finish stb (total es1 + elementSize sta + total es2)).
    split; [|split; [apply finish_pos|split; [apply finish_pos|apply finish_other]]].
    replace (es1 ++ (id, sta) :: es2 ++ (id, stb) :: es3)
      with ((es1 ++ (id, sta) :: es2) ++ (id, stb) :: es3)
      by (by rewrite <- app_assoc).
    rewrite lay_lookup by done. rewrite total_app. unfold total at 2.
    cbn [foldr snd]. fold (total es2). do 2 f_equal. lia.
  - intros es3a id' st' es3b -> Hlast.
    exists (finish st' (total es1 + elementSize sta + total es2
                        + elementSize stb + total es3a)).
    split; [|split; [apply finish_pos|split; [apply finish_pos|apply finish_other]]].
    replace (es1 ++ (id, sta) :: es2 ++ (id, stb) :: es3a ++ (id', st') :: es3b)
      with ((es1 ++ (id, sta) :: es2 ++ (id, stb) :: es3a) ++ (id', st') :: es3b)
      by (rewrite <- !app_assoc; cbn [app]; rewrite <- !app_assoc; done).
    rewrite lay_lookup by done. rewrite total_app. unfold total at 2.
    cbn [foldr snd]. fold (total (es2 ++ (id, stb) :: es3a)).
    rewrite total_app. unfold total at 3. cbn [foldr snd]. fold (total es3a).
    do 2 f_equal. lia.
Qed.

Lemma duplicate_id_keeps_later_witness :
  createSensorList Raw [volt5_record; current5_record; thermo7_record]
  = Ok duplicate_registry /\
  map_outcome (entry Raw) [volt5_record; current5_record; thermo7_record]
  = Ok ([] ++ (SInt 5, volt5) :: [] ++ (SInt 5, current5) :: [(SInt 7, thermo7)]) /\
  (exists d,
      duplicate_registry !! SInt 5 = Some d /\
      d !! "pos" = Some (VInt (total [] + elementSize volt5 + total [])) /\
      d !! "type" = Some (of_scalar (ty current5)) /\
      (forall k, k <> "pos"%string -> k <> "type"%string ->
                 d !! k = desc current5 !! k)) /\
  (forall es3a id' st' es3b,
      [(SInt 7, thermo7)] = es3a ++ (id', st') :: es3b ->
      Forall (fun e => e.1 <> id') es3b ->
      exists d',
        duplicate_registry !! id' = Some d' /\
        d' !! "pos" = Some (VInt (total [] + elementSize volt5 + total []
                                  + elementSize current5 + total es3a)) /\
        d' !! "type" = Some (of_scalar (ty st')) /\
        (forall k, k <> "pos"%string -> k <> "type"%string ->
                   d' !! k = desc st' !! k)).
Proof.
  split; [reflexivity|]. split; [reflexivity|].
  apply (duplicate_id_keeps_later Raw
           [volt5_record; current5_record; thermo7_record] duplicate_registry
           [] [] [(SInt 7, thermo7)] (SInt 5) volt5 current5).
  - reflexivity.
  - reflexivity.
  - repeat constructor. done.
Defined.

(** ** Rounding *)

Lemma round_half_even_spec (num s : Z) :
  0 <= num -> 0 < s ->
  round_half_even num s
  = (let q := num / 2 ^ s in
     let r := num mod 2 ^ s in
     if 2 * r <? 2 ^ s then q
     else if 2 ^ s <? 2 * r then q + 1
     else if Z.even q then q else q + 1).
Proof.
  intros Hn Hs. unfold round_half_even.
  rewrite Z.shiftr_div_pow2, Z.land_ones, Z.shiftl_1_l by lia.
  assert (2 ^ s = 2 * 2 ^ (s - 1)) as E.
  { rewrite <- Z.pow_succ_r by lia. f_equal. lia. }
  cbv zeta. set (r := num mod 2 ^ s). set (h := 2 ^ (s - 1)) in *.
  rewrite E.
  destruct (Z.ltb_spec r h), (Z.ltb_spec (2 * r) (2 * h)); try lia;
    destruct (Z.ltb_spec h r), (Z.ltb_spec (2 * h) (2 * r)); try lia; reflexivity.
Qed.

(** ** The tank decoder *)

Lemma tmp_update_ok (tmp : gmap scalar (gmap string pyval)) (sensorId : scalar)
  (dt : gmap string pyval) (k : string) (x : pyval) :
  tmp !! sensorId = Some dt ->
  tmp_update tmp sensorId k x = Ok (<[sensorId := <[k := x]> dt]> tmp).
Proof. intros H. unfold tmp_update, item. by rewrite H. Qed.

(** C9: for a tank sensor whose element is the pair (a, b), [readTank]
    stores currentLevel = a / 1000, remainingCapacity = b / 10 and
    percentage = remainingCapacity / capacity * 100; when the capacity of
    the descriptor is zero or missing the percentage is the integer 0, and
    in every case the function returns without a division error. *)
Theorem readTank_decodes (sensorList : gmap scalar (gmap string pyval))
  (element : gmap Z field_data) (tmp : gmap scalar (gmap string pyval))
  (sensorId : scalar) (elementId a b : Z) (d dt : gmap string pyval)
  (cap : option float) :
  element !! elementId = Some (FList a b) ->
  sensorList !! sensorId = Some d ->
  d !! "capacity" = VFloat <$> cap ->
  tmp !! sensorId = Some dt ->
  let currentLevel := PrimFloat.div (float_of_Z a) 1000 in
  let remainingCapacity := PrimFloat.div (float_of_Z b) 10 in
  let percentage :=
    match cap with
    | Some c =>
        if PrimFloat.eqb c 0 then VInt 0
        else VFloat (PrimFloat.mul (PrimFloat.div remainingCapacity c) 100)
    | None => VInt 0
    end in
  readTank sensorList element tmp sensorId elementId
  = Ok (<[sensorId :=
            <["percentage" := percentage]>
              (<["remainingCapacity" := VFloat remainingCapacity]>
                 (<["currentLevel" := VFloat currentLevel]> dt))]> tmp).
Proof.
  intros He Hd Hcap Ht currentLevel remainingCapacity percentage.
  unfold readTank, item. rewrite He, Hd. cbn [bind index of_scalar].
  unfold truediv at 1 2. cbn [as_float bind]. unfold fdiv at 1 2.
  replace (PrimFloat.eqb 1000 0) with false by reflexivity.
  replace (PrimFloat.eqb 10 0) with false by reflexivity.
  cbn [bind]. fold currentLevel remainingCapacity.
  assert (tank_percentage remainingCapacity (default (VInt 0) (d !! "capacity"))
          = Ok percentage) as ->.
  { rewrite Hcap. unfold tank_percentage, percentage.
    destruct cap as [c|]; [|reflexivity].
    change (default (VInt 0) (VFloat <$> Some c)) with (VFloat c).
    unfold truediv, fdiv. cbn [truthy as_float bind].
    destruct (PrimFloat.eqb c 0); reflexivity. }
  cbn [bind].
  rewrite (tmp_update_ok tmp sensorId dt) by done. cbn [bind].
  rewrite (tmp_update_ok _ sensorId (<["currentLevel" := VFloat currentLevel]> dt))
    by apply lookup_insert_eq.
  cbn [bind]. rewrite insert_insert_eq.
  rewrite (tmp_update_ok _ sensorId
             (<["remainingCapacity" := VFloat remainingCapacity]>
                (<["currentLevel" := VFloat currentLevel]> dt)))
    by apply lookup_insert_eq.
  by rewrite insert_insert_eq.
Qed.

Lemma readTank_decodes_witness :
  readTank {[ SInt 1 := {[ "capacity" := VFloat 0; "type" := VStr (py "tank") ]} ]}
    {[ 0 := FList 1500 250 ]}
    {[ SInt 1 := {[ "capacity" := VFloat 0; "type" := VStr (py "tank") ]} ]}
    (SInt 1) 0
  = Ok (<[SInt 1 :=
            <["percentage" := VInt 0]>
              (<["remainingCapacity" := VFloat (PrimFloat.div (float_of_Z 250) 10)]>
                 (<["currentLevel" := VFloat (PrimFloat.div (float_of_Z 1500) 1000)]>
                    {[ "capacity" := VFloat 0; "type" := VStr (py "tank") ]}))]>
          {[ SInt 1 := {[ "capacity" := VFloat 0; "type" := VStr (py "tank") ]} ]}).
Proof.
  apply (readTank_decodes _ _ _ (SInt 1) 0 1500 250
           {[ "capacity" := VFloat 0; "type" := VStr (py "tank") ]}
           {[ "capacity" := VFloat 0; "type" := VStr (py "tank") ]}
           (Some 0%float)).
  - reflexivity.
  - reflexivity.
  - reflexivity.
  - reflexivity.
Defined.

(** ** The two scripts: state of charge and temperature *)

Lemma all_range_sound (k : nat) (base : Z) (f : Z -> bool) :
  all_range k base f = true ->
  forall z, base <= z < base + 2 ^ Z.of_nat k -> f z = true.
Proof.
  revert base. induction k as [|k IH]; intros base H z Hz.
  - simpl in *. by replace z with base by lia.
  - cbn [all_range] in H. apply andb_true_iff in H as [Hl Hr].
    rewrite Nat2Z.inj_succ, Z.pow_succ_r in Hz by lia.
    destruct (decide (z < base + 2 ^ Z.of_nat k)).
    + apply (IH base Hl). lia.
    + apply (IH _ Hr). lia.
Qed.

Lemma scripts_agree_16_bit : all_range 16 0 scripts_agree = true.
Proof. vm_compute. reflexivity. Qed.

(** C5, as amended: the divisors of the two scripts differ by the factor
    100, and for every 16-bit raw value the state of charge of
    [pico-raw.py] equals 100 times that of [pico-json.py] up to one
    floating-point rounding error (a relative difference of at most
    2^-52), not exactly; the temperature of [pico-raw.py] equals that of
    [pico-json.py] plus 273.15, rounded to two decimals. *)
Theorem scripts_differ_by_calibration (z : Z) :
  0 <= z < 65536 ->
  PrimFloat.eqb (soc_divisor Json) (PrimFloat.mul 100 (soc_divisor Raw)) = true /\
  exists x y tr tj,
    stateOfCharge Raw (SInt z) = Ok x /\
    stateOfCharge Json (SInt z) = Ok y /\
    PrimFloat.leb (PrimFloat.abs (PrimFloat.sub x (PrimFloat.mul 100 y)))
      (PrimFloat.mul x 0x1p-52%float) = true /\
    toTemperature Raw (SInt z) = Ok tr /\
    toTemperature Json (SInt z) = Ok tj /\
    PrimFloat.eqb tr (round2 (PrimFloat.add tj kelvin_offset)) = true.
Proof.
  intros Hz. split; [reflexivity|].
  pose proof (all_range_sound 16 0 scripts_agree scripts_agree_16_bit z Hz) as H.
  unfold scripts_agree in H.
  destruct (stateOfCharge Raw (SInt z)) as [x| |]; try discriminate H.
  destruct (stateOfCharge Json (SInt z)) as [y| |]; try discriminate H.
  destruct (toTemperature Raw (SInt z)) as [tr| |]; try discriminate H.
  destruct (toTemperature Json (SInt z)) as [tj| |]; try discriminate H.
  apply andb_true_iff in H as [H1 H2].
  exists x, y, tr, tj. repeat split; assumption.
Qed.

Lemma scripts_differ_by_calibration_witness :
  PrimFloat.eqb (soc_divisor Json) (PrimFloat.mul 100 (soc_divisor Raw)) = true /\
  exists x y tr tj,
    stateOfCharge Raw (SInt 8000) = Ok x /\
    stateOfCharge Json (SInt 8000) = Ok y /\
    PrimFloat.leb (PrimFloat.abs (PrimFloat.sub x (PrimFloat.mul 100 y)))
      (PrimFloat.mul x 0x1p-52%float) = true /\
    toTemperature Raw (SInt 8000) = Ok tr /\
    toTemperature Json (SInt 8000) = Ok tj /\
    PrimFloat.eqb tr (round2 (PrimFloat.add tj kelvin_offset)) = true.
Proof. apply (scripts_differ_by_calibration 8000). lia. Defined.

(** C5, the claim as worded fails: for the raw value 7 the state of charge
    of [pico-raw.py], 7 / 160.0, is not 100 times that of [pico-json.py],
    100 * (7 / 16000.0): the two floats differ in the last place. *)
Lemma state_of_charge_7_differs :
  exists x y,
    stateOfCharge Raw (SInt 7) = Ok x /\
    stateOfCharge Json (SInt 7) = Ok y /\
    PrimFloat.eqb x (PrimFloat.mul 100 y) = false.
Proof.
  exists (PrimFloat.div 7 160), (PrimFloat.div 7 16000).
  repeat split.
Qed.

(** ** The checksum suffix: [hexdump] and [add_crc] *)

Lemma to_hex_aux_length (fuel : nat) (n : N) (acc : pystr) :
  (length acc <= length (to_hex_aux fuel n acc))%nat.
Proof.
  revert n acc. induction fuel as [|fuel IH]; intros n acc; cbn [to_hex_aux]; [lia|].
  destruct (n / 16 =? 0)%N; [simpl; lia|].
  etransitivity; [|apply IH]. simpl. lia.
Qed.

Lemma to_hex_length (n : N) : (1 <= length (to_hex n))%nat.
Proof.
  unfold to_hex. cbn [to_hex_aux]. destruct (n / 16 =? 0)%N; [simpl; lia|].
  etransitivity; [|apply to_hex_aux_length]. simpl. lia.
Qed.

Lemma fmt_02x_length (z : Z) : (2 <= length (fmt_02x z))%nat.
Proof.
  unfold fmt_02x. destruct (z <? 0).
  - rewrite length_app. pose proof (to_hex_length (Z.to_N (- z))). simpl. lia.
  - destruct (length (to_hex (Z.to_N z)) <? 2)%nat eqn:E.
    + rewrite length_app. pose proof (to_hex_length (Z.to_N z)). simpl. lia.
    + apply Nat.ltb_ge in E. lia.
Qed.

Lemma hexdump_16_bit : all_range 16 0 hexdump_ok = true.
Proof. vm_compute. reflexivity. Qed.

Lemma byte_of_Z (z : Z) :
  0 <= z < 256 -> exists x : byte, byte_val x = z /\ hex_byte x = fmt_02x z.
Proof.
  intros Hz. destruct (Byte.of_N (Z.to_N z)) as [x|] eqn:E.
  - exists x. apply Byte.to_of_N in E. unfold hex_byte, byte_val.
    rewrite E, Z2N.id by lia. done.
  - apply Byte.of_N_None_iff in E. lia.
Qed.

Lemma hexdump_bytes (b : Z) :
  0 <= b < 65536 ->
  exists hi lo : byte,
    byte_val hi = b / 256 /\ byte_val lo = b mod 256 /\
    hexdump b = hex_message [hi; lo].
Proof.
  intros Hb.
  pose proof (all_range_sound 16 0 hexdump_ok hexdump_16_bit b Hb) as H.
  unfold hexdump_ok, pystr_eqb in H. apply bool_decide_eq_true_1 in H.
  destruct (byte_of_Z (b / 256)) as (hi & Hhi & Ehi).
  { split; [apply Z.div_pos; lia|apply Z.div_lt_upper_bound; lia]. }
  destruct (byte_of_Z (b mod 256)) as (lo & Hlo & Elo).
  { apply Z.mod_pos_bound. lia. }
  exists hi, lo. repeat split; [done..|].
  rewrite H. cbn [hex_message]. by rewrite Ehi, Elo.
Qed.

(** X1: for a 16-bit number [hexdump] spells its two bytes, the high one
    first, as two pairs of hex digits with a blank between them. *)
Theorem hexdump_two_bytes (b : Z) :
  0 <= b < 65536 ->
  exists hi lo : byte,
    byte_val hi = b / 256 /\ byte_val lo = b mod 256 /\
    hexdump b = hex_message [hi; lo].
Proof. apply hexdump_bytes. Qed.

Lemma hexdump_two_bytes_witness :
  exists hi lo : byte,
    byte_val hi = 4660 / 256 /\ byte_val lo = 4660 mod 256 /\
    hexdump 4660 = hex_message [hi; lo].
Proof. apply (hexdump_two_bytes 4660). lia. Defined.

Lemma hexdump_length (b : Z) : length (hexdump b) = 5%nat.
Proof.
  unfold hexdump. pose proof (fmt_02x_length b) as H.
  destruct (length (fmt_02x b)) as [|[|[|[|n]]]] eqn:E; try lia.
  - cbn [Nat.eqb]. rewrite length_app. cbn [length py list_ascii_of_string app].
    rewrite E. cbn [Nat.eqb].
    destruct (fmt_02x b) as [|c1 [|c2 [|]]]; try discriminate E. reflexivity.
  - cbn [Nat.eqb]. rewrite length_app. cbn [length py list_ascii_of_string app].
    rewrite E. cbn [Nat.eqb].
    destruct (fmt_02x b) as [|c1 [|c2 [|c3 [|]]]]; try discriminate E. reflexivity.
  - cbn [Nat.eqb]. rewrite E. cbn [Nat.eqb].
    destruct (fmt_02x b) as [|c1 [|c2 [|c3 [|c4 r]]]]; try discriminate E.
    reflexivity.
Qed.

(** ** [add_crc] on a command *)

Lemma hex_message_snoc (bs : list byte) (x : byte) :
  bs <> [] -> hex_message (bs ++ [x]) = hex_message bs ++ py " " ++ hex_byte x.
Proof.
  intros Hbs. induction bs as [|b bs IH]; [done|].
  destruct bs as [|b' bs]; [reflexivity|].
  change (hex_message ((b :: b' :: bs) ++ [x]))
    with (hex_byte b ++ py " " ++ hex_message ((b' :: bs) ++ [x])).
  rewrite IH by done.
  change (hex_message (b :: b' :: bs))
    with (hex_byte b ++ py " " ++ hex_message (b' :: bs)).
  by rewrite <- !app_assoc.
Qed.

(** X2: on a command of at least one byte, spelled as hex pairs with single
    blanks, [add_crc] appends the two bytes of the checksum, high byte
    first, in the same spelling, whenever the checksum is a 16-bit number:
    the result is again a well-formed command, two bytes longer. *)
Theorem add_crc_appends_two_bytes (calc_rev_crc16 : list Z -> Z) (bs : list byte) :
  bs <> [] ->
  0 <= calc_rev_crc16 (removelast (tail (map byte_val bs))) < 65536 ->
  exists hi lo : byte,
    256 * byte_val hi + byte_val lo
    = calc_rev_crc16 (removelast (tail (map byte_val bs))) /\
    add_crc calc_rev_crc16 (hex_message bs) = Ok (hex_message (bs ++ [hi; lo])).
Proof.
  intros Hbs Hcrc. set (crc := calc_rev_crc16 _) in *.
  destruct (hexdump_bytes crc Hcrc) as (hi & lo & Hhi & Hlo & Hd).
  exists hi, lo. split.
  { rewrite Hhi, Hlo. pose proof (Z.div_mod crc 256). lia. }
  unfold add_crc, crc_input. rewrite split_ws_hex_message.
  replace (tail (map hex_byte bs)) with (map hex_byte (tail bs)) by (by destruct bs).
  rewrite map_outcome_hex_bytes. cbn [bind].
  replace (map byte_val (tail bs)) with (tail (map byte_val bs)) by (by destruct bs).
  fold crc. rewrite Hd. f_equal.
  transitivity (hex_message ((bs ++ [hi]) ++ [lo])); [|by rewrite <- app_assoc].
  rewrite hex_message_snoc by (by destruct bs).
  rewrite hex_message_snoc by done.
  cbn [hex_message]. by rewrite <- !app_assoc.
Qed.

Lemma add_crc_appends_two_bytes_witness :
  exists hi lo : byte,
    256 * byte_val hi + byte_val lo
    = (fun l => 256 * Z.of_nat (length l) + 7)
        (removelast (tail (map byte_val [x00; x02; x04; xff]))) /\
    add_crc (fun l => 256 * Z.of_nat (length l) + 7) (hex_message [x00; x02; x04; xff])
    = Ok (hex_message ([x00; x02; x04; xff] ++ [hi; lo])).
Proof.
  apply (add_crc_appends_two_bytes (fun l => 256 * Z.of_nat (length l) + 7)
           [x00; x02; x04; xff]).
  - discriminate.
  - simpl. lia.
Defined.

Lemma map_outcome_Ok {A B : Type} (f : A -> outcome B) (l : list A) :
  Forall (fun x => returns (f x)) l <-> returns (map_outcome f l).
Proof.
  induction l as [|x l IH]; cbn [map_outcome].
  - split; [by exists []|constructor].
  - split.
    + intros H. inversion H as [|? ? [y Hy] Hl]; subst.
      apply IH in Hl as [ys Hys]. rewrite Hy, Hys. by exists (y :: ys).
    + intros [ys H]. destruct (f x) as [y| |] eqn:Hx; cbn [bind] in H; try done.
      destruct (map_outcome f l) as [ys'| |] eqn:Hl; cbn [bind] in H; try done.
      constructor; [by exists y|]. apply IH. by exists ys'.
Qed.

Lemma map_outcome_py_int16_raises (l : list pystr) :
  returns (map_outcome py_int16 l) \/ map_outcome py_int16 l = Raise ValueError.
Proof.
  induction l as [|x l IH]; cbn [map_outcome]; [left; by exists []|].
  unfold py_int16 at 1 3. destruct (int16 x) as [z|]; cbn [bind]; [|by right].
  destruct IH as [[ys ->]| ->]; cbn [bind]; [left; by eexists|by right].
Qed.

(** X3: [add_crc] returns exactly when every blank-separated token of the
    message after the first one is a base-16 literal, and raises
    [ValueError] otherwise; the first token is never read.  When it returns,
    the result is the message with six characters appended, whatever the
    checksum function gives. *)
Theorem add_crc_returns_iff (calc_rev_crc16 : list Z -> Z) (message : pystr) :
  (Forall (fun t => int16 t <> None) (tail (split_ws message)) ->
   exists suffix, add_crc calc_rev_crc16 message = Ok (message ++ suffix) /\
                  length suffix = 6%nat) /\
  (~ Forall (fun t => int16 t <> None) (tail (split_ws message)) ->
   add_crc calc_rev_crc16 message = Raise ValueError).
Proof.
  assert (Forall (fun t => int16 t <> None) (tail (split_ws message)) <->
          returns (map_outcome py_int16 (tail (split_ws message)))) as Hiff.
  { rewrite <- map_outcome_Ok. apply Forall_proper; [|done].
    intros t. unfold returns, py_int16. destruct (int16 t).
    - split; [by eexists|done].
    - split; [done|]. by intros [? ?]. }
  split.
  - intros H. apply Hiff in H as [ys Hys].
    unfold add_crc, crc_input. rewrite Hys. cbn [bind].
    eexists. split; [reflexivity|].
    rewrite length_app, hexdump_length. reflexivity.
  - intros H. unfold add_crc, crc_input.
    destruct (map_outcome_py_int16_raises (tail (split_ws message))) as [Hr| ->];
      [|reflexivity].
    by apply Hiff in Hr.
Qed.

(** ** [HexToByte], [ByteToHex] and [HexToInt] *)

Lemma remove_spaces_app (s t : pystr) :
  remove_spaces (s ++ t) = remove_spaces s ++ remove_spaces t.
Proof. apply List.filter_app. Qed.

Lemma remove_spaces_hex_byte (b : byte) : remove_spaces (hex_byte b) = hex_byte b.
Proof.
  destruct (hex_byte_digits b) as (h & l & -> & Hh & Hl & _).
  destruct (is_hex_facts h Hh) as (_ & _ & _ & _ & _ & _ & _ & E1 & _).
  destruct (is_hex_facts l Hl) as (_ & _ & _ & _ & _ & _ & _ & E2 & _).
  unfold remove_spaces. cbn [List.filter]. by rewrite E1, E2.
Qed.

Lemma remove_spaces_hex_message (bs : list byte) :
  remove_spaces (hex_message bs) = concat (map hex_byte bs).
Proof.
  induction bs as [|b bs IH]; [done|].
  destruct bs as [|b' bs].
  - cbn [hex_message map concat]. by rewrite app_nil_r, remove_spaces_hex_byte.
  - change (hex_message (b :: b' :: bs))
      with (hex_byte b ++ py " " ++ hex_message (b' :: bs)).
    rewrite !remove_spaces_app, remove_spaces_hex_byte, IH. reflexivity.
Qed.

Lemma remove_spaces_BinToHex (bs : list byte) :
  remove_spaces (BinToHex bs) = concat (map hex_byte bs).
Proof.
  unfold BinToHex. induction bs as [|b bs IH]; [done|].
  cbn [map concat]. rewrite !remove_spaces_app, remove_spaces_hex_byte, IH.
  change (remove_spaces (py " ")) with (@nil ascii). by rewrite app_nil_r.
Qed.

Lemma hex_chunks_hex_bytes (bs : list byte) :
  hex_chunks (concat (map hex_byte bs)) = Ok (map chr_byte bs).
Proof.
  induction bs as [|b bs IH]; [done|]. cbn [map concat].
  pose proof (int16_hex_byte b) as Hb.
  destruct (hex_byte_digits b) as (h & l & E & _). rewrite E in *.
  cbn [app hex_chunks]. unfold py_int16. rewrite Hb. cbn [bind].
  assert (py_chr (byte_val b) = Ok (chr_byte b)) as ->.
  { unfold py_chr, chr_byte, byte_val. pose proof (Byte.to_N_bounded b).
    replace (0 <=? Z.of_N (to_N b)) with true by (symmetry; apply Z.leb_le; lia).
    replace (Z.of_N (to_N b) <? 256) with true by (symmetry; apply Z.ltb_lt; lia).
    cbn [andb]. by rewrite N2Z.id. }
  cbn [bind]. rewrite IH. reflexivity.
Qed.

(** X4: [HexToByte] undoes [BinToHex]: the hex text of a datagram, with a
    blank after every byte, between the bytes only, or with no blanks at
    all, is decoded to the string of the characters of its bytes. *)
Theorem HexToByte_BinToHex (bs : list byte) :
  HexToByte (BinToHex bs) = Ok (map chr_byte bs) /\
  HexToByte (hex_message bs) = Ok (map chr_byte bs) /\
  HexToByte (concat (map hex_byte bs)) = Ok (map chr_byte bs).
Proof.
  unfold HexToByte.
  rewrite remove_spaces_BinToHex, remove_spaces_hex_message.
  assert (remove_spaces (concat (map hex_byte bs)) = concat (map hex_byte bs)) as ->.
  { induction bs as [|b bs IH]; [done|]. cbn [map concat].
    by rewrite remove_spaces_app, remove_spaces_hex_byte, IH. }
  rewrite hex_chunks_hex_bytes. done.
Qed.

(** *** [ByteToHex] *)

Lemma upper_ok_all (c : ascii) : upper_ok c = true.
Proof. destruct c as [[] [] [] [] [] [] [] []]; vm_compute; reflexivity. Qed.

Lemma fmt_02X_digits (c : ascii) :
  exists h l, fmt_02X (ord c) = [h; l] /\ is_hex h = true /\ is_hex l = true /\
              hex_value 0 [h; l] = ord c.
Proof.
  pose proof (upper_ok_all c) as H. unfold upper_ok in H.
  destruct (fmt_02X (ord c)) as [|h [|l [|? ?]]]; try discriminate H.
  exists h, l. destruct (is_hex h), (is_hex l); try discriminate H.
  cbn [andb] in H. apply Z.eqb_eq in H. done.
Qed.

Lemma remove_spaces_drop_while (s : pystr) :
  Forall plain s -> remove_spaces (drop_while str_space s) = remove_spaces s.
Proof.
  induction 1 as [|c s Hc _ IH]; [done|]. cbn [drop_while].
  destruct (str_space c) eqn:E; [|done].
  rewrite IH. unfold remove_spaces. cbn [List.filter]. by rewrite (Hc E).
Qed.

Lemma drop_while_Forall {A : Type} (p : A -> bool) (P : A -> Prop) (l : list A) :
  Forall P l -> Forall P (drop_while p l).
Proof.
  induction 1 as [|x l Hx Hl IH]; [constructor|]. cbn [drop_while].
  destruct (p x); [done|by constructor].
Qed.

Lemma remove_spaces_strip (s : pystr) :
  Forall plain s -> remove_spaces (py_strip s) = remove_spaces s.
Proof.
  intros H. unfold py_strip, remove_spaces at 1.
  rewrite List.filter_rev. fold (remove_spaces (drop_while str_space (rev (drop_while str_space s)))).
  rewrite remove_spaces_drop_while.
  - unfold remove_spaces at 1. rewrite List.filter_rev, rev_involutive.
    by apply remove_spaces_drop_while.
  - apply Forall_rev. by apply drop_while_Forall.
Qed.

Lemma is_hex_plain (c : ascii) : is_hex c = true -> plain c.
Proof.
  intros H. destruct (is_hex_facts c H) as (_ & _ & E & _).
  unfold plain. rewrite E. discriminate.
Qed.

Lemma remove_spaces_upper (c : ascii) :
  remove_spaces (fmt_02X (ord c) ++ py " ") = fmt_02X (ord c).
Proof.
  destruct (fmt_02X_digits c) as (h & l & -> & Hh & Hl & _).
  destruct (is_hex_facts h Hh) as (_ & _ & _ & _ & _ & _ & _ & E1 & _).
  destruct (is_hex_facts l Hl) as (_ & _ & _ & _ & _ & _ & _ & E2 & _).
  unfold remove_spaces. cbn [app py list_ascii_of_string List.filter].
  rewrite E1, E2. reflexivity.
Qed.

Lemma hex_chunks_upper (s : pystr) :
  hex_chunks (concat (map (fun x => fmt_02X (ord x)) s)) = Ok s.
Proof.
  induction s as [|c s IH]; [done|]. cbn [map concat].
  destruct (fmt_02X_digits c) as (h & l & -> & Hh & Hl & Hv).
  cbn [app hex_chunks]. unfold py_int16.
  rewrite (int16_hex h [l]) by (cbn [forallb]; by rewrite Hh, Hl).
  rewrite Hv. cbn [bind].
  assert (py_chr (ord c) = Ok c) as ->.
  { unfold py_chr, ord, code. pose proof (N_ascii_bounded c).
    replace (0 <=? Z.of_N (N_of_ascii c)) with true by (symmetry; apply Z.leb_le; lia).
    replace (Z.of_N (N_of_ascii c) <? 256) with true by (symmetry; apply Z.ltb_lt; lia).
    cbn [andb]. by rewrite N2Z.id, ascii_N_embedding. }
  cbn [bind]. rewrite IH. reflexivity.
Qed.

(** X5: [HexToByte] undoes [ByteToHex] on every string: the upper-case
    digits and the blanks between them are read back to the characters
    that were encoded. *)
Theorem ByteToHex_HexToByte (byteStr : pystr) :
  HexToByte (ByteToHex byteStr) = Ok byteStr.
Proof.
  unfold HexToByte, ByteToHex.
  set (body := concat (map (fun x => fmt_02X (ord x) ++ py " ") byteStr)).
  assert (Forall plain body) as Hplain.
  { subst body. induction byteStr as [|c s IH]; [constructor|].
    cbn [map concat]. destruct (fmt_02X_digits c) as (h & l & -> & Hh & Hl & _).
    cbn [app py list_ascii_of_string].
    constructor; [by apply is_hex_plain|].
    constructor; [by apply is_hex_plain|].
    constructor; [|done]. intros _. reflexivity. }
  rewrite remove_spaces_strip by done. subst body. clear Hplain.
  assert (remove_spaces (concat (map (fun x => fmt_02X (ord x) ++ py " ") byteStr))
          = concat (map (fun x => fmt_02X (ord x)) byteStr)) as ->.
  { induction byteStr as [|c s IH]; [done|]. cbn [map concat].
    by rewrite remove_spaces_app, remove_spaces_upper, IH. }
  apply hex_chunks_upper.
Qed.

(** *** [HexToInt] *)

Lemma hex_value_hex_byte (acc : Z) (b : byte) (rest : pystr) :
  hex_value acc (hex_byte b ++ rest) = hex_value (256 * acc + byte_val b) rest.
Proof.
  destruct (hex_byte_digits b) as (h & l & -> & _ & _ & <- & _).
  unfold hex_value. cbn [app fold_left]. f_equal. lia.
Qed.

Lemma hex_value_hex_bytes (acc : Z) (bs : list byte) :
  hex_value acc (concat (map hex_byte bs))
  = fold_left (fun a b => 256 * a + byte_val b) bs acc.
Proof.
  revert acc. induction bs as [|b bs IH]; intros acc; [done|].
  cbn [map concat fold_left]. by rewrite hex_value_hex_byte, IH.
Qed.

Lemma is_hex_hex_bytes (bs : list byte) :
  forallb is_hex (concat (map hex_byte bs)) = true.
Proof.
  induction bs as [|b bs IH]; [done|]. cbn [map concat].
  destruct (hex_byte_digits b) as (h & l & -> & Hh & Hl & _).
  cbn [app forallb]. by rewrite Hh, Hl, IH.
Qed.

Lemma int16_hex_bytes (bs : list byte) :
  bs <> [] -> int16 (concat (map hex_byte bs)) = Some (be_value bs).
Proof.
  intros Hbs. pose proof (is_hex_hex_bytes bs) as H.
  pose proof (hex_value_hex_bytes 0 bs) as Hv.
  destruct (concat (map hex_byte bs)) as [|c cs] eqn:E.
  - destruct bs as [|b bs]; [done|]. cbn [map concat] in E.
    destruct (hex_byte_digits b) as (h & l & Eb & _). by rewrite Eb in E.
  - rewrite (int16_hex c cs H). by rewrite Hv.
Qed.

Lemma length_hex_bytes (bs : list byte) :
  length (concat (map hex_byte bs)) = (2 * length bs)%nat.
Proof.
  induction bs as [|b bs IH]; [done|]. cbn [map concat].
  rewrite length_app, length_hex_byte, IH. simpl. lia.
Qed.

(** X6: [HexToInt] reads the last [lastBytes] hex DIGITS of the text (not
    bytes): with twice the number of bytes of a suffix it gives the
    big-endian value of that suffix, and with [lastBytes = 0] it gives the
    value of the whole text, since [s[-0:]] is all of [s]. *)
Theorem HexToInt_reads_last_digits (bs1 bs2 : list byte) :
  bs2 <> [] ->
  HexToInt (hex_message (bs1 ++ bs2)) (2 * Z.of_nat (length bs2)) = Ok (be_value bs2) /\
  HexToInt (hex_message (bs1 ++ bs2)) 0 = Ok (be_value (bs1 ++ bs2)).
Proof.
  intros Hbs. unfold HexToInt, py_int16.
  rewrite remove_spaces_hex_message. split.
  - unfold last_chars.
    replace (0 <? 2 * Z.of_nat (length bs2)) with true
      by (symmetry; apply Z.ltb_lt; destruct bs2; [done|simpl; lia]).
    rewrite map_app, concat_app, length_app, !length_hex_bytes.
    replace (2 * length bs1 + 2 * length bs2 - Z.to_nat (2 * Z.of_nat (length bs2)))%nat
      with (length (concat (map hex_byte bs1)))
      by (rewrite length_hex_bytes; lia).
    rewrite drop_app_length. by rewrite int16_hex_bytes.
  - change (last_chars 0 (concat (map hex_byte (bs1 ++ bs2))))
      with (concat (map hex_byte (bs1 ++ bs2))).
    rewrite int16_hex_bytes; [done|]. by destruct bs1.
Qed.

Lemma HexToInt_reads_last_digits_witness :
  HexToInt (hex_message ([x00; xff] ++ [x12; x34])) (2 * Z.of_nat (length [x12; x34]))
  = Ok (be_value [x12; x34]) /\
  HexToInt (hex_message ([x00; xff] ++ [x12; x34])) 0
  = Ok (be_value ([x00; xff] ++ [x12; x34])).
Proof. apply (HexToInt_reads_last_digits [x00; xff] [x12; x34]). discriminate. Defined.

(** ** [parse]: splitting a frame at its separator bytes *)

Lemma hex_message_spaced (b : byte) (bs : list byte) :
  hex_message (b :: bs) = hex_byte b ++ spaced bs.
Proof.
  revert b. induction bs as [|b' bs IH]; intros b.
  - cbn [hex_message spaced map concat]. by rewrite app_nil_r.
  - change (hex_message (b :: b' :: bs))
      with (hex_byte b ++ py " " ++ hex_message (b' :: bs)).
    rewrite IH. unfold spaced. cbn [map concat]. by rewrite <- app_assoc.
Qed.

Lemma spaced_app (bs1 bs2 : list byte) : spaced (bs1 ++ bs2) = spaced bs1 ++ spaced bs2.
Proof. unfold spaced. by rewrite map_app, concat_app. Qed.

Lemma join_ff_flat (g : list byte) (gs : list (list byte)) :
  join_ff g gs = g ++ flat_map (fun g' => xff :: g') gs.
Proof.
  revert g. induction gs as [|g' gs IH]; intros g; cbn [join_ff flat_map].
  - by rewrite app_nil_r.
  - by rewrite IH.
Qed.

Lemma spaced_groups (gs : list (list byte)) :
  spaced (flat_map (fun g' => xff :: g') gs)
  = concat (map (fun g' => py " ff" ++ spaced g') gs).
Proof.
  induction gs as [|g gs IH]; [done|].
  cbn [flat_map map concat]. rewrite <- IH.
  change (xff :: g ++ flat_map (fun g' => xff :: g') gs)
    with ([xff] ++ g ++ flat_map (fun g' => xff :: g') gs).
  rewrite !spaced_app. by rewrite <- app_assoc.
Qed.

Lemma hex_byte_not_ff (b : byte) : b <> xff -> hex_byte b <> py "ff".
Proof.
  intros Hb E. pose proof (int16_hex_byte b) as H. rewrite E in H.
  assert (byte_val b = 255) as H0 by (by injection H).
  apply Hb. unfold byte_val in H0.
  assert (Byte.to_N b = 255%N) as Hn by lia.
  pose proof (Byte.of_to_N b) as Hof. rewrite Hn in Hof.
  by injection Hof.
Qed.

Lemma split_ff_digit (h : ascii) (cur s : pystr) :
  is_hex h = true -> split_ff cur (h :: s) = split_ff (h :: cur) s.
Proof.
  intros Hh. cbn [split_ff]. destruct s as [|c2 [|c3 t]]; try reflexivity.
  unfold pystr_eqb. rewrite bool_decide_eq_false_2; [done|].
  intros [= -> _ _]. discriminate Hh.
Qed.

Lemma split_ff_byte (b : byte) (cur s : pystr) :
  b <> xff ->
  split_ff cur (py " " ++ hex_byte b ++ s)
  = split_ff (rev (py " " ++ hex_byte b) ++ cur) s.
Proof.
  intros Hb. pose proof (hex_byte_not_ff b Hb) as Hne.
  destruct (hex_byte_digits b) as (h & l & E & Hh & Hl & _). rewrite E in *.
  cbn [app py list_ascii_of_string rev].
  transitivity (split_ff (" "%char :: cur) (h :: l :: s)).
  { cbn [split_ff]. unfold pystr_eqb. rewrite bool_decide_eq_false_2; [done|].
    intros [= -> ->]. by apply Hne. }
  by rewrite !split_ff_digit.
Qed.

Lemma split_ff_group (g : list byte) (cur s : pystr) :
  Forall (fun b => b <> xff) g ->
  split_ff cur (spaced g ++ s) = split_ff (rev (spaced g) ++ cur) s.
Proof.
  intros H. revert cur. induction H as [|b g Hb _ IH]; intros cur; [done|].
  unfold spaced in *. cbn [map concat]. rewrite <- !app_assoc.
  rewrite (split_ff_byte b cur _ Hb), IH. f_equal.
  rewrite !rev_app_distr, <- !app_assoc. reflexivity.
Qed.

Lemma split_ff_groups (gs : list (list byte)) (cur : pystr) :
  Forall (Forall (fun b => b <> xff)) gs ->
  split_ff cur (concat (map (fun g' => py " ff" ++ spaced g') gs))
  = rev cur :: map spaced gs.
Proof.
  intros H. revert cur. induction H as [|g gs Hg _ IH]; intros cur; [done|].
  cbn [map concat]. rewrite <- app_assoc.
  transitivity (rev cur :: split_ff [] (spaced g ++ concat (map (fun g' => py " ff" ++ spaced g') gs))).
  { reflexivity. }
  rewrite (split_ff_group g [] _ Hg), IH, app_nil_r, rev_involutive. reflexivity.
Qed.

Lemma hex_message_last (b : byte) (g : list byte) :
  exists pre l, hex_message (b :: g) = pre ++ [l] /\ is_hex l = true.
Proof.
  rewrite hex_message_spaced.
  destruct (exists_last (l := b :: g) ltac:(done)) as (g' & z & Hz).
  destruct g as [|b' g0].
  - destruct (hex_byte_digits b) as (h & l & -> & _ & Hl & _).
    exists [h], l. by rewrite app_nil_r.
  - assert (exists g1, b' :: g0 = g1 ++ [z]) as [g1 ->].
    { destruct g' as [|x g'']; [by destruct g0|].
      injection Hz as -> Hz. by exists g''. }
    rewrite spaced_app. unfold spaced at 2. cbn [map concat]. rewrite app_nil_r.
    destruct (hex_byte_digits z) as (h & l & -> & _ & Hl & _).
    exists (hex_byte b ++ spaced g1 ++ py " " ++ [h]), l.
    split; [|done]. by rewrite <- !app_assoc.
Qed.

Lemma py_strip_hex_message (g : list byte) : py_strip (hex_message g) = hex_message g.
Proof.
  destruct g as [|b g]; [done|].
  destruct (hex_message_last b g) as (pre & l & E & Hl).
  assert (drop_while str_space (hex_message (b :: g)) = hex_message (b :: g)) as Hfront.
  { rewrite hex_message_spaced.
    destruct (hex_byte_digits b) as (h & l' & -> & Hh & _).
    destruct (is_hex_facts h Hh) as (_ & _ & Sh & _).
    cbn [app drop_while]. by rewrite Sh. }
  unfold py_strip. rewrite Hfront, E, rev_app_distr.
  destruct (is_hex_facts l Hl) as (_ & _ & Sl & _).
  cbn [rev app drop_while]. rewrite Sl.
  change (l :: rev pre) with ([l] ++ rev pre).
  by rewrite rev_app_distr, rev_involutive.
Qed.

Lemma py_strip_spaced (g : list byte) : py_strip (spaced g) = hex_message g.
Proof.
  destruct g as [|b g]; [done|].
  rewrite <- (py_strip_hex_message (b :: g)).
  assert (drop_while str_space (spaced (b :: g))
          = drop_while str_space (hex_message (b :: g))) as H.
  { rewrite hex_message_spaced. reflexivity. }
  unfold py_strip. by rewrite H.
Qed.

(** X7: [parse] splits the hex text of a message at its separator bytes:
    for groups of bytes that hold no ff, the first of them not empty, joined
    by single ff bytes, it returns the hex texts of the groups, in order and
    without blanks at their ends. *)
Theorem parse_splits_at_ff (g : list byte) (gs : list (list byte)) :
  g <> [] -> Forall (Forall (fun b => b <> xff)) (g :: gs) ->
  parse (hex_message (join_ff g gs)) = map hex_message (g :: gs).
Proof.
  intros Hg H. apply Forall_cons in H as [Hg0 Hgs].
  destruct g as [|b g0]; [done|]. apply Forall_cons in Hg0 as [_ Hg0].
  rewrite join_ff_flat. cbn [app]. rewrite hex_message_spaced, spaced_app, spaced_groups.
  unfold parse, striplist.
  destruct (hex_byte_digits b) as (h & l & E & Hh & Hl & _).
  assert (split_ff [] (hex_byte b ++ spaced g0
                         ++ concat (map (fun g' => py " ff" ++ spaced g') gs))
          = hex_message (b :: g0) :: map spaced gs) as ->.
  { rewrite hex_message_spaced, E. cbn [app].
    rewrite !split_ff_digit by done.
    rewrite (split_ff_group g0 _ _ Hg0), (split_ff_groups gs _ Hgs).
    rewrite rev_app_distr, rev_involutive. reflexivity. }
  cbn [map]. rewrite py_strip_hex_message. f_equal.
  rewrite map_map. apply map_ext. intros g'. apply py_strip_spaced.
Qed.

Lemma parse_splits_at_ff_witness :
  parse (hex_message (join_ff [x00; x01] [[x02]; []; [x03; x04]]))
  = map hex_message ([x00; x01] :: [[x02]; []; [x03; x04]]).
Proof.
  apply (parse_splits_at_ff [x00; x01] [[x02]; []; [x03; x04]]).
  - discriminate.
  - repeat constructor; discriminate.
Defined.

(** ** Fields and frames, byte by byte *)

Lemma BinToHex_cons (b : byte) (bs : list byte) :
  BinToHex (b :: bs) = hex_byte b ++ py " " ++ BinToHex bs.
Proof. unfold BinToHex. cbn [map concat]. by rewrite <- app_assoc. Qed.

Lemma BinToHex_app (bs1 bs2 : list byte) :
  BinToHex (bs1 ++ bs2) = BinToHex bs1 ++ BinToHex bs2.
Proof. unfold BinToHex. by rewrite map_app, concat_app. Qed.

Lemma length_BinToHex (bs : list byte) : length (BinToHex bs) = (3 * length bs)%nat.
Proof.
  induction bs as [|b bs IH]; [done|].
  rewrite BinToHex_cons, !length_app, length_hex_byte, IH. simpl. lia.
Qed.

Lemma hex_byte_nonzero (b : byte) : b <> x00 -> hex_byte b <> py "00".
Proof.
  intros Hb E. pose proof (int16_hex_byte b) as H. rewrite E in H.
  assert (byte_val b = 0) as H0 by (by injection H).
  apply Hb. unfold byte_val in H0.
  assert (Byte.to_N b = 0%N) as Hn by lia.
  pose proof (Byte.of_to_N b) as Hof. rewrite Hn in Hof.
  by injection Hof.
Qed.

(** The scan of a text field that is spelled by [BinToHex]. *)
Lemma scan_text_BinToHex (text : list byte) (word tail : pystr) :
  Forall (fun b => b <> x00) text ->
  scan_text (BinToHex text ++ py "00" ++ tail) word
  = Ok (word ++ concat (map hex_byte text), py "00" ++ tail).
Proof.
  intros H. revert word. induction H as [|b text Hb _ IH]; intros word.
  - cbn [BinToHex map concat app]. rewrite app_nil_r. reflexivity.
  - rewrite BinToHex_cons. cbn [map concat].
    pose proof (hex_byte_nonzero b Hb) as Hne.
    destruct (hex_byte_digits b) as (h & l & E & _). rewrite E in *.
    cbn [app py list_ascii_of_string scan_text]. unfold pystr_eqb at 1.
    rewrite bool_decide_eq_false_2 by done.
    change (String "0" (String "0" EmptyString)) with "00"%string.
    specialize (IH (word ++ [h; l])). cbn [app py list_ascii_of_string] in IH.
    rewrite IH. by rewrite <- app_assoc.
Qed.

Lemma scan_text_BinToHex_open (text : list byte) (word : pystr) :
  Forall (fun b => b <> x00) text ->
  scan_text (BinToHex text) word = Diverge.
Proof.
  intros H. revert word. induction H as [|b text Hb _ IH]; intros word; [done|].
  rewrite BinToHex_cons.
  pose proof (hex_byte_nonzero b Hb) as Hne.
  destruct (hex_byte_digits b) as (h & l & E & _). rewrite E in *.
  cbn [app py list_ascii_of_string scan_text]. unfold pystr_eqb at 1.
  rewrite bool_decide_eq_false_2 by done. apply IH.
Qed.

Lemma int16_01 : int16 (py "01") = Some 1.
Proof. reflexivity. Qed.
Lemma int16_03 : int16 (py "03") = Some 3.
Proof. reflexivity. Qed.
Lemma int16_04 : int16 (py "04") = Some 4.
Proof. reflexivity. Qed.

(** The first 21 characters of a field: its number, its type code and five
    more bytes. *)
Lemma getNextField_head (nr ty : byte) (pad : list byte) (rest : pystr) :
  length pad = 5%nat ->
  slice 0 2 (BinToHex ([nr; ty] ++ pad) ++ rest) = hex_byte nr /\
  slice 3 5 (BinToHex ([nr; ty] ++ pad) ++ rest) = hex_byte ty /\
  slice 6 17 (BinToHex ([nr; ty] ++ pad) ++ rest)
  = take 11 (BinToHex pad) /\
  slice_from 21 (BinToHex ([nr; ty] ++ pad) ++ rest) = rest.
Proof.
  intros Hpad.
  destruct pad as [|p1 [|p2 [|p3 [|p4 [|p5 [|]]]]]]; try discriminate Hpad.
  cbn [app]. rewrite !BinToHex_cons.
  destruct (hex_byte_digits nr) as (a1 & a2 & -> & _).
  destruct (hex_byte_digits ty) as (b1 & b2 & -> & _).
  destruct (hex_byte_digits p1) as (c1 & c2 & -> & _).
  destruct (hex_byte_digits p2) as (d1 & d2 & -> & _).
  destruct (hex_byte_digits p3) as (e1 & e2 & -> & _).
  destruct (hex_byte_digits p4) as (f1 & f2 & -> & _).
  destruct (hex_byte_digits p5) as (g1 & g2 & -> & _).
  repeat split.
Qed.

Lemma payload_slices (w x y z sep : byte) (rest : pystr) :
  take 11 (BinToHex [w; x; y; z; sep] ++ rest) = hex_message [w; x; y; z] /\
  drop 15 (BinToHex [w; x; y; z; sep] ++ rest) = rest /\
  slice 0 11 (hex_message [w; x; y; z]) = hex_message [w; x; y; z].
Proof.
  rewrite !BinToHex_cons. cbn [hex_message].
  destruct (hex_byte_digits w) as (a1 & a2 & -> & _).
  destruct (hex_byte_digits x) as (b1 & b2 & -> & _).
  destruct (hex_byte_digits y) as (c1 & c2 & -> & _).
  destruct (hex_byte_digits z) as (d1 & d2 & -> & _).
  destruct (hex_byte_digits sep) as (e1 & e2 & -> & _).
  repeat split.
Qed.

Lemma slice_from_add (a b : nat) (r : pystr) :
  slice_from (a + b) r = slice_from b (slice_from a r).
Proof. unfold slice_from. by rewrite drop_drop. Qed.

Lemma getNextField_W1 (nr w x y z sep : byte) (rest : pystr) :
  getNextField (BinToHex (encode (W1 nr w x y z sep)) ++ rest)
  = Ok (Some (value (W1 nr w x y z sep), rest)).
Proof.
  destruct (getNextField_head nr x01 [w; x; y; z; sep] rest eq_refl)
    as (H0 & H3 & H6 & H21).
  destruct (payload_slices w x y z sep []) as (Hd & _ & _).
  rewrite app_nil_r in Hd.
  change (encode (W1 nr w x y z sep)) with ([nr; x01] ++ [w; x; y; z; sep]).
  unfold getNextField. rewrite H0, H3, H6, H21, Hd. unfold py_int16.
  rewrite !int16_hex_byte. cbn [bind].
  change (byte_val x01 =? 1) with true. cbn iota.
  rewrite two_ints_bytes. reflexivity.
Qed.

Lemma getNextField_W3 (nr : byte) (pad : list byte) (w x y z sep : byte)
  (rest : pystr) :
  length pad = 5%nat ->
  getNextField (BinToHex (encode (W3 nr pad w x y z sep)) ++ rest)
  = Ok (Some (value (W3 nr pad w x y z sep), rest)).
Proof.
  intros Hpad.
  destruct (getNextField_head nr x03 pad (BinToHex [w; x; y; z; sep] ++ rest) Hpad)
    as (H0 & H3 & _ & H21).
  destruct (payload_slices w x y z sep rest) as (Hd & Hr & Hs).
  cbn [encode]. rewrite app_assoc, BinToHex_app, <- app_assoc.
  set (r := BinToHex ([nr; x03] ++ pad) ++ BinToHex [w; x; y; z; sep] ++ rest) in *.
  assert (slice 21 32 r = hex_message [w; x; y; z]) as H32.
  { change (slice 21 32 r) with (take 11 (slice_from 21 r)). by rewrite H21. }
  assert (slice_from 36 r = rest) as H36.
  { change 36%nat with (21 + 15)%nat. rewrite slice_from_add, H21. done. }
  unfold getNextField. rewrite H0, H3, H32, H36, Hs. unfold py_int16.
  rewrite !int16_hex_byte. cbn [bind].
  change (byte_val x03 =? 1) with false. change (byte_val x03 =? 3) with true.
  cbn iota. cbn [value].
  destruct (pystr_eqb (hex_message [w; x; y; z]) sentinel); [reflexivity|].
  rewrite two_ints_bytes. reflexivity.
Qed.

Lemma getNextField_W4 (nr : byte) (pad text : list byte) (sep : byte)
  (rest : pystr) :
  length pad = 5%nat -> Forall (fun b => b <> x00) text ->
  getNextField (BinToHex (encode (W4 nr pad text sep)) ++ rest)
  = Ok (Some (value (W4 nr pad text sep), rest)).
Proof.
  intros Hpad Htext.
  destruct (getNextField_head nr x04 pad
              (BinToHex text ++ BinToHex [x00; sep] ++ rest) Hpad)
    as (H0 & H3 & _ & H21).
  cbn [encode]. rewrite app_assoc.
  rewrite (BinToHex_app ([nr; x04] ++ pad)), (BinToHex_app text), <- !app_assoc.
  unfold getNextField. rewrite H0, H3, H21. unfold py_int16.
  rewrite !int16_hex_byte. cbn [bind].
  change (byte_val x04 =? 1) with false. change (byte_val x04 =? 3) with false.
  change (byte_val x04 =? 4) with true. cbn iota.
  assert (BinToHex [x00; sep] ++ rest
          = py "00" ++ (py " " ++ hex_byte sep ++ py " " ++ rest)) as ->.
  { rewrite !BinToHex_cons.
    destruct (hex_byte_digits sep) as (e1 & e2 & -> & _). reflexivity. }
  rewrite (scan_text_BinToHex text [] _ Htext). cbn [bind app].
  rewrite HexToByte_bytes. cbn [bind value].
  destruct (hex_byte_digits sep) as (e1 & e2 & -> & _). reflexivity.
Qed.

Lemma field_decodes (f : wire_field) (rest : pystr) :
  well_formed f ->
  getNextField (BinToHex (encode f) ++ rest) = Ok (Some (value f, rest)).
Proof.
  destruct f as [nr w x y z sep|nr pad w x y z sep|nr pad text sep]; cbn [well_formed].
  - intros _. apply getNextField_W1.
  - apply getNextField_W3.
  - intros [Hpad Htext]. by apply getNextField_W4.
Qed.

(** X8: a field of type 1, 3 or 4 that lies in a frame is decoded by
    [getNextField] to its number and its value, and the buffer handed back
    starts right behind the field: type 1 gives the two 16-bit numbers of
    bytes 2-5, type 3 those of bytes 7-10 or the empty value for the
    payload 7f ff ff ff, type 4 the characters up to the zero byte. *)
Theorem field_round_trip (f : wire_field) (rest : pystr) :
  well_formed f ->
  getNextField (BinToHex (encode f) ++ rest) = Ok (Some (value f, rest)).
Proof. apply field_decodes. Qed.

Lemma field_round_trip_witness :
  getNextField (BinToHex (encode (W4 x03 [x00; x00; x00; x00; xff] [x41; x42] xff))
                  ++ py "04 01 ")
  = Ok (Some (value (W4 x03 [x00; x00; x00; x00; xff] [x41; x42] xff), py "04 01 ")).
Proof.
  apply (field_round_trip (W4 x03 [x00; x00; x00; x00; xff] [x41; x42] xff)).
  split; [reflexivity|]. repeat constructor; discriminate.
Defined.

Lemma length_encode (f : wire_field) :
  well_formed f -> (7 <= length (encode f))%nat.
Proof.
  destruct f; cbn [well_formed encode app length]; rewrite ?length_app;
    cbn [length]; lia.
Qed.

Lemma decodes_fields (fs : list wire_field) (trailer : list byte) :
  Forall well_formed fs ->
  decodes (BinToHex (flat_map encode fs ++ trailer)) (map value fs) (BinToHex trailer).
Proof.
  induction 1 as [|f fs Hf _ IH]; [apply decodes_nil|].
  cbn [flat_map map]. rewrite <- app_assoc, BinToHex_app.
  destruct (value f) as [nr d] eqn:Hv.
  apply (decodes_cons _ nr d (BinToHex (flat_map encode fs ++ trailer))); [| |done].
  - rewrite length_app, length_BinToHex. pose proof (length_encode f Hf). lia.
  - rewrite (field_decodes f _ Hf), Hv. reflexivity.
Qed.

(** X9: a frame that consists of a 14-byte header, well-formed fields of
    type 1, 3 and 4 and a trailer of at most two bytes (the checksum) is
    decoded by [parseResponse], from the hex text [BinToHex] makes of it, to
    the mapping of the field numbers to the field values, a later field
    replacing an earlier one of the same number; the trailer is not read. *)
Theorem frame_round_trip (header : list byte) (fs : list wire_field)
  (trailer : list byte) :
  length header = 14%nat -> Forall well_formed fs -> (length trailer <= 2)%nat ->
  parseResponse (BinToHex (header ++ flat_map encode fs ++ trailer))
  = Ok (collect ∅ (map value fs)).
Proof.
  intros Hh Hfs Ht. rewrite BinToHex_app.
  rewrite (parseResponse_decodes _ _ (map value fs) (BinToHex trailer)).
  - apply parse_loop_done. rewrite length_BinToHex. lia.
  - rewrite length_BinToHex. lia.
  - by apply decodes_fields.
Qed.

Lemma frame_round_trip_witness :
  parseResponse
    (BinToHex (repeat x00 14
                 ++ flat_map encode [W1 x05 x01 x02 x03 x04 xff;
                                     W3 x06 (repeat x00 5) x7f xff xff xff xff;
                                     W1 x05 x00 x00 x00 x07 xff]
                 ++ [xab; xcd]))
  = Ok (collect ∅ (map value [W1 x05 x01 x02 x03 x04 xff;
                              W3 x06 (repeat x00 5) x7f xff xff xff xff;
                              W1 x05 x00 x00 x00 x07 xff])).
Proof.
  apply (frame_round_trip (repeat x00 14)).
  - reflexivity.
  - repeat constructor.
  - simpl. lia.
Defined.

(** *** What the decoder can raise *)

Lemma py_int16_raises (s : pystr) (e : exn) : py_int16 s = Raise e -> e = ValueError.
Proof. unfold py_int16. destruct (int16 s); [done|]. by intros [= <-]. Qed.

Lemma py_int16_total (s : pystr) : py_int16 s <> Diverge.
Proof. unfold py_int16. by destruct (int16 s). Qed.

Lemma two_ints_raises (data : pystr) (e : exn) :
  two_ints data = Raise e -> e = ValueError.
Proof.
  unfold two_ints.
  destruct (py_int16 (remove_spaces (slice 0 5 data))) eqn:Ha; cbn [bind].
  - destruct (py_int16 (remove_spaces (slice 6 11 data))) eqn:Hb; cbn [bind]; try done.
    intros [= <-]. by apply py_int16_raises in Hb.
  - intros [= <-]. by apply py_int16_raises in Ha.
  - done.
Qed.

Lemma scan_text_never_raises (s word : pystr) (e : exn) : scan_text s word <> Raise e.
Proof.
  revert word. induction s as [s IH] using (induction_ltof1 _ (@length ascii)).
  unfold ltof in IH. intros word.
  destruct s as [|c1 [|c2 t]]; cbn [scan_text]; try done.
  destruct (pystr_eqb _ _); [done|].
  destruct t as [|c3 t']; [done|]. apply IH. simpl. lia.
Qed.

Lemma hex_chunks_raises (s : pystr) (e : exn) :
  hex_chunks s = Raise e -> e = ValueError.
Proof.
  induction s as [s IH] using (induction_ltof1 _ (@length ascii)).
  unfold ltof in IH. destruct s as [|c1 [|c2 t]]; cbn [hex_chunks]; [done| |].
  - unfold py_int16, py_chr, bind. destruct (int16 _); [|by intros [= <-]].
    destruct (_ && _); [done|by intros [= <-]].
  - unfold py_int16, py_chr, bind. destruct (int16 _); [|by intros [= <-]].
    destruct (_ && _); [|by intros [= <-]].
    specialize (IH t ltac:(simpl; lia)).
    destruct (hex_chunks t); [done| |done]. intros [= <-]. by apply IH.
Qed.

Lemma getNextField_raises (r : pystr) (e : exn) :
  getNextField r = Raise e -> e = ValueError.
Proof.
  unfold getNextField.
  destruct (py_int16 (slice 0 2 r)) as [nr| |] eqn:H0; cbn [bind];
    [|intros [= <-]; by apply py_int16_raises in H0|done].
  destruct (py_int16 (slice 3 5 r)) as [t| |] eqn:H3; cbn [bind];
    [|intros [= <-]; by apply py_int16_raises in H3|done].
  destruct (t =? 1).
  { destruct (two_ints _) eqn:Hd; cbn [bind]; try done.
    intros [= <-]. by apply two_ints_raises in Hd. }
  destruct (t =? 3).
  { destruct (pystr_eqb _ _); [done|].
    destruct (two_ints _) eqn:Hd; cbn [bind]; try done.
    intros [= <-]. by apply two_ints_raises in Hd. }
  destruct (t =? 4); [|done].
  destruct (scan_text _ _) as [[w s']| |] eqn:Hs; cbn [bind]; [| |done].
  - destruct (HexToByte w) eqn:Hw; cbn [bind]; try done.
    intros [= <-]. by apply hex_chunks_raises in Hw.
  - by apply scan_text_never_raises in Hs.
Qed.

Lemma parse_loop_raises (fuel : nat) (r : pystr) (dict : gmap Z field_data)
  (e : exn) :
  parse_loop fuel r dict = Raise e -> e = ValueError \/ e = TypeError.
Proof.
  revert r dict. induction fuel as [|fuel IH]; intros r dict; cbn [parse_loop].
  - by destruct (6 <? length r)%nat.
  - destruct (6 <? length r)%nat; [|done].
    destruct (getNextField r) as [[[[nr d] r']|]| |] eqn:Hg; cbn [bind]; [| | |done].
    + apply IH.
    + intros [= <-]. by right.
    + intros [= <-]. left. by apply getNextField_raises in Hg.
Qed.

(** X10: the only exceptions [parseResponse] can raise are [ValueError] (a
    group that is not a hexadecimal number) and [TypeError] (a field of an
    unknown type); it never raises a [KeyError] or an [IndexError], however
    short or malformed the text is. *)
Theorem parseResponse_only_raises (response : pystr) (e : exn) :
  parseResponse response = Raise e -> e = ValueError \/ e = TypeError.
Proof. apply parse_loop_raises. Qed.

Lemma parseResponse_only_raises_witness :
  parseResponse (header_b0 ++ py "zz 01 00 00 00 05 ff ") = Raise ValueError /\
  (ValueError = ValueError \/ ValueError = TypeError).
Proof.
  split; [reflexivity|].
  apply (parseResponse_only_raises (header_b0 ++ py "zz 01 00 00 00 05 ff ")).
  reflexivity.
Defined.

(** *** A text field without its terminator *)

(** X11: when a frame ends inside a field of type 4, after well-formed
    fields, with no zero byte in what is left of it, the scan for the
    terminator never ends: [getNextField] and with it [parseResponse] run
    for ever, and so does the turn of the receive loop if the datagram
    passes its gate. *)
Theorem unterminated_text_field_hangs (header : list byte) (fs : list wire_field)
  (nr : byte) (pad text : list byte) :
  length header = 14%nat -> Forall well_formed fs ->
  length pad = 5%nat -> Forall (fun b => b <> x00) text ->
  getNextField (BinToHex ([nr; x04] ++ pad ++ text)) = Diverge /\
  parseResponse (BinToHex (header ++ flat_map encode fs ++ [nr; x04] ++ pad ++ text))
  = Diverge /\
  (forall b6,
      header !! 6%nat = Some b6 -> (Byte.to_N b6 / 16 = 11)%N ->
      (100 < length (header ++ flat_map encode fs ++ [nr; x04] ++ pad ++ text)
       < 1000)%nat ->
      loop_iteration (header ++ flat_map encode fs ++ [nr; x04] ++ pad ++ text)
      = Diverge).
Proof.
  intros Hh Hfs Hpad Htext.
  assert (getNextField (BinToHex ([nr; x04] ++ pad ++ text)) = Diverge) as Hg.
  { destruct (getNextField_head nr x04 pad (BinToHex text) Hpad)
      as (H0 & H3 & _ & H21).
    rewrite app_assoc, BinToHex_app.
    unfold getNextField. rewrite H0, H3, H21. unfold py_int16.
    rewrite !int16_hex_byte. cbn [bind].
    change (byte_val x04 =? 1) with false. change (byte_val x04 =? 3) with false.
    change (byte_val x04 =? 4) with true. cbn iota.
    by rewrite (scan_text_BinToHex_open text [] Htext). }
  split; [done|].
  assert (parseResponse
            (BinToHex (header ++ flat_map encode fs ++ [nr; x04] ++ pad ++ text))
          = Diverge) as Hp.
  { rewrite BinToHex_app.
    rewrite (parseResponse_decodes _ _ (map value fs)
               (BinToHex ([nr; x04] ++ pad ++ text))).
    - set (r := BinToHex ([nr; x04] ++ pad ++ text)) in *.
      assert (6 < length r)%nat as H6.
      { subst r. rewrite length_BinToHex, !length_app. simpl. lia. }
      destruct (length (BinToHex header
                          ++ BinToHex (flat_map encode fs ++ [nr; x04] ++ pad ++ text)))
        as [|fuel] eqn:Hfuel.
      { rewrite length_app, !length_BinToHex in Hfuel. lia. }
      cbn [parse_loop]. rewrite (proj2 (Nat.ltb_lt _ _) H6), Hg. reflexivity.
    - rewrite length_BinToHex. lia.
    - by apply decodes_fields. }
  split; [done|].
  intros b6 Hb6 Hn [Hlo Hhi]. unfold loop_iteration.
  rewrite (proj2 (Nat.ltb_lt _ _) Hlo), (proj2 (Nat.ltb_lt _ _) Hhi). cbn [andb].
  rewrite Hp.
  destruct header as [|b0 [|b1 [|b2 [|b3 [|b4 [|b5 [|b6' rest]]]]]]];
    try discriminate Hh.
  injection Hb6 as ->. cbn [app].
  destruct (BinToHex_18 b0 b1 b2 b3 b4 b5 b6
              (rest ++ flat_map encode fs ++ nr :: x04 :: pad ++ text))
    as (c & -> & ->).
  by rewrite (proj2 (N.eqb_eq _ _) Hn).
Qed.

Lemma unterminated_text_field_hangs_witness :
  getNextField (BinToHex ([x03; x04] ++ repeat x00 5 ++ [x41; x42])) = Diverge /\
  parseResponse (BinToHex cut_datagram) = Diverge /\
  (forall b6,
      header_bytes !! 6%nat = Some b6 -> (Byte.to_N b6 / 16 = 11)%N ->
      (100 < length cut_datagram < 1000)%nat ->
      loop_iteration cut_datagram = Diverge).
Proof.
  apply (unterminated_text_field_hangs header_bytes
           (repeat (W1 x05 x01 x02 x03 x04 xff) 13) x03 (repeat x00 5) [x41; x42]).
  - reflexivity.
  - repeat constructor.
  - reflexivity.
  - repeat constructor; discriminate.
Defined.

(** *** What a turn of the receive loop can raise *)

(** X12: whatever datagram arrives, the turn of the receive loop that
    handles it raises nothing but [ValueError] or [TypeError]: reading the
    marker character cannot fail, because a datagram that passes the length
    test gives more than 300 characters of hex text. *)
Theorem loop_iteration_only_raises (message : list byte) (e : exn) :
  loop_iteration message = Raise e -> e = ValueError \/ e = TypeError.
Proof.
  unfold loop_iteration.
  destruct ((100 <? length message)%nat && (length message <? 1000)%nat) eqn:Hgate;
    [|done].
  apply andb_true_iff in Hgate as [Hlo _]. apply Nat.ltb_lt in Hlo.
  destruct (BinToHex message !! 18%nat) as [c|] eqn:Hc.
  - destruct (code c =? 98)%N; [|done].
    destruct (parseResponse (BinToHex message)) as [el| |] eqn:Hp; cbn [bind]; try done.
    intros [= <-]. by apply parse_loop_raises in Hp.
  - apply lookup_ge_None in Hc. rewrite length_BinToHex in Hc. lia.
Qed.

Lemma loop_iteration_only_raises_witness :
  loop_iteration datagram_type_2 = Raise TypeError /\
  (TypeError = ValueError \/ TypeError = TypeError).
Proof.
  split; [reflexivity|].
  apply (loop_iteration_only_raises datagram_type_2). reflexivity.
Defined.

(** ** The kinds of the sensor registry *)

Lemma entry_start (v : variant) (rec : gmap Z field_data) (f0 f1 : field_data)
  (id ty0 : scalar) :
  rec !! 0 = Some f0 -> index f0 1 = Ok id ->
  rec !! 1 = Some f1 -> index f1 1 = Ok ty0 ->
  entry v rec =
  (let st := mk_entry ty0 1 ∅ in
   let* st := case_null st in
   let* st := case_volt rec st in
   let* st := case_current rec st in
   let* st := case_thermometer rec st in
   let* st := case_barometer rec st in
   let* st := case_ohm rec st in
   let* st := case_tank rec st in
   let* st := case_battery rec st in
   let* st := case_inclinometer v rec st in
   Ok (id, st)).
Proof.
  intros H0 Hid H1 Hty. unfold entry, item. rewrite H0, H1. cbn [bind].
  rewrite Hid, Hty. reflexivity.
Qed.

(** X13: a record whose type code is none of 0, 1, 2, 3, 5, 6, 8, 9, 13
    (or is not a number at all) gets a descriptor that holds its type code
    unchanged and its position, without a name, and takes one element. *)
Theorem unknown_kind_keeps_code (v : variant) (rec : gmap Z field_data)
  (f0 f1 : field_data) (id ty0 : scalar) (pos : Z) :
  rec !! 0 = Some f0 -> index f0 1 = Ok id ->
  rec !! 1 = Some f1 -> index f1 1 = Ok ty0 ->
  Forall (fun n => is_code ty0 n = false) known_codes ->
  entry v rec = Ok (id, mk_entry ty0 1 ∅) /\
  finish (mk_entry ty0 1 ∅) pos
  = <["pos" := VInt pos]> (<["type" := of_scalar ty0]> ∅) /\
  forall sl, build v [rec] sl pos
             = Ok (<[id := <["pos" := VInt pos]> (<["type" := of_scalar ty0]> ∅)]> sl).
Proof.
  intros H0 Hid H1 Hty Hk.
  assert (entry v rec = Ok (id, mk_entry ty0 1 ∅)) as He.
  { rewrite (entry_start v rec f0 f1 id ty0) by done.
    unfold known_codes in Hk.
    repeat match goal with
           | H : Forall _ (_ :: _) |- _ =>
               apply Forall_cons in H; destruct H as [? H]
           end.
    unfold case_null, case_volt, case_current, case_thermometer, case_barometer,
      case_ohm, case_tank, case_battery, case_inclinometer.
    cbn zeta. cbn [ty].
    repeat match goal with
           | E : is_code ty0 _ = false |- _ => rewrite E; clear E; cbn [bind ty]
           end.
    reflexivity. }
  split; [done|]. split; [reflexivity|].
  intros sl. cbn [build]. rewrite He. reflexivity.
Qed.

Lemma unknown_kind_keeps_code_witness :
  entry Json {[ 0 := FList 0 4; 1 := FList 0 7 ]} = Ok (SInt 4, mk_entry (SInt 7) 1 ∅) /\
  finish (mk_entry (SInt 7) 1 ∅) 3
  = <["pos" := VInt 3]> (<["type" := of_scalar (SInt 7)]> ∅) /\
  forall sl, build Json [{[ 0 := FList 0 4; 1 := FList 0 7 ]}] sl 3
             = Ok (<[SInt 4 := <["pos" := VInt 3]> (<["type" := of_scalar (SInt 7)]> ∅)]> sl).
Proof.
  apply (unknown_kind_keeps_code Json {[ 0 := FList 0 4; 1 := FList 0 7 ]}
           (FList 0 4) (FList 0 7)).
  - reflexivity.
  - reflexivity.
  - reflexivity.
  - reflexivity.
  - repeat constructor.
Defined.

Ltac run_cases :=
  unfold case_null, case_volt, case_current, case_thermometer, case_barometer,
    case_ohm, case_tank, case_battery, case_inclinometer, update_name, item;
  cbn [ty elementSize desc set_type set_size update is_code bind Z.eqb Pos.eqb
       of_scalar of_field].

(** X14: a record of type 1, 2, 3, 5 or 6 with a name in field 3 gets the
    kind volt, current, thermometer, barometer or ohm and a descriptor that
    holds just this name; it takes 2 elements for current and barometer,
    6 for the volt record named PICO INTERNAL, and 1 otherwise.  Without
    field 3 the record raises [KeyError]. *)
Theorem named_kinds (v : variant) (rec : gmap Z field_data)
  (f0 f1 : field_data) (id : scalar) (t : Z) (kind : string) (size : Z) :
  rec !! 0 = Some f0 -> index f0 1 = Ok id ->
  rec !! 1 = Some f1 -> index f1 1 = Ok (SInt t) ->
  (forall name, rec !! 3 = Some name -> named_kind t name = Some (kind, size) ->
     entry v rec
     = Ok (id, mk_entry (SStr (py kind)) size (<["name" := of_field name]> ∅))) /\
  (rec !! 3 = None -> In t [1; 2; 3; 5; 6] -> entry v rec = Raise KeyError).
Proof.
  intros H0 Hid H1 Hty.
  rewrite (entry_start v rec f0 f1 id (SInt t)) by done. split.
  - intros name H3 Hk. unfold named_kind in Hk.
    destruct (t =? 1) eqn:E1.
    { apply Z.eqb_eq in E1. subst t. injection Hk as <- <-.
      run_cases. rewrite H3. run_cases.
      destruct name as [a b|s]; [run_cases; reflexivity|].
      destruct (pystr_eqb s _); run_cases; reflexivity. }
    destruct (t =? 2) eqn:E2.
    { apply Z.eqb_eq in E2. subst t. injection Hk as <- <-.
      run_cases. rewrite H3. reflexivity. }
    destruct (t =? 3) eqn:E3.
    { apply Z.eqb_eq in E3. subst t. injection Hk as <- <-.
      run_cases. rewrite H3. reflexivity. }
    destruct (t =? 5) eqn:E5.
    { apply Z.eqb_eq in E5. subst t. injection Hk as <- <-.
      run_cases. rewrite H3. reflexivity. }
    destruct (t =? 6) eqn:E6; [|done].
    apply Z.eqb_eq in E6. subst t. injection Hk as <- <-.
    run_cases. rewrite H3. reflexivity.
  - intros H3 Ht. cbn [In] in Ht.
    destruct Ht as [<-|[<-|[<-|[<-|[<-|[]]]]]]; run_cases; rewrite H3; reflexivity.
Qed.

Lemma named_kinds_witness :
  (forall name,
     ({[ 0 := FList 0 2; 1 := FList 0 1; 3 := FStr (py "PICO INTERNAL") ]}
        : gmap Z field_data) !! 3 = Some name ->
     named_kind 1 name = Some ("volt"%string, 6) ->
     entry Json {[ 0 := FList 0 2; 1 := FList 0 1; 3 := FStr (py "PICO INTERNAL") ]}
     = Ok (SInt 2, mk_entry (SStr (py "volt")) 6 (<["name" := of_field name]> ∅))) /\
  (({[ 0 := FList 0 2; 1 := FList 0 1; 3 := FStr (py "PICO INTERNAL") ]}
      : gmap Z field_data) !! 3 = None ->
   In 1 [1; 2; 3; 5; 6] ->
   entry Json {[ 0 := FList 0 2; 1 := FList 0 1; 3 := FStr (py "PICO INTERNAL") ]}
   = Raise KeyError).
Proof.
  apply (named_kinds Json
           {[ 0 := FList 0 2; 1 := FList 0 1; 3 := FStr (py "PICO INTERNAL") ]}
           (FList 0 2) (FList 0 1) (SInt 2) 1 "volt" 6).
  - reflexivity.
  - reflexivity.
  - reflexivity.
  - reflexivity.
Defined.

(** X15: a record of type 8 becomes a tank: its descriptor holds the name,
    the capacity (the second number of field 7 divided by 10) and the two
    names of the fluid that the second number of field 6 selects; a fluid
    index of 4 or more raises [IndexError]. *)
Theorem tank_descriptor (v : variant) (rec : gmap Z field_data)
  (f0 f1 name : field_data) (id : scalar) (a6 i a7 c : Z) :
  rec !! 0 = Some f0 -> index f0 1 = Ok id ->
  rec !! 1 = Some f1 -> index f1 1 = Ok (SInt 8) ->
  rec !! 3 = Some name ->
  rec !! 6 = Some (FList a6 i) -> rec !! 7 = Some (FList a7 c) ->
  (forall ft fl,
      0 <= i < 4 ->
      fluid_type !! Z.to_nat i = Some ft -> fluid !! Z.to_nat i = Some fl ->
      entry v rec
      = Ok (id, mk_entry (SStr (py "tank")) 1
                  (<["fluid" := VStr fl]>
                     (<["fluid_type" := VStr ft]>
                        (<["capacity" :=
                             VFloat (PrimFloat.div (float_of_Z c) (float_of_Z 10))]>
                           (<["name" := of_field name]> ∅)))))) /\
  (4 <= i -> entry v rec = Raise IndexError).
Proof.
  intros H0 Hid H1 Hty H3 H6 H7.
  rewrite (entry_start v rec f0 f1 id (SInt 8)) by done.
  run_cases. rewrite H3, H7, H6.
  cbn [bind index of_scalar]. unfold truediv, fdiv. cbn [as_float bind].
  replace (PrimFloat.eqb (float_of_Z 10) 0) with false by reflexivity.
  cbn [bind]. unfold list_item.
  change (Z.of_nat (length fluid_type)) with 4.
  change (Z.of_nat (length fluid)) with 4.
  split.
  - intros ft fl Hi Hft Hfl.
    replace (i <? 0) with false by (symmetry; apply Z.ltb_ge; lia).
    replace (0 <=? i) with true by (symmetry; apply Z.leb_le; lia).
    replace (i <? 4) with true by (symmetry; apply Z.ltb_lt; lia).
    cbn [andb]. rewrite Hft, Hfl. run_cases.
    destruct v; reflexivity.
  - intros Hi.
    replace (i <? 0) with false by (symmetry; apply Z.ltb_ge; lia).
    replace (i <? 4) with false by (symmetry; apply Z.ltb_ge; lia).
    rewrite andb_false_r. reflexivity.
Qed.

Lemma tank_descriptor_witness :
  (forall ft fl,
      0 <= 2 < 4 ->
      fluid_type !! Z.to_nat 2 = Some ft -> fluid !! Z.to_nat 2 = Some fl ->
      entry Json {[ 0 := FList 0 9; 1 := FList 0 8; 3 := FStr (py "FUEL");
                    6 := FList 0 2; 7 := FList 0 1200 ]}
      = Ok (SInt 9, mk_entry (SStr (py "tank")) 1
                  (<["fluid" := VStr fl]>
                     (<["fluid_type" := VStr ft]>
                        (<["capacity" :=
                             VFloat (PrimFloat.div (float_of_Z 1200) (float_of_Z 10))]>
                           (<["name" := of_field (FStr (py "FUEL"))]> ∅)))))) /\
  (4 <= 2 ->
   entry Json {[ 0 := FList 0 9; 1 := FList 0 8; 3 := FStr (py "FUEL");
                 6 := FList 0 2; 7 := FList 0 1200 ]}
   = Raise IndexError).
Proof.
  apply (tank_descriptor Json
           {[ 0 := FList 0 9; 1 := FList 0 8; 3 := FStr (py "FUEL");
              6 := FList 0 2; 7 := FList 0 1200 ]}
           (FList 0 9) (FList 0 8) (FStr (py "FUEL")) (SInt 9) 0 2 0 1200).
  - reflexivity.
  - reflexivity.
  - reflexivity.
  - reflexivity.
  - reflexivity.
  - reflexivity.
  - reflexivity.
Defined.

(** X16: a record of type 9 becomes a battery of five elements whose
    descriptor holds the name and, as the nominal capacity, 432 times the
    second number of field 5; without field 5 it raises [KeyError]. *)
Theorem battery_descriptor (v : variant) (rec : gmap Z field_data)
  (f0 f1 name : field_data) (id : scalar) :
  rec !! 0 = Some f0 -> index f0 1 = Ok id ->
  rec !! 1 = Some f1 -> index f1 1 = Ok (SInt 9) ->
  rec !! 3 = Some name ->
  (forall a5 c,
      rec !! 5 = Some (FList a5 c) ->
      entry v rec
      = Ok (id, mk_entry (SStr (py "battery")) 5
                  (<["capacity.nominal" := VInt (c * 36 * 12)]>
                     (<["name" := of_field name]> ∅)))) /\
  (rec !! 5 = None -> entry v rec = Raise KeyError).
Proof.
  intros H0 Hid H1 Hty H3.
  rewrite (entry_start v rec f0 f1 id (SInt 9)) by done.
  run_cases. rewrite H3. split.
  - intros a5 c H5. rewrite H5. cbn [bind index]. run_cases.
    destruct v; reflexivity.
  - intros H5. rewrite H5. reflexivity.
Qed.

Lemma battery_descriptor_witness :
  (forall a5 c,
      ({[ 0 := FList 0 7; 1 := FList 0 9; 3 := FStr (py "HOUSE"); 5 := FList 0 100 ]}
         : gmap Z field_data) !! 5 = Some (FList a5 c) ->
      entry Json {[ 0 := FList 0 7; 1 := FList 0 9; 3 := FStr (py "HOUSE");
                    5 := FList 0 100 ]}
      = Ok (SInt 7, mk_entry (SStr (py "battery")) 5
                  (<["capacity.nominal" := VInt (c * 36 * 12)]>
                     (<["name" := of_field (FStr (py "HOUSE"))]> ∅)))) /\
  (({[ 0 := FList 0 7; 1 := FList 0 9; 3 := FStr (py "HOUSE"); 5 := FList 0 100 ]}
      : gmap Z field_data) !! 5 = None ->
   entry Json {[ 0 := FList 0 7; 1 := FList 0 9; 3 := FStr (py "HOUSE");
                 5 := FList 0 100 ]}
   = Raise KeyError).
Proof.
  apply (battery_descriptor Json
           {[ 0 := FList 0 7; 1 := FList 0 9; 3 := FStr (py "HOUSE");
              5 := FList 0 100 ]}
           (FList 0 7) (FList 0 9) (FStr (py "HOUSE")) (SInt 7)).
  - reflexivity.
  - reflexivity.
  - reflexivity.
  - reflexivity.
  - reflexivity.
Defined.

(** X17: the two scripts treat a record of type 13 differently.
    [pico-json.py] makes an inclinometer without a name from it and never
    reads field 3; [pico-raw.py] needs field 3 ([KeyError] without it),
    stores its second number as [inclinometer_type] and names the sensor
    pitch for 1 and roll for 2. *)
Theorem inclinometer_scripts_differ (rec : gmap Z field_data)
  (f0 f1 : field_data) (id : scalar) :
  rec !! 0 = Some f0 -> index f0 1 = Ok id ->
  rec !! 1 = Some f1 -> index f1 1 = Ok (SInt 13) ->
  entry Json rec = Ok (id, mk_entry (SStr (py "inclinometer")) 1 ∅) /\
  (rec !! 3 = None -> entry Raw rec = Raise KeyError) /\
  (forall a b,
      rec !! 3 = Some (FList a b) ->
      entry Raw rec
      = Ok (id, mk_entry (SStr (py "inclinometer")) 1
                  (let d := <["inclinometer_type" := VInt b]> ∅ in
                   if b =? 1 then <["name" := VStr (py "pitch")]> d
                   else if b =? 2 then <["name" := VStr (py "roll")]> d
                   else d))).
Proof.
  intros H0 Hid H1 Hty.
  rewrite !(entry_start _ rec f0 f1 id (SInt 13)) by done.
  split; [reflexivity|]. split.
  - intros H3. run_cases. rewrite H3. reflexivity.
  - intros a b H3. run_cases. rewrite H3. cbn [bind index]. run_cases.
    destruct (b =? 1); [reflexivity|]. destruct (b =? 2); reflexivity.
Qed.

Lemma inclinometer_scripts_differ_witness :
  entry Json {[ 0 := FList 0 3; 1 := FList 0 13 ]}
  = Ok (SInt 3, mk_entry (SStr (py "inclinometer")) 1 ∅) /\
  (({[ 0 := FList 0 3; 1 := FList 0 13 ]} : gmap Z field_data) !! 3 = None ->
   entry Raw {[ 0 := FList 0 3; 1 := FList 0 13 ]} = Raise KeyError) /\
  (forall a b,
      ({[ 0 := FList 0 3; 1 := FList 0 13 ]} : gmap Z field_data) !! 3
      = Some (FList a b) ->
      entry Raw {[ 0 := FList 0 3; 1 := FList 0 13 ]}
      = Ok (SInt 3, mk_entry (SStr (py "inclinometer")) 1
                  (let d := <["inclinometer_type" := VInt b]> ∅ in
                   if b =? 1 then <["name" := VStr (py "pitch")]> d
                   else if b =? 2 then <["name" := VStr (py "roll")]> d
                   else d))).
Proof.
  apply (inclinometer_scripts_differ {[ 0 := FList 0 3; 1 := FList 0 13 ]}
           (FList 0 3) (FList 0 13) (SInt 3)).
  - reflexivity.
  - reflexivity.
  - reflexivity.
  - reflexivity.
Defined.

(** *** The registry as a whole *)

Lemma map_outcome_app_raise {A B : Type} (f : A -> outcome B) (l1 l2 : list A)
  (x : A) (ys : list B) (e : exn) :
  map_outcome f l1 = Ok ys -> f x = Raise e ->
  map_outcome f (l1 ++ x :: l2) = Raise e.
Proof.
  revert ys. induction l1 as [|a l1 IH]; intros ys; cbn [app map_outcome].
  - intros _ ->. reflexivity.
  - destruct (f a) as [y| |]; cbn [bind]; try done.
    destruct (map_outcome f l1) as [ys'| |] eqn:E; cbn [bind]; try done.
    intros _ Hx. by rewrite (IH ys' eq_refl Hx).
Qed.

(** X18: [createSensorList] builds the registry or nothing: it returns
    exactly when every record of the configuration can be turned into a
    descriptor, and the first record that cannot makes the whole call raise
    that record's exception, whatever the records before and behind it
    are. *)
Theorem registry_all_or_nothing (v : variant) (config : list (gmap Z field_data)) :
  (returns (createSensorList v config) <->
   Forall (fun rec => returns (entry v rec)) config) /\
  (forall before rec after es e,
      config = before ++ rec :: after ->
      map_outcome (entry v) before = Ok es -> entry v rec = Raise e ->
      createSensorList v config = Raise e).
Proof.
  unfold createSensorList. rewrite build_lay. split.
  - rewrite map_outcome_Ok. unfold returns.
    destruct (map_outcome (entry v) config) as [es| |]; cbn [bind].
    + split; intros _; eauto.
    + split; intros [? ?]; done.
    + split; intros [? ?]; done.
  - intros before rec after es e -> Hes He.
    by rewrite (map_outcome_app_raise _ _ _ _ _ _ Hes He).
Qed.

Lemma dom_lay (es : list (scalar * entry_state))
  (sl : gmap scalar (gmap string pyval)) (pos : Z) :
  dom (lay es sl pos) = dom sl ∪ list_to_set (map fst es).
Proof.
  revert sl pos. induction es as [|[id st] es IH]; intros sl pos; cbn [lay map].
  - by rewrite list_to_set_nil, (right_id_L ∅ (∪)).
  - rewrite IH, dom_insert_L, list_to_set_cons. cbn [fst].
    by rewrite (comm_L (∪) {[id]} (dom sl)), (assoc_L (∪)).
Qed.

Lemma elem_of_map_fst (es : list (scalar * entry_state)) (e : scalar * entry_state) :
  e ∈ es -> e.1 ∈ map fst es.
Proof.
  induction 1 as [e es|e e' es _ IH]; cbn [map]; [apply list_elem_of_here|].
  by apply list_elem_of_further.
Qed.

Lemma last_occurrence (es : list (scalar * entry_state)) (id : scalar) :
  id ∈ map fst es ->
  exists es1 st es2,
    es = es1 ++ (id, st) :: es2 /\ Forall (fun e => e.1 <> id) es2.
Proof.
  induction es as [|[id' st'] es IH]; cbn [map fst].
  - intros H. by apply elem_of_nil in H.
  - intros H. destruct (decide (id ∈ map fst es)) as [Hin|Hnot].
    + destruct (IH Hin) as (es1 & st & es2 & -> & Hes2).
      by exists ((id', st') :: es1), st, es2.
    + apply elem_of_cons in H as [->|H]; [|done].
      exists [], st', es. split; [done|].
      apply Forall_forall. intros [i x] Hi Heq. cbn [fst] in Heq. subst i.
      apply Hnot. by apply (elem_of_map_fst es (id', x)).
Qed.

(** X19: the registry that [createSensorList] returns has one descriptor
    for every sensor id that a record reports and for no other key.  The
    descriptor of an id comes from the last record that reports it: its
    type is the kind of that record, its position is the sum of the element
    sizes of all the records before that one, and its other keys are the
    ones that record gave. *)
Theorem registry_keys (v : variant) (config : list (gmap Z field_data))
  (sl : gmap scalar (gmap string pyval)) :
  createSensorList v config = Ok sl ->
  exists es,
    map_outcome (entry v) config = Ok es /\
    dom sl = list_to_set (map fst es) /\
    (forall id d, sl !! id = Some d ->
       exists es1 st es2,
         es = es1 ++ (id, st) :: es2 /\
         Forall (fun e => e.1 <> id) es2 /\
         d !! "type" = Some (of_scalar (ty st)) /\
         d !! "pos" = Some (VInt (total es1)) /\
         (forall k, k <> "pos"%string -> k <> "type"%string ->
                    d !! k = desc st !! k)).
Proof.
  intros H. destruct (createSensorList_lay v config sl H) as (es & Hes & ->).
  assert (dom (lay es ∅ 0) = list_to_set (map fst es)) as Hdom.
  { by rewrite dom_lay, dom_empty_L, (left_id_L ∅ (∪)). }
  exists es. split; [done|]. split; [done|].
  intros id d Hd.
  assert (id ∈ map fst es) as Hin.
  { apply (elem_of_list_to_set (C := gset scalar)). rewrite <- Hdom.
    apply elem_of_dom. by exists d. }
  destruct (last_occurrence es id Hin) as (es1 & st & es2 & -> & Hes2).
  rewrite lay_lookup in Hd by done. injection Hd as <-.
  exists es1, st, es2. split; [done|]. split; [done|].
  rewrite Z.add_0_l.
  split; [apply finish_pos|split; [apply finish_pos|apply finish_other]].
Qed.

Lemma registry_keys_witness :
  createSensorList Json [null_record; volt_record] = Ok null_volt_registry /\
  exists es,
    map_outcome (entry Json) [null_record; volt_record] = Ok es /\
    dom null_volt_registry = list_to_set (map fst es) /\
    (forall id d, null_volt_registry !! id = Some d ->
       exists es1 st es2,
         es = es1 ++ (id, st) :: es2 /\
         Forall (fun e => e.1 <> id) es2 /\
         d !! "type" = Some (of_scalar (ty st)) /\
         d !! "pos" = Some (VInt (total es1)) /\
         (forall k, k <> "pos"%string -> k <> "type"%string ->
                    d !! k = desc st !! k)).
Proof.
  split; [reflexivity|].
  apply (registry_keys Json [null_record; volt_record] null_volt_registry).
  reflexivity.
Defined.

(** ** The telemetry decoders *)

Lemma bind_Ok {A B : Type} (m : outcome A) (k : A -> outcome B) (y : B) :
  (let* x := m in k x) = Ok y -> exists x, m = Ok x /\ k x = Ok y.
Proof. destruct m as [x| |]; cbn [bind]; [eauto|done..]. Qed.

Lemma index_Absent (i : nat) : index Absent i = Raise IndexError.
Proof. unfold index, Absent. by destruct i. Qed.

(** X20: a field that reported "no data" (the empty value of a type-3
    field) makes every decoder that is pointed at it raise [IndexError],
    which nothing in the scripts catches. *)
Theorem absent_reading_raises (v : variant)
  (sensorList : gmap scalar (gmap string pyval)) (element : gmap Z field_data)
  (tmp : gmap scalar (gmap string pyval)) (sensorId : scalar) (elementId : Z)
  (d : gmap string pyval) :
  tmp !! sensorId = Some d -> element !! elementId = Some Absent ->
  readBaro element tmp sensorId elementId = Raise IndexError /\
  readTemp v element tmp sensorId elementId = Raise IndexError /\
  readVolt element tmp sensorId elementId = Raise IndexError /\
  readOhm element tmp sensorId elementId = Raise IndexError /\
  readCurrent element tmp sensorId elementId = Raise IndexError /\
  readIncline v element tmp sensorId elementId = Raise IndexError /\
  readTank sensorList element tmp sensorId elementId = Raise IndexError /\
  readBatt v sensorList element tmp sensorId elementId = Raise IndexError.
Proof.
  intros Ht He.
  unfold readBaro, readTemp, readVolt, readOhm, readCurrent, readIncline,
    readTank, readBatt, tmp_update_with, item.
  rewrite Ht, He. cbn [bind]. rewrite !index_Absent. cbn [bind].
  repeat split; try reflexivity. by destruct v.
Qed.

Lemma absent_reading_raises_witness :
  readBaro {[ 4 := Absent ]} {[ SInt 1 := ∅ ]} (SInt 1) 4 = Raise IndexError /\
  readTemp Json {[ 4 := Absent ]} {[ SInt 1 := ∅ ]} (SInt 1) 4 = Raise IndexError /\
  readVolt {[ 4 := Absent ]} {[ SInt 1 := ∅ ]} (SInt 1) 4 = Raise IndexError /\
  readOhm {[ 4 := Absent ]} {[ SInt 1 := ∅ ]} (SInt 1) 4 = Raise IndexError /\
  readCurrent {[ 4 := Absent ]} {[ SInt 1 := ∅ ]} (SInt 1) 4 = Raise IndexError /\
  readIncline Json {[ 4 := Absent ]} {[ SInt 1 := ∅ ]} (SInt 1) 4 = Raise IndexError /\
  readTank ∅ {[ 4 := Absent ]} {[ SInt 1 := ∅ ]} (SInt 1) 4 = Raise IndexError /\
  readBatt Json ∅ {[ 4 := Absent ]} {[ SInt 1 := ∅ ]} (SInt 1) 4 = Raise IndexError.
Proof.
  apply (absent_reading_raises Json ∅ {[ 4 := Absent ]} {[ SInt 1 := ∅ ]}
           (SInt 1) 4 ∅).
  - reflexivity.
  - reflexivity.
Defined.

(** *** What a decoder changes *)

Lemma own_update_insert (tmp : gmap scalar (gmap string pyval)) (sensorId : scalar)
  (d d' : gmap string pyval) :
  tmp !! sensorId = Some d -> dom d ⊆ dom d' ->
  own_update tmp (<[sensorId := d']> tmp) sensorId.
Proof.
  intros Hd Hsub. split; [|split].
  - apply dom_insert_lookup_L. by rewrite Hd.
  - intros id Hne. by rewrite lookup_insert_ne.
  - exists d, d'. by rewrite lookup_insert_eq.
Qed.

Lemma own_update_trans (t1 t2 t3 : gmap scalar (gmap string pyval))
  (sensorId : scalar) :
  own_update t1 t2 sensorId -> own_update t2 t3 sensorId ->
  own_update t1 t3 sensorId.
Proof.
  intros (D1 & O1 & d1 & d2 & H1 & H2 & S1) (D2 & O2 & d2' & d3 & H2' & H3 & S2).
  rewrite H2 in H2'. injection H2' as <-. split; [|split].
  - by rewrite D2.
  - intros id Hne. by rewrite O2, O1.
  - exists d1, d3. repeat split; [done..|]. by transitivity (dom d2).
Qed.

Lemma tmp_update_own (tmp tmp' : gmap scalar (gmap string pyval))
  (sensorId : scalar) (k : string) (x : pyval) :
  tmp_update tmp sensorId k x = Ok tmp' -> own_update tmp tmp' sensorId.
Proof.
  unfold tmp_update, item. destruct (tmp !! sensorId) as [d|] eqn:Hd; [|done].
  cbn [bind]. intros [= <-]. apply (own_update_insert _ _ d); [done|].
  apply dom_insert_subseteq.
Qed.

Lemma tmp_update_with_own (tmp tmp' : gmap scalar (gmap string pyval))
  (sensorId : scalar) (k : string) (x : outcome pyval) :
  tmp_update_with tmp sensorId k x = Ok tmp' -> own_update tmp tmp' sensorId.
Proof.
  unfold tmp_update_with, item. destruct (tmp !! sensorId) as [d|] eqn:Hd; [|done].
  cbn [bind]. destruct x as [y| |]; cbn [bind]; [|done..].
  intros [= <-]. apply (own_update_insert _ _ d); [done|].
  apply dom_insert_subseteq.
Qed.

Lemma item_insert_own (t : gmap scalar (gmap string pyval)) (sensorId : scalar)
  (dt : gmap string pyval) (k : string) (x : pyval) :
  item t sensorId = Ok dt ->
  own_update t (<[sensorId := <[k := x]> dt]> t) sensorId.
Proof.
  unfold item. destruct (t !! sensorId) as [d|] eqn:Hd; [|done]. intros [= <-].
  apply (own_update_insert _ _ d); [done|]. apply dom_insert_subseteq.
Qed.

Ltac invert_binds H :=
  repeat (cbn zeta in H;
          lazymatch type of H with
          | bind _ _ = Ok _ =>
              let x := fresh "x" in
              let Hx := fresh "Hx" in
              apply bind_Ok in H as (x & Hx & H)
          end).

Ltac chain_updates :=
  repeat first
    [ eapply tmp_update_own; eassumption
    | eapply tmp_update_with_own; eassumption
    | eapply own_update_trans; [eapply tmp_update_own; eassumption|]
    | eapply own_update_trans; [eapply item_insert_own; eassumption|] ].

Lemma readTank_own (sensorList : gmap scalar (gmap string pyval))
  (element : gmap Z field_data) (tmp tmp' : gmap scalar (gmap string pyval))
  (sensorId : scalar) (elementId : Z) :
  readTank sensorList element tmp sensorId elementId = Ok tmp' ->
  own_update tmp tmp' sensorId.
Proof.
  intros H. unfold readTank in H. invert_binds H. chain_updates.
Qed.

Lemma readBatt_own (v : variant) (sensorList : gmap scalar (gmap string pyval))
  (element : gmap Z field_data) (tmp tmp' : gmap scalar (gmap string pyval))
  (sensorId : scalar) (elementId : Z) :
  readBatt v sensorList element tmp sensorId elementId = Ok tmp' ->
  own_update tmp tmp' sensorId.
Proof.
  intros H. unfold readBatt in H. invert_binds H.
  destruct (bool_decide _).
  - injection H as <-. chain_updates.
  - invert_binds H. chain_updates.
Qed.

(** X21: a decoder that returns has changed nothing but the descriptor of
    the sensor it was called for: the other descriptors are the same, no
    sensor was added or dropped, and the descriptor itself has kept all
    the keys it had. *)
Theorem decoders_touch_own_sensor (v : variant)
  (sensorList : gmap scalar (gmap string pyval)) (element : gmap Z field_data)
  (tmp tmp' : gmap scalar (gmap string pyval)) (sensorId : scalar) (elementId : Z) :
  readBaro element tmp sensorId elementId = Ok tmp' \/
  readTemp v element tmp sensorId elementId = Ok tmp' \/
  readVolt element tmp sensorId elementId = Ok tmp' \/
  readOhm element tmp sensorId elementId = Ok tmp' \/
  readCurrent element tmp sensorId elementId = Ok tmp' \/
  readIncline v element tmp sensorId elementId = Ok tmp' \/
  readTank sensorList element tmp sensorId elementId = Ok tmp' \/
  readBatt v sensorList element tmp sensorId elementId = Ok tmp' ->
  own_update tmp tmp' sensorId.
Proof.
  intros [H|[H|[H|[H|[H|[H|[H|H]]]]]]].
  - by apply tmp_update_with_own in H.
  - by apply tmp_update_with_own in H.
  - by apply tmp_update_with_own in H.
  - by apply tmp_update_with_own in H.
  - unfold readCurrent in H. invert_binds H. chain_updates.
  - unfold readIncline in H. destruct v.
    + by apply tmp_update_with_own in H.
    + invert_binds H. destruct x0 as [z|s]; [|done]. invert_binds H. chain_updates.
  - by apply readTank_own in H.
  - by apply readBatt_own in H.
Qed.

Lemma decoders_touch_own_sensor_witness :
  own_update {[ SInt 1 := ∅ ]}
    (<[SInt 1 := <["ohm" := VInt 7]> ∅]> {[ SInt 1 := ∅ ]}) (SInt 1).
Proof.
  apply (decoders_touch_own_sensor Json ∅ {[ 4 := FList 0 7 ]} _ _ (SInt 1) 4).
  right; right; right; left. reflexivity.
Defined.

(** *** Currents *)

Lemma fold_16_bit : all_range 16 0 fold_ok = true.
Proof. vm_compute. reflexivity. Qed.

(** X22: [readCurrent] never stores a positive current.  For a 16-bit
    reading [c] it stores minus the hundredth of [c] when [c] is at most
    25000, and minus the hundredth of [65535 - c] above: the two
    directions of the current are told apart by the fold and then given
    the same sign. *)
Theorem readCurrent_discards_sign (element : gmap Z field_data)
  (tmp : gmap scalar (gmap string pyval)) (sensorId : scalar) (elementId : Z)
  (a c : Z) (d : gmap string pyval) :
  0 <= c < 65536 ->
  element !! elementId = Some (FList a c) -> tmp !! sensorId = Some d ->
  readCurrent element tmp sensorId elementId
  = Ok (<[sensorId :=
            <["current" :=
                VFloat (PrimFloat.opp (PrimFloat.div (float_of_Z (folded c)) 100))]>
              d]> tmp) /\
  0 <= folded c <= 40535 /\
  PrimFloat.leb (PrimFloat.opp (PrimFloat.div (float_of_Z (folded c)) 100)) 0 = true.
Proof.
  intros Hc He Ht.
  pose proof (all_range_sound 16 0 fold_ok fold_16_bit c Hc) as H.
  unfold fold_ok in H.
  destruct (fold_current (SInt c)) as [x| |] eqn:Hx; try discriminate H.
  cbn zeta in H. apply andb_true_iff in H as [H Hle].
  apply Leibniz.eqb_spec in H.
  split; [|split; [|done]].
  - unfold readCurrent, item. rewrite He. cbn [bind index]. rewrite Hx. cbn [bind].
    rewrite (tmp_update_ok tmp sensorId d) by done. by rewrite H.
  - unfold folded.
    destruct (25000 <? c) eqn:E; [apply Z.ltb_lt in E|apply Z.ltb_ge in E]; lia.
Qed.

Lemma readCurrent_discards_sign_witness :
  readCurrent {[ 4 := FList 0 65035 ]} {[ SInt 1 := ∅ ]} (SInt 1) 4
  = Ok (<[SInt 1 :=
            <["current" :=
                VFloat (PrimFloat.opp (PrimFloat.div (float_of_Z (folded 65035)) 100))]>
              ∅]> {[ SInt 1 := ∅ ]}) /\
  0 <= folded 65035 <= 40535 /\
  PrimFloat.leb (PrimFloat.opp (PrimFloat.div (float_of_Z (folded 65035)) 100)) 0 = true.
Proof.
  apply (readCurrent_discards_sign {[ 4 := FList 0 65035 ]} {[ SInt 1 := ∅ ]}
           (SInt 1) 4 0 65035 ∅).
  - lia.
  - reflexivity.
  - reflexivity.
Defined.

(** *** Temperatures *)

Lemma temperature_16_bit : all_range 16 0 temperature_ok = true.
Proof. vm_compute. reflexivity. Qed.

(** X23: in [pico-json.py] the formatting to two decimals changes nothing:
    for every 16-bit reading [toTemperature] gives exactly the tenth of the
    reading that [IntToDecimal] gives, taken as a negative number above
    32768; the reading 32768 itself stays positive (3276.8). *)
Theorem toTemperature_json_is_a_tenth (t : Z) :
  0 <= t < 65536 ->
  toTemperature Json (SInt t) = IntToDecimal (VInt (signed t)) /\
  IntToDecimal (VInt (signed t)) = Ok (PrimFloat.div (float_of_Z (signed t)) 10) /\
  - 32767 <= signed t <= 32768.
Proof.
  intros Ht.
  pose proof (all_range_sound 16 0 temperature_ok temperature_16_bit t Ht) as H.
  unfold temperature_ok in H.
  destruct (toTemperature Json (SInt t)) as [x| |]; try discriminate H.
  destruct (IntToDecimal (VInt (signed t))) as [y| |] eqn:Hy; try discriminate H.
  apply Leibniz.eqb_spec in H. subst y.
  split; [done|]. split.
  - rewrite <- Hy. unfold IntToDecimal, truediv, fdiv. cbn [as_float bind].
    replace (PrimFloat.eqb 10 0) with false by reflexivity. reflexivity.
  - unfold signed.
    destruct (32768 <? t) eqn:E; [apply Z.ltb_lt in E|apply Z.ltb_ge in E]; lia.
Qed.

Lemma toTemperature_json_is_a_tenth_witness :
  toTemperature Json (SInt 65535) = IntToDecimal (VInt (signed 65535)) /\
  IntToDecimal (VInt (signed 65535))
  = Ok (PrimFloat.div (float_of_Z (signed 65535)) 10) /\
  - 32767 <= signed 65535 <= 32768.
Proof. apply (toTemperature_json_is_a_tenth 65535). lia. Defined.

(** *** Batteries *)

Lemma readBatt_run (v : variant) (sensorList : gmap scalar (gmap string pyval))
  (element : gmap Z field_data) (tmp : gmap scalar (gmap string pyval))
  (sensorId : scalar) (elementId a a' b1 c b2' b2 n n' : Z)
  (d dt : gmap string pyval) (soc current : float) :
  element !! elementId = Some (FList a a') ->
  element !! (elementId + 1) = Some (FList b1 c) ->
  element !! (elementId + 2) = Some (FList b2' b2) ->
  sensorList !! sensorId = Some d -> d !! "capacity.nominal" = Some (VInt n) ->
  tmp !! sensorId = Some dt -> dt !! "capacity.nominal" = Some (VInt n') ->
  stateOfCharge v (SInt a) = Ok soc -> fold_current (SInt c) = Ok current ->
  readBatt v sensorList element tmp sensorId elementId
  = (let d5 := batt_descriptor v dt n n' b2 soc current in
     if bool_decide (SInt a = SInt 65535) then Ok (<[sensorId := d5]> tmp)
     else
       let* t := fdiv (PrimFloat.div (float_of_Z n) (float_of_Z 12))
                   (PrimFloat.add (load_term v current soc) one_thousandth) in
       let* timeRemaining := py_round t in
       Ok (<[sensorId :=
               <["capacity.timeRemaining" :=
                   VInt (if timeRemaining <? 0 then 60 * 60 * 24 * 7
                         else timeRemaining)]> d5]> tmp)).
Proof.
  intros He He1 He2 Hd Hn Ht Hn' Hsoc Hcur.
  unfold readBatt, item. rewrite He, He1, He2, Hd. cbn [bind index].
  rewrite Hsoc, Hcur. cbn [bind].
  rewrite (tmp_update_ok tmp sensorId dt) by done. cbn [bind].
  rewrite Hn. cbn [default from_option id as_float bind].
  assert (fdiv (PrimFloat.mul (float_of_Z n) soc)
            match v with Json => 43200%float | Raw => 4320000%float end
          = Ok (PrimFloat.div (PrimFloat.mul (float_of_Z n) soc) (remaining_divisor v)))
    as ->.
  { unfold fdiv. by destruct v. }
  cbn [bind].
  rewrite (tmp_update_ok _ sensorId (<["stateOfCharge" := VFloat soc]> dt))
    by apply lookup_insert_eq.
  cbn [bind]. rewrite insert_insert_eq.
  unfold truediv at 1. cbn [of_scalar as_float bind]. unfold fdiv at 1.
  replace (PrimFloat.eqb 1000 0) with false by reflexivity. cbn [bind].
  rewrite (tmp_update_ok _ sensorId
             (<["capacity.remaining" :=
                  VFloat (PrimFloat.div (PrimFloat.mul (float_of_Z n) soc)
                            (remaining_divisor v))]>
                (<["stateOfCharge" := VFloat soc]> dt)))
    by apply lookup_insert_eq.
  cbn [bind]. rewrite insert_insert_eq, lookup_insert_eq. cbn [bind].
  rewrite !lookup_insert_ne by done. rewrite Hn'. cbn [bind].
  unfold truediv at 1. cbn [as_float bind]. unfold fdiv at 1.
  replace (PrimFloat.eqb (float_of_Z 43200) 0) with false by reflexivity.
  cbn [bind]. rewrite insert_insert_eq.
  rewrite (tmp_update_ok _ sensorId
             (<["capacity.nominal" :=
                  VFloat (PrimFloat.div (float_of_Z n') (float_of_Z 43200))]>
                (<["voltage" := VFloat (PrimFloat.div (float_of_Z b2) 1000)]>
                   (<["capacity.remaining" :=
                        VFloat (PrimFloat.div (PrimFloat.mul (float_of_Z n) soc)
                                  (remaining_divisor v))]>
                      (<["stateOfCharge" := VFloat soc]> dt)))))
    by apply lookup_insert_eq.
  cbn [bind]. rewrite insert_insert_eq.
  fold (batt_descriptor v dt n n' b2 soc current). cbn zeta.
  destruct (bool_decide (SInt a = SInt 65535)); [reflexivity|].
  unfold truediv at 1. cbn [as_float bind]. unfold fdiv at 1.
  replace (PrimFloat.eqb (float_of_Z 12) 0) with false by reflexivity.
  cbn [bind]. fold (load_term v current soc).
  destruct (fdiv _ _) as [t| |]; cbn [bind]; try reflexivity.
  destruct (py_round t) as [r| |]; cbn [bind]; try reflexivity.
  rewrite (tmp_update_ok _ sensorId (batt_descriptor v dt n n' b2 soc current))
    by apply lookup_insert_eq.
  by rewrite insert_insert_eq.
Qed.

Lemma zero_load_checked :
  all_range 11 0 (zero_load Json) && all_range 11 0 (zero_load Raw) = true.
Proof. vm_compute. reflexivity. Qed.

Lemma zero_load_divisors (v : variant) (a c : Z) :
  0 < a -> 0 < c -> a * c = 1600 ->
  exists soc current,
    stateOfCharge v (SInt a) = Ok soc /\ fold_current (SInt c) = Ok current /\
    PrimFloat.eqb (PrimFloat.add (load_term v current soc) one_thousandth) 0 = true.
Proof.
  intros Ha Hc Hac.
  assert (0 <= a < 0 + 2 ^ Z.of_nat 11) as Hr by (simpl; nia).
  pose proof zero_load_checked as H. apply andb_true_iff in H as [Hj Hr'].
  assert (zero_load v a = true) as Hz.
  { destruct v; [exact (all_range_sound 11 0 _ Hj a Hr)
                |exact (all_range_sound 11 0 _ Hr' a Hr)]. }
  unfold zero_load in Hz.
  replace (0 <? a) with true in Hz by (symmetry; apply Z.ltb_lt; lia).
  assert (1600 mod a = 0) as Hm by (rewrite <- Hac, Z.mul_comm; apply Z.mod_mul; lia).
  assert (1600 / a = c) as Hq by (rewrite <- Hac, Z.mul_comm; apply Z.div_mul; lia).
  rewrite Hm, Hq in Hz. cbn [Z.eqb andb] in Hz.
  destruct (stateOfCharge v (SInt a)) as [soc| |]; try discriminate Hz.
  destruct (fold_current (SInt c)) as [current| |]; try discriminate Hz.
  eauto.
Qed.

(** X24: the term 0.001 that [readBatt] adds to the load does not keep the
    division for the remaining time from failing.  Whenever the state of
    charge reading times the current reading is 1600 (say 40 and 40, or
    1600 and 1), the load is exactly -0.001, the divisor is zero and
    [readBatt] raises [ZeroDivisionError], in both scripts. *)
Theorem readBatt_zero_division (v : variant)
  (sensorList : gmap scalar (gmap string pyval)) (element : gmap Z field_data)
  (tmp : gmap scalar (gmap string pyval)) (sensorId : scalar)
  (elementId a a' b1 c b2' b2 n n' : Z) (d dt : gmap string pyval) :
  0 < a -> 0 < c -> a * c = 1600 ->
  element !! elementId = Some (FList a a') ->
  element !! (elementId + 1) = Some (FList b1 c) ->
  element !! (elementId + 2) = Some (FList b2' b2) ->
  sensorList !! sensorId = Some d -> d !! "capacity.nominal" = Some (VInt n) ->
  tmp !! sensorId = Some dt -> dt !! "capacity.nominal" = Some (VInt n') ->
  readBatt v sensorList element tmp sensorId elementId = Raise ZeroDivisionError.
Proof.
  intros Ha Hc Hac He He1 He2 Hd Hn Ht Hn'.
  destruct (zero_load_divisors v a c Ha Hc Hac) as (soc & current & Hsoc & Hcur & Hz).
  rewrite (readBatt_run v sensorList element tmp sensorId elementId
             a a' b1 c b2' b2 n n' d dt soc current) by done.
  cbn zeta. rewrite bool_decide_eq_false_2 by (intros [= ->]; nia).
  unfold fdiv. rewrite Hz. reflexivity.
Qed.

Lemma readBatt_zero_division_witness :
  readBatt Json
    {[ SInt 7 := {[ "capacity.nominal" := VInt 43200 ]} ]}
    {[ 10 := FList 40 0; 11 := FList 0 40; 12 := FList 0 12500 ]}
    {[ SInt 7 := {[ "capacity.nominal" := VInt 43200 ]} ]}
    (SInt 7) 10
  = Raise ZeroDivisionError.
Proof.
  apply (readBatt_zero_division Json _ _ _ (SInt 7) 10 40 0 0 40 0 12500 43200 43200
           {[ "capacity.nominal" := VInt 43200 ]}
           {[ "capacity.nominal" := VInt 43200 ]}).
  - lia.
  - lia.
  - reflexivity.
  - reflexivity.
  - reflexivity.
  - reflexivity.
  - reflexivity.
  - reflexivity.
  - reflexivity.
  - reflexivity.
Defined.

(** X25: when [readBatt] returns for a battery whose readings are numbers,
    the remaining time it has stored is never negative (a negative result
    is replaced by one week, 604800 seconds), and for the state of charge
    reading 65535 no remaining time is stored at all: the key keeps what
    it held before. *)
Theorem readBatt_time_remaining (v : variant)
  (sensorList : gmap scalar (gmap string pyval)) (element : gmap Z field_data)
  (tmp tmp' : gmap scalar (gmap string pyval)) (sensorId : scalar)
  (elementId a a' b1 c b2' b2 n n' : Z) (d dt : gmap string pyval) :
  0 <= c < 65536 ->
  element !! elementId = Some (FList a a') ->
  element !! (elementId + 1) = Some (FList b1 c) ->
  element !! (elementId + 2) = Some (FList b2' b2) ->
  sensorList !! sensorId = Some d -> d !! "capacity.nominal" = Some (VInt n) ->
  tmp !! sensorId = Some dt -> dt !! "capacity.nominal" = Some (VInt n') ->
  readBatt v sensorList element tmp sensorId elementId = Ok tmp' ->
  exists d',
    tmp' !! sensorId = Some d' /\
    (a = 65535 ->
     d' !! "capacity.timeRemaining" = dt !! "capacity.timeRemaining") /\
    (a <> 65535 ->
     exists t, d' !! "capacity.timeRemaining" = Some (VInt t) /\ 0 <= t).
Proof.
  intros Hc He He1 He2 Hd Hn Ht Hn' H.
  assert (exists soc, stateOfCharge v (SInt a) = Ok soc) as [soc Hsoc].
  { unfold stateOfCharge, truediv, fdiv. cbn [of_scalar as_float bind].
    destruct v; cbn [soc_divisor];
      [replace (PrimFloat.eqb 16000 0) with false by reflexivity
      |replace (PrimFloat.eqb 160 0) with false by reflexivity]; eauto. }
  assert (exists current, fold_current (SInt c) = Ok current) as [current Hcur].
  { pose proof (all_range_sound 16 0 fold_ok fold_16_bit c Hc) as Hf.
    unfold fold_ok in Hf. destruct (fold_current (SInt c)); [eauto|done..]. }
  rewrite (readBatt_run v sensorList element tmp sensorId elementId
             a a' b1 c b2' b2 n n' d dt soc current) in H by done.
  cbn zeta in H. case_bool_decide as Ha.
  - injection H as <-. injection Ha as ->.
    exists (batt_descriptor v dt n n' b2 soc current).
    split; [apply lookup_insert_eq|]. split; [|done].
    intros _. unfold batt_descriptor. by rewrite !lookup_insert_ne.
  - apply bind_Ok in H as (t & _ & H). apply bind_Ok in H as (r & _ & H).
    injection H as <-. eexists. split; [apply lookup_insert_eq|].
    split; [intros ->; done|]. intros _. eexists.
    split; [apply lookup_insert_eq|].
    destruct (r <? 0) eqn:E; [lia|]. apply Z.ltb_ge in E. lia.
Qed.

Lemma readBatt_time_remaining_witness :
  exists d',
    (<[SInt 7 := batt_descriptor Json {[ "capacity.nominal" := VInt 43200 ]}
                   43200 43200 12500 (PrimFloat.div (float_of_Z 65535) 16000)
                   (PrimFloat.mul (PrimFloat.div (float_of_Z 40) 100) (-1))]>
       ({[ SInt 7 := {[ "capacity.nominal" := VInt 43200 ]} ]}
          : gmap scalar (gmap string pyval))) !! SInt 7 = Some d' /\
    (65535 = 65535 ->
     d' !! "capacity.timeRemaining"
     = ({[ "capacity.nominal" := VInt 43200 ]} : gmap string pyval)
         !! "capacity.timeRemaining") /\
    (65535 <> 65535 ->
     exists t, d' !! "capacity.timeRemaining" = Some (VInt t) /\ 0 <= t).
Proof.
  apply (readBatt_time_remaining Json
           {[ SInt 7 := {[ "capacity.nominal" := VInt 43200 ]} ]}
           {[ 10 := FList 65535 0; 11 := FList 0 40; 12 := FList 0 12500 ]}
           {[ SInt 7 := {[ "capacity.nominal" := VInt 43200 ]} ]}
           _ (SInt 7) 10 65535 0 0 40 0 12500 43200 43200
           {[ "capacity.nominal" := VInt 43200 ]}
           {[ "capacity.nominal" := VInt 43200 ]}).
  - lia.
  - reflexivity.
  - reflexivity.
  - reflexivity.
  - reflexivity.
  - reflexivity.
  - reflexivity.
  - reflexivity.
  - reflexivity.
Defined.
